(** * sentinl report action: a shallow embedding of
      [server/lib/actions/actions/report.js]

    The file models the report action of the watcher: the [Authenticator]
    strategies, the [Reporter] browser session, the two packaging helpers
    [createReportFileName] and [createReportAttachment], and the orchestrator
    [doReport].

    Modelling conventions.
    - JavaScript objects that the code shares and mutates (the configuration
      returned by [getConfiguration], the [Reporter] instance) live in an
      explicit heap [gmap loc obj]; a reference is a value [VRef l].
    - The action and the task are read only by the code; they are records
      whose leaves are JavaScript values.
    - Every call that leaves the file (puppeteer, mustache, uuid, moment, the
      mail client, the history store) is answered by a host function
      [host : list entry -> call -> reply] that sees the calls made so far;
      each call and its reply are appended to a trace.
      A collaborator does not touch the heap; the logger and bluebird's
      [delay] do not fail.
    - [async]/[await] is sequential composition; a rejected promise is the
      outcome [Throw].
    - Strings are byte strings; numbers are integers, and the two places
      where the code computes on doubles ([timeout / 50], unary [+]) are kept
      symbolic in [jsnum]. *)

From Stdlib Require Import ZArith NArith Ascii String List Lia.
From Stdlib Require Import Init.Byte.
From stdpp Require Import base option list gmap strings pretty.

Local Open Scope string_scope.

(** ** Values *)

Definition loc := positive.

Inductive val :=
| VUndef
| VNull
| VBool (b : bool)
| VNum (n : Z)
| VStr (s : string)
| VRef (l : loc)              (* a plain object on the heap *)
| VBuf (bs : list byte)       (* a Buffer *)
| VHost (id : N).             (* an object owned by a collaborator: browser, page *)

Global Instance val_inhabited : Inhabited val := populate VUndef.

Abbreviation obj := (gmap string val).

(** A number handed to a collaborator. [NumOf v] is the numeric coercion of
    [v] (unary plus), [NumDiv v d] is [v / d] on doubles. *)
Inductive jsnum :=
| NumOf (v : val)
| NumDiv (v : val) (d : Z).

(** A primitive value. *)
Inductive prim :=
| PUndef
| PNull
| PBool (b : bool)
| PNum (n : Z)
| PStr (s : string).

Definition val_of_prim (p : prim) : val :=
  match p with
  | PUndef => VUndef
  | PNull => VNull
  | PBool b => VBool b
  | PNum n => VNum n
  | PStr s => VStr s
  end.

(** Values that can be thrown. [Error] is the object made by
    [new Error(msg)], [TypeError] and [RangeError] are raised by the runtime;
    what a collaborator throws is either an object, given by its string
    conversion and its JSON serialisation, or a primitive. *)
Inductive exn :=
| Error (msg : string)
| TypeError (msg : string)
| RangeError (msg : string)
| HostError (str json : string)
| HostPrim (p : prim).

(** Conversion to a boolean, as [if], [!] and [||] do. *)
Definition truthy (v : val) : bool :=
  match v with
  | VUndef | VNull => false
  | VBool b => b
  | VNum n => negb (n =? 0)%Z
  | VStr s => negb (String.eqb s EmptyString)
  | VRef _ | VBuf _ | VHost _ => true
  end.

(** Strings are byte strings: a Buffer converts to the string of its bytes. *)
Definition string_of_bytes (bs : list byte) : string :=
  string_of_list_ascii (map ascii_of_byte bs).

Definition bytes_of_string (s : string) : list byte :=
  map byte_of_ascii (list_ascii_of_string s).

(** Conversion to a string, as a template literal and [+] with a string do. *)
Definition to_string (v : val) : string :=
  match v with
  | VUndef => "undefined"
  | VNull => "null"
  | VBool true => "true"
  | VBool false => "false"
  | VNum n => pretty n
  | VStr s => s
  | VRef _ | VHost _ => "[object Object]"
  | VBuf bs => string_of_bytes bs
  end.

Definition exn_to_string (e : exn) : string :=
  match e with
  | Error msg => "Error: " ++ msg
  | TypeError msg => "TypeError: " ++ msg
  | RangeError msg => "RangeError: " ++ msg
  | HostError str _ => str
  | HostPrim p => to_string (val_of_prim p)
  end.

(** [JSON.stringify] of a thrown object. An [Error] has no enumerable
    property of its own, so it serialises to an empty object. *)
Definition JSON_stringify (err : exn) : string :=
  match err with
  | HostError _ json => json
  | _ => "{}"
  end.

(** The expression [isObject(err) ? JSON.stringify(err) : err] of line 269:
    a thrown object is serialised, a primitive is passed as it is. *)
Definition serialized (err : exn) : val :=
  match err with
  | HostPrim p => val_of_prim p
  | _ => VStr (JSON_stringify err)
  end.

(** Strict equality with a string literal. *)
Definition is_str (v : val) (s : string) : bool :=
  match v with VStr t => String.eqb t s | _ => false end.

(** A default parameter value: used when the argument is [undefined]. *)
Definition default_arg (v d : val) : val :=
  match v with VUndef => d | _ => v end.

(** [s.split(c)] for a one-character separator. *)
Fixpoint split_on (c : ascii) (s : string) : list string :=
  match s with
  | EmptyString => [EmptyString]
  | String a rest =>
      if Ascii.eqb a c then EmptyString :: split_on c rest
      else match split_on c rest with
           | [] => [String a EmptyString]
           | p :: ps => String a p :: ps
           end
  end.

(** Indexing an array of strings: out of range gives [undefined]. *)
Definition str_index (l : list string) (i : nat) : val :=
  match l !! i with Some s => VStr s | None => VUndef end.

(** ** Base64, as [Buffer.prototype.toString('base64')] produces it
    (RFC 4648, with padding) *)

Module Base64.

Definition alphabet : string :=
  "ABCDEFGHIJKLMNOPQRSTUVWXYZabcdefghijklmnopqrstuvwxyz0123456789+/".

(** The character of a six-bit digit. *)
Definition digit_char (n : N) : ascii :=
  match String.get (N.to_nat n) alphabet with
  | Some c => c
  | None => "="%char
  end.

(** The six-bit digit of a character, if it is in the alphabet. *)
Definition char_digit (c : ascii) : option N :=
  let n := N_of_ascii c in
  if (65 <=? n)%N && (n <=? 90)%N then Some (n - 65)%N
  else if (97 <=? n)%N && (n <=? 122)%N then Some (n - 71)%N
  else if (48 <=? n)%N && (n <=? 57)%N then Some (n + 4)%N
  else if (n =? 43)%N then Some 62%N
  else if (n =? 47)%N then Some 63%N
  else None.

Definition pad : ascii := "="%char.

Fixpoint encode (bs : list byte) : string :=
  match bs with
  | [] => EmptyString
  | [a] =>
      let n := (Byte.to_N a * 65536)%N in
      String (digit_char (n / 262144)) (String (digit_char ((n / 4096) mod 64))
        (String pad (String pad EmptyString)))
  | [a; b] =>
      let n := (Byte.to_N a * 65536 + Byte.to_N b * 256)%N in
      String (digit_char (n / 262144)) (String (digit_char ((n / 4096) mod 64))
        (String (digit_char ((n / 64) mod 64)) (String pad EmptyString)))
  | a :: b :: c :: rest =>
      let n := (Byte.to_N a * 65536 + Byte.to_N b * 256 + Byte.to_N c)%N in
      String (digit_char (n / 262144)) (String (digit_char ((n / 4096) mod 64))
        (String (digit_char ((n / 64) mod 64)) (String (digit_char (n mod 64))
          (encode rest))))
  end.

(** The decoder of the receiving side: four characters give three bytes, a
    padded last group gives one or two. *)
Definition bytes3 (n : N) : option (list byte) :=
  a ← Byte.of_N (n / 65536); b ← Byte.of_N ((n / 256) mod 256);
  c ← Byte.of_N (n mod 256); Some [a; b; c].

Fixpoint decode (s : string) : option (list byte) :=
  match s with
  | EmptyString => Some []
  | String c1 (String c2 (String c3 (String c4 rest))) =>
      d1 ← char_digit c1; d2 ← char_digit c2;
      if Ascii.eqb c4 pad then
        match rest with
        | EmptyString =>
            if Ascii.eqb c3 pad then
              a ← Byte.of_N ((d1 * 262144 + d2 * 4096) / 65536)%N; Some [a]
            else
              d3 ← char_digit c3;
              let n := (d1 * 262144 + d2 * 4096 + d3 * 64)%N in
              a ← Byte.of_N (n / 65536); b ← Byte.of_N ((n / 256) mod 256);
              Some [a; b]
        | _ => None
        end
      else
        d3 ← char_digit c3; d4 ← char_digit c4;
        hd ← bytes3 (d1 * 262144 + d2 * 4096 + d3 * 64 + d4)%N;
        tl ← decode rest; Some (hd ++ tl)%list
  | _ => None
  end.

End Base64.

(** ** The data the action works on *)

(** [action.snapshot.params] *)
Record params := Params {
  par_username : val;
  par_password : val;
  par_delay : val;
  par_username_input_selector : val;
  par_password_input_selector : val;
  par_login_btn_selector : val }.

(** [action.snapshot] *)
Record snapshot := Snapshot {
  snap_url : val;
  snap_name : val;
  snap_type : val;
  snap_res : val;
  snap_params : params }.

Record action := Action {
  act_subject : val;
  act_body : val;
  act_priority : val;
  act_from : val;
  act_to : val;
  act_stateless : val;
  act_snapshot : snapshot }.

(** The watcher document, as Elasticsearch returns it: [task._id] and
    [task._source.title]. *)
Record task := Task {
  task_id : val;
  task_source_title : val }.

(** One part of the attachment array built by [createReportAttachment]:
    [{data, alternative}] or [{data, type, name, encoded, headers}]. *)
Inductive part :=
| Inline (data : string) (alternative : bool)
| File (data : string) (type : string) (name : val) (encoded : bool)
       (headers : list (string * string)).

(** The argument of [email.send]. *)
Record mail := Mail {
  mail_text : val;
  mail_from : val;
  mail_to : val;
  mail_subject : val;
  mail_attachment : list part }.

(** The two object literals handed to [logHistory]: the full record (with
    [payload: {}]) and the reduced one. *)
Inductive history :=
| HistoryFull (server title actionType level : val) (report : bool)
              (message : val) (object : list part)
| HistoryReduced (server title actionType message : val).

(** ** Calls that leave the file, and the trace *)

Inductive call :=
| LogNew (app_name server : val) (name : string)
| LogInfo (msg : string)
| LogDebug (msg : string)
| LogError (e : exn)
| Delay (ms : jsnum)
| MustacheRender (template payload : val)
| UuidV4
| MomentFormat (fmt : string)
| PuppeteerLaunch (executablePath : val) (args : list string) (ignoreHTTPSErrors : bool)
| BrowserNewPage (browser : val)
| BrowserClose (browser : val)
| PageSetExtraHTTPHeaders (page : val) (headers : list (string * string))
| PageGoto (page url : val) (waitUntil : string)
| PageType (page selector text : val) (delay : jsnum)
| PageClick (page selector : val)
| PageSetViewport (page : val) (width height : jsnum)
| PageScreenshot (page type : val)
| PagePdf (page format landscape : val)
| EmailSend (email : val) (msg : mail)
| LogHistory (record : history).

Inductive reply :=
| Returns (v : val)
| Raises (e : exn).

Definition entry : Type := call * reply.

(** ** The state and the monad *)

Record state := State {
  heap : gmap loc obj;
  trace : list entry }.

Inductive outcome (A : Type) :=
| Ret (a : A)
| Throw (e : exn).
Arguments Ret {A} a.
Arguments Throw {A} e.

Definition M (A : Type) : Type := state -> outcome A * state.

Global Instance M_ret : MRet M := λ A a s, (Ret a, s).

Global Instance M_bind : MBind M := λ A B f m s,
  match m s with
  | (Ret a, s') => f a s'
  | (Throw e, s') => (Throw e, s')
  end.

Definition throw {A} (e : exn) : M A := λ s, (Throw e, s).

(** [try { m } catch (err) { h err }] *)
Definition try_catch {A} (m : M A) (h : exn -> M A) : M A := λ s,
  match m s with
  | (Ret a, s') => (Ret a, s')
  | (Throw e, s') => h e s'
  end.

(** The property [k] of the object at [l]; [undefined] when it is not there. *)
Definition heap_get (h : gmap loc obj) (l : loc) (k : string) : val :=
  default VUndef (o ← h !! l; (o : obj) !! k).

Definition heap_set (h : gmap loc obj) (l : loc) (k : string) (x : val) : gmap loc obj :=
  <[l := <[k := x]> (default ∅ (h !! l))]> h.

(** Property read [v.k]. Reading through [undefined] or [null] raises; a
    property that is not there reads as [undefined]. *)
Definition getp (v : val) (k : string) : M val := λ s,
  match v with
  | VUndef | VNull =>
      (Throw (TypeError ("Cannot read property '" ++ k ++ "' of " ++ to_string v)), s)
  | VRef l => (Ret (heap_get (heap s) l k), s)
  | VStr t =>
      (Ret (if String.eqb k "length" then VNum (Z.of_nat (String.length t)) else VUndef), s)
  | VBuf bs =>
      (Ret (if String.eqb k "length" then VNum (Z.of_nat (List.length bs)) else VUndef), s)
  | VBool _ | VNum _ | VHost _ => (Ret VUndef, s)
  end.

(** Property write [v.k = x]. The module is strict code, so writing to a
    primitive raises; a Buffer and a collaborator's object are taken to be
    sealed. *)
Definition setp (v : val) (k : string) (x : val) : M unit := λ s,
  match v with
  | VRef l => (Ret (), State (heap_set (heap s) l k x) (trace s))
  | VUndef | VNull =>
      (Throw (TypeError ("Cannot set property '" ++ k ++ "' of " ++ to_string v)), s)
  | VBool _ | VNum _ | VStr _ =>
      (Throw (TypeError ("Cannot create property '" ++ k ++ "' on " ++ to_string v)), s)
  | VBuf _ | VHost _ =>
      (Throw (TypeError ("Cannot add property " ++ k ++ ", object is not extensible")), s)
  end.

(** A fresh object: an object literal or [new]. *)
Definition alloc (o : obj) : M val := λ s,
  let l := fresh (dom (heap s)) in
  (Ret (VRef l), State (<[l := o]> (heap s)) (trace s)).

(** [v.a.b.c] *)
Fixpoint getps (v : val) (path : list string) : M val :=
  match path with
  | [] => mret v
  | k :: rest => x ← getp v k; getps x rest
  end.

Section Report.

(** The collaborators: [host] answers a call, knowing the calls made so far.
    [getConfiguration] (imported from [../../get_configuration]) gives the
    configuration object of the server. *)
Variable host : list entry -> call -> reply.
Variable getConfiguration : val -> val.

Definition call_host (c : call) : M val := λ s,
  let r := host (trace s) c in
  let s' := State (heap s) (trace s ++ [(c, r)]) in
  match r with
  | Returns v => (Ret v, s')
  | Raises e => (Throw e, s')
  end.

(** The logger and bluebird's [delay] do not fail. *)
Definition call_total (c : call) : M val := λ s,
  (Ret VUndef, State (heap s) (trace s ++ [(c, Returns VUndef)])).

(** A method call [recv.m(...)]: only a collaborator's object has methods. *)
Definition invoke (recv : val) (m : string) (c : call) : M val :=
  match recv with
  | VHost _ => call_host c
  | VUndef | VNull =>
      throw (TypeError ("Cannot read property '" ++ m ++ "' of " ++ to_string recv))
  | _ => throw (TypeError (m ++ " is not a function"))
  end.

(** ** Authenticator (lines 15-56) *)

Definition Authenticator_kibana (page user pass appName timeout : val) : M unit :=
  let appName := default_arg appName (VStr "xpack") in
  let timeout := default_arg timeout (VNum 5000) in
  try_catch
    (invoke page "type" (PageType page (VStr "#username") user (NumDiv timeout 50));;
     invoke page "type" (PageType page (VStr "#password") pass (NumDiv timeout 50));;
     (if is_str appName "xpack"
      then invoke page "click" (PageClick page (VStr ".kuiButton"))
      else invoke page "click" (PageClick page (VStr ".btn-login")));;
     call_total (Delay (NumOf timeout));;
     invoke page "click" (PageClick page (VStr ".global-nav-link--close"));;
     call_total (Delay (NumDiv timeout 5));;
     mret ())
    (λ err, throw (Error ("fail to authenticate via Search Guard, user: "
                          ++ to_string user ++ ", " ++ exn_to_string err))).

Definition Authenticator_custom
    (page user pass userSelector passSelector loginBtnSelector timeout : val) : M unit :=
  let timeout := default_arg timeout (VNum 5000) in
  try_catch
    (invoke page "type" (PageType page userSelector user (NumDiv timeout 50));;
     invoke page "type" (PageType page passSelector pass (NumDiv timeout 50));;
     invoke page "click" (PageClick page loginBtnSelector);;
     call_total (Delay (NumOf timeout));;
     mret ())
    (λ err, throw (Error ("fail to authenticate via custom auth, user: "
                          ++ to_string user ++ ", " ++ exn_to_string err))).

(** [new Buffer(s).toString(encoding)]; of Node's encodings the model has
    base64 and utf8. *)
Definition Buffer_toString (bs : list byte) (encoding : val) : M string :=
  if is_str encoding "base64" then mret (Base64.encode bs)
  else if is_str encoding "utf8" then mret (string_of_bytes bs)
  else throw (TypeError ("Unknown encoding: " ++ to_string encoding)).

Definition Authenticator_basic (page user pass encoding : val) : M val :=
  let encoding := default_arg encoding (VStr "base64") in
  try_catch
    (enc ← Buffer_toString (bytes_of_string (to_string user ++ ":" ++ to_string pass)) encoding;
     let headers := [("Authorization", "Basic " ++ enc)] in
     invoke page "setExtraHTTPHeaders" (PageSetExtraHTTPHeaders page headers);;
     mret page)
    (λ err, throw (Error ("fail to set basic auth headers, user: "
                          ++ to_string user ++ ", " ++ exn_to_string err))).

(** ** Reporter (lines 58-136); [this] is the instance *)

Definition Reporter_new (config : val) : M val :=
  this ← alloc ∅;
  setp this "config" config;;
  mret this.

Definition Reporter_authenticate (this mode user pass timeout : val) : M unit :=
  searchguard ← getp mode "searchguard";
  (if truthy searchguard then
     page ← getp this "page";
     Authenticator_kibana page user pass (VStr "searchguard") timeout
   else mret ());;
  xpack ← getp mode "xpack";
  (if truthy xpack then
     page ← getp this "page";
     Authenticator_kibana page user pass (VStr "xpack") timeout
   else mret ());;
  custom ← getp mode "custom";
  (if truthy custom then
     page ← getp this "page";
     Authenticator_custom page user pass (VStr "#user") (VStr "#pass") (VStr ".btn-lg") timeout
   else mret ()).

Definition Reporter_openPage (this url executablePath : val) : M unit :=
  setp this "url" url;;
  try_catch
    (browser ← call_host (PuppeteerLaunch executablePath
                            ["--no-sandbox"; "--disable-setuid-sandbox"] true);
     setp this "browser" browser;;
     browser ← getp this "browser";
     page ← invoke browser "newPage" (BrowserNewPage browser);
     setp this "page" page)
    (λ err, throw (Error ("fail to open headless chrome, " ++ exn_to_string err)));;
  enabled ← getps this ["config"; "authentication"; "enabled"];
  basic ← (if truthy enabled
           then getps this ["config"; "authentication"; "mode"; "basic"]
           else mret enabled);
  (if truthy basic then
     page ← getp this "page";
     username ← getps this ["authentication"; "username"];
     password ← getps this ["authentication"; "password"];
     page ← Authenticator_basic page username password VUndef;
     setp this "page" page
   else mret ());;
  try_catch
    (page ← getp this "page";
     invoke page "goto" (PageGoto page url "networkidle0");;
     mret ())
    (λ err, throw (Error ("fail to go to url: " ++ to_string url)));;
  enabled ← getps this ["config"; "authentication"; "enabled"];
  if truthy enabled then
    authentication ← getps this ["config"; "authentication"];
    mode ← getp authentication "mode";
    username ← getp authentication "username";
    password ← getp authentication "password";
    timeout ← getps this ["config"; "timeout"];
    Reporter_authenticate this mode username password timeout
  else
    timeout ← getps this ["config"; "timeout"];
    call_total (Delay (NumOf timeout));;
    mret ().

(** Destructuring [const {a, b} = v] raises when [v] is [undefined] or [null]. *)
Definition destructure2 (v : val) (a b : string) : M (val * val) :=
  x ← getp v a; y ← getp v b; mret (x, y).

Definition Reporter_screenshot (this type : val) : M val :=
  let type := default_arg type (VStr "png") in
  shot ← getps this ["config"; "file"; "screenshot"];
  '(width, height) ← destructure2 shot "width" "height";
  try_catch
    (page ← getp this "page";
     invoke page "setViewport" (PageSetViewport page (NumOf width) (NumOf height));;
     page ← getp this "page";
     invoke page "screenshot" (PageScreenshot page type))
    (λ err, url ← getp this "url";
            throw (Error ("fail to do a screenshot, url: " ++ to_string url
                          ++ ", " ++ exn_to_string err))).

Definition Reporter_pdf (this : val) : M val :=
  pdf ← getps this ["config"; "file"; "pdf"];
  '(format, landscape) ← destructure2 pdf "format" "landscape";
  try_catch
    (page ← getp this "page";
     invoke page "pdf" (PagePdf page format landscape))
    (λ err, url ← getp this "url";
            throw (Error ("fail to do a PDF doc, url: " ++ to_string url
                          ++ ", " ++ exn_to_string err))).

Definition Reporter_end (this : val) : M unit :=
  try_catch
    (browser ← getp this "browser";
     invoke browser "close" (BrowserClose browser);;
     mret ())
    (λ err, throw (Error ("fail to close headless chrome, " ++ exn_to_string err))).

(** ** Packaging (lines 138-168) *)

Definition createReportFileName (filename type : val) : M val :=
  let type := default_arg type (VStr "png") in
  if negb (truthy filename) then
    id ← call_host UuidV4;
    stamp ← call_host (MomentFormat "DD-MM-YYYY-h-m-s");
    mret (VStr ("report-" ++ to_string id ++ "-" ++ to_string stamp ++ "." ++ to_string type))
  else
    mret (VStr (to_string filename ++ "." ++ to_string type)).

(** [file.toString('base64')]: a Buffer encodes its bytes, a string ignores
    the argument. *)
Definition toString_base64 (file : val) : M string :=
  match file with
  | VBuf bs => mret (Base64.encode bs)
  | VStr s => mret s
  | VBool _ | VRef _ | VHost _ => mret (to_string file)
  | VNum _ => throw (RangeError "toString() radix must be between 2 and 36")
  | VUndef | VNull =>
      throw (TypeError ("Cannot read property 'toString' of " ++ to_string file))
  end.

Definition createReportAttachment (filename file type : val) : M (list part) :=
  let type := default_arg type (VStr "png") in
  let filetype := "image/" ++ to_string type in
  let data := "<html><img src='cid:my-report' width='100%'></html>" in
  let '(filetype, data) :=
    if is_str type "pdf"
    then ("application/pdf", "<html><p>Find PDF report in the attachment.</p></html>")
    else (filetype, data) in
  encoded ← toString_base64 file;
  mret [ Inline data true;
         File encoded filetype filename true [("Content-ID", "<my-report>")] ].

(** ** doReport (lines 180-282) *)

(** [let x = v; if (!x || !x.length) { x = d }] *)
Definition or_default (v d : val) : M val :=
  if negb (truthy v) then mret d
  else len ← getp v "length";
       mret (if negb (truthy len) then d else v).

(** [v.split('x')] *)
Definition split_x (v : val) : M (list string) :=
  match v with
  | VStr s => mret (split_on "x" s)
  | VUndef | VNull =>
      throw (TypeError ("Cannot read property 'split' of " ++ to_string v))
  | _ => throw (TypeError "split is not a function")
  end.

(** [a || e], where [e] is evaluated only when [a] is falsy. *)
Definition or_else (a : val) (e : M val) : M val :=
  if truthy a then mret a else e.

(** Lines 214-226: the per-action values are written into the configuration
    object. *)
Definition overlay (config : val) (action : action) : M unit :=
  let snap := act_snapshot action in
  let par := snap_params snap in
  authentication ← getp config "authentication";
  setp authentication "username" (par_username par);;
  authentication ← getp config "authentication";
  setp authentication "password" (par_password par);;
  screenshot ← getps config ["file"; "screenshot"];
  parts ← split_x (snap_res snap);
  setp screenshot "width" (str_index parts 0);;
  screenshot ← getps config ["file"; "screenshot"];
  parts ← split_x (snap_res snap);
  setp screenshot "height" (str_index parts 1);;
  timeout ← or_else (par_delay par) (getp config "timeout");
  setp config "timeout" timeout;;
  custom ← getps config ["authentication"; "mode"; "custom"];
  if truthy custom then
    authentication ← getp config "authentication";
    username_input_selector ←
      or_else (par_username_input_selector par)
              (getps config ["authentication"; "custom"; "username_input_selector"]);
    password_input_selector ←
      or_else (par_password_input_selector par)
              (getps config ["authentication"; "custom"; "password_input_selector"]);
    login_btn_selector ←
      or_else (par_login_btn_selector par)
              (getps config ["authentication"; "custom"; "login_btn_selector"]);
    custom ← alloc (<["username_input_selector" := username_input_selector]>
                   (<["password_input_selector" := password_input_selector]>
                   (<["login_btn_selector" := login_btn_selector]> ∅)));
    setp authentication "custom" custom
  else mret ().

Definition stateless_message : string :=
  "stateless report does not save data to Elasticsearch".

(** Lines 251-278: the history record, or the result of a stateless run. *)
Definition persist (server : val) (task : task) (action : action)
    (actionName priority text : val) (attachment : list part) : M val :=
  if negb (truthy (act_stateless action)) then
    try_catch
      (call_host (LogHistory (HistoryFull server (task_source_title task) actionName
                                priority true text attachment)))
      (λ err,
         if negb (truthy (act_stateless action)) then
           call_host (LogHistory (HistoryReduced server (task_source_title task) actionName
                        (serialized err)))
         else
           throw (Error ("fail to save report in Elasticsearch, " ++ exn_to_string err)))
  else
    call_total (LogDebug "stateless report does not save data to Elasticsearch");;
    alloc (<["message" := VStr stateless_message]> ∅).

(** Lines 229-278: the body of the [try] block. *)
Definition session (config server email : val) (task : task) (action : action)
    (actionName priority subject text filename : val) : M val :=
  let snap := act_snapshot action in
  report ← Reporter_new config;
  executable_path ← getp config "executable_path";
  Reporter_openPage report (snap_url snap) executable_path;;
  file ← (if negb (is_str (snap_type snap) "pdf")
          then Reporter_screenshot report (snap_type snap)
          else Reporter_pdf report);
  Reporter_end report;;
  call_total (LogDebug ("sending email, watcher " ++ to_string (task_id task)
                        ++ ", text " ++ to_string text));;
  attachment ← createReportAttachment filename file (snap_type snap);
  invoke email "send"
    (EmailSend email (Mail text (act_from action) (act_to action) subject attachment));;
  persist server task action actionName priority text attachment.

(** Lines 181-226: everything before the [try] block. It returns what the
    block needs: the configuration, the priority, the rendered subject and
    text, and the file name. *)
Definition prepare (server : val) (action : action) (actionName payload : val)
    : M (val * val * val * val * val) :=
  let config := getConfiguration server in
  app_name ← getp config "app_name";
  call_total (LogNew app_name server "report_action");;
  config ← getps config ["settings"; "report"];
  active ← getp config "active";
  if negb (truthy active) then
    throw (Error "Reports Disabled: Action requires Email Settings!")
  else
    len ← getp (snap_url (act_snapshot action)) "length";
    (if negb (truthy len)
     then call_total (LogInfo "Report Disabled: No URL Settings!")
     else mret VUndef);;
    formatterSubject ←
      or_default (act_subject action) (VStr ("SENTINL: " ++ to_string actionName));
    formatterText ←
      or_default (act_body action)
                 (VStr "Series Report {{payload._id}}: {{payload.hits.total}}");
    priority ← or_default (act_priority action) (VStr "INFO");
    subject ← call_host (MustacheRender formatterSubject payload);
    text ← call_host (MustacheRender formatterText payload);
    call_total (LogDebug ("subject: " ++ to_string subject ++ ", body: " ++ to_string text));;
    filename ← createReportFileName (snap_name (act_snapshot action))
                                    (snap_type (act_snapshot action));
    overlay config action;;
    mret (config, priority, subject, text, filename).

Definition doReport (server email : val) (task : task) (action : action)
    (actionName payload : val) : M val :=
  '(config, priority, subject, text, filename) ← prepare server action actionName payload;
  try_catch
    (session config server email task action actionName priority subject text filename)
    (λ err, call_total (LogError err)).

End Report.

(** ** The vocabulary of the specification

    What follows is not part of the program: the pure readings of the heap,
    the classes of trace entries, the relations between states, and the
    shapes of runs in which the theorems are stated. *)

Local Open Scope list_scope.

Definition reply_outcome (r : reply) : outcome val :=
  match r with Returns v => Ret v | Raises e => Throw e end.

(** What a property read gives, as a function of the heap. *)
Definition getp_pure (h : gmap loc obj) (v : val) (k : string) : outcome val :=
  (getp v k (State h [])).1.

(** The property at the end of a path, read from a heap. *)
Definition read (h : gmap loc obj) (v : val) (path : list string) : outcome val :=
  (getps v path (State h [])).1.

(** What [createReportAttachment] gives; it does not depend on the state. *)
Definition attachment_of (filename file type : val) : outcome (list part) :=
  (createReportAttachment filename file type (State ∅ [])).1.

(** [a || e] on the value [a] and the outcome of reading [e]. *)
Definition or_read (a : val) (r : outcome val) : outcome val :=
  if truthy a then Ret a else r.

(** The configuration object [config] holds the per-action values in the
    heap [h1]; [h0] is the heap before, where the fallbacks are read. *)
Definition overlaid (h0 h1 : gmap loc obj) (config : val) (action : action) : Prop :=
  let snap := act_snapshot action in
  let par := snap_params snap in
  read h1 config ["authentication"; "username"] = Ret (par_username par) /\
  read h1 config ["authentication"; "password"] = Ret (par_password par) /\
  (exists res, snap_res snap = VStr res /\
     read h1 config ["file"; "screenshot"; "width"] = Ret (str_index (split_on "x" res) 0) /\
     read h1 config ["file"; "screenshot"; "height"] = Ret (str_index (split_on "x" res) 1)) /\
  read h1 config ["timeout"] = or_read (par_delay par) (read h0 config ["timeout"]) /\
  forall mode, read h0 config ["authentication"; "mode"; "custom"] = Ret mode ->
    truthy mode = true ->
    read h1 config ["authentication"; "custom"; "username_input_selector"]
    = or_read (par_username_input_selector par)
        (read h0 config ["authentication"; "custom"; "username_input_selector"]) /\
    read h1 config ["authentication"; "custom"; "password_input_selector"]
    = or_read (par_password_input_selector par)
        (read h0 config ["authentication"; "custom"; "password_input_selector"]) /\
    read h1 config ["authentication"; "custom"; "login_btn_selector"]
    = or_read (par_login_btn_selector par)
        (read h0 config ["authentication"; "custom"; "login_btn_selector"]).

(** The properties of the configuration that the overlay reads or writes. *)
Definition config_keys : list string :=
  ["settings"; "report"; "authentication"; "username"; "password"; "file";
   "screenshot"; "width"; "height"; "timeout"; "mode"; "custom";
   "username_input_selector"; "password_input_selector"; "login_btn_selector"]%string.

Definition agree_on (keys : list string) (h h' : gmap loc obj) : Prop :=
  forall l k, k ∈ keys -> heap_get h' l k = heap_get h l k.

(** *** Classes of trace entries *)

Definition prep_call (c : call) : bool :=
  match c with
  | LogNew _ _ _ | LogInfo _ | LogDebug _ | MustacheRender _ _ | UuidV4 | MomentFormat _ => true
  | _ => false
  end.

Definition viewport_call (c : call) : bool :=
  match c with PageSetViewport _ _ _ => true | _ => false end.

Definition capture_call (c : call) : bool :=
  match c with PageScreenshot _ _ | PagePdf _ _ _ => true | _ => false end.

(** What a failed capture leaves in the trace. *)
Definition capture_miss (e : entry) : bool :=
  match e with
  | (PageSetViewport _ _ _, _) => true
  | (PageScreenshot _ _, Raises _) | (PagePdf _ _ _, Raises _) => true
  | _ => false
  end.

Definition string_in (l : list string) (v : val) : bool :=
  match v with VStr s => existsb (String.eqb s) l | _ => false end.

(** The calls of [openPage]; the selectors typed into and clicked are
    literals of the source. *)
Definition open_call (c : call) : bool :=
  match c with
  | PuppeteerLaunch _ _ _ | BrowserNewPage _ | PageSetExtraHTTPHeaders _ _
  | PageGoto _ _ _ | Delay _ => true
  | PageType _ sel _ _ => string_in ["#username"; "#password"; "#user"; "#pass"]%string sel
  | PageClick _ sel =>
      string_in [".kuiButton"; ".btn-login"; ".global-nav-link--close"; ".btn-lg"]%string sel
  | _ => false
  end.

Definition prep_entry (e : entry) : bool := prep_call e.1.
Definition open_entry (e : entry) : bool := open_call e.1.

Definition is_interaction (e : entry) : bool :=
  match e.1 with PageType _ _ _ _ | PageClick _ _ => true | _ => false end.

(** *** Relations between the state before and the state after *)

Definition extends (P : entry -> bool) (s s' : state) : Prop :=
  exists evs, trace s' = trace s ++ evs /\ Forall (λ e, P e = true) evs.

Definition unchanged (s s' : state) : Prop := s' = s.

(** [keeps l k]: the property [k] of the object at [l] is not changed. *)
Definition keeps (l : loc) (k : string) (s s' : state) : Prop :=
  heap_get (heap s') l k = heap_get (heap s) l k.

(** [same_heap]: the heap is not changed. *)
Definition same_heap (s s' : state) : Prop := heap s' = heap s.

(** Any call but [page.setExtraHTTPHeaders]. *)
Definition no_header (e : entry) : bool :=
  match e.1 with PageSetExtraHTTPHeaders _ _ => false | _ => true end.

(** As long as the object at [l] has no property [authentication], no
    header is set. *)
Definition without_authentication (l : loc) (s s' : state) : Prop :=
  heap_get (heap s) l "authentication" = VUndef ->
  heap_get (heap s') l "authentication" = VUndef /\ extends no_header s s'.

Definition sets_header (e : entry) : bool := negb (no_header e).

Section Footprint.
Variable R : state -> state -> Prop.

(** [steps R m]: every run of [m] relates the state before to the state
    after by [R], whatever the outcome. *)
Record steps {A} (m : M A) : Prop := Steps { steps_at : forall s, R s (m s).2 }.

(** The primitives that change the state need [R] to accept the change. *)
Definition accepts_write (k : string) : Prop :=
  forall s l x, R s (State (heap_set (heap s) l k x) (trace s)).
Definition accepts_alloc (o : obj) : Prop :=
  forall s, R s (State (<[fresh (dom (heap s)) := o]> (heap s)) (trace s)).
Definition accepts_entry (e : entry) : Prop :=
  forall s, R s (State (heap s) (trace s ++ [e])).

End Footprint.

(** *** The shapes of a run

    Every run of [persist], of the [try] block and of [doReport] leaves one
    of a few traces. The predicates below list them: the outcome, the trace
    entries added, and the final heap. *)

Inductive capture_run : outcome val -> list entry -> Prop :=
| capture_ok vp c file :
    Forall (λ e, viewport_call e.1 = true) vp -> capture_call c = true ->
    capture_run (Ret file) (vp ++ [(c, Returns file)])
| capture_failed e cap :
    Forall (λ e, capture_miss e = true) cap -> capture_run (Throw e) cap.

Section Shapes.
Variables (server email : val) (task : task) (action : action) (actionName : val).

Definition full_record (priority text : val) (attachment : list part) : history :=
  HistoryFull server (task_source_title task) actionName priority true text attachment.

Definition reduced_record (err : exn) : history :=
  HistoryReduced server (task_source_title task) actionName
    (serialized err).

Inductive persist_run (priority text : val) (attachment : list part)
  : outcome val -> list entry -> gmap loc obj -> Prop :=
| persist_stateless l h :
    truthy (act_stateless action) = true ->
    h !! l = Some (<["message" := VStr stateless_message]> ∅) ->
    persist_run priority text attachment (Ret (VRef l))
      [(LogDebug "stateless report does not save data to Elasticsearch", Returns VUndef)] h
| persist_primary v h :
    truthy (act_stateless action) = false ->
    persist_run priority text attachment (Ret v)
      [(LogHistory (full_record priority text attachment), Returns v)] h
| persist_fallback err v h :
    truthy (act_stateless action) = false ->
    persist_run priority text attachment (Ret v)
      [(LogHistory (full_record priority text attachment), Raises err);
       (LogHistory (reduced_record err), Returns v)] h
| persist_lost err err' h :
    truthy (act_stateless action) = false ->
    persist_run priority text attachment (Throw err')
      [(LogHistory (full_record priority text attachment), Raises err);
       (LogHistory (reduced_record err), Raises err')] h.

Inductive session_run (priority subject text filename : val)
  : outcome val -> list entry -> gmap loc obj -> Prop :=
| session_no_capture err op cap h :
    Forall (λ e, open_entry e = true) op ->
    Forall (λ e, capture_miss e = true) cap ->
    session_run priority subject text filename (Throw err) (op ++ cap) h
| session_close_failed err op vp c file browser h :
    Forall (λ e, open_entry e = true) op ->
    Forall (λ e, viewport_call e.1 = true) vp -> capture_call c = true ->
    session_run priority subject text filename
      (Throw (Error ("fail to close headless chrome, " +:+ exn_to_string err)))
      (op ++ vp ++ [(c, Returns file); (BrowserClose browser, Raises err)]) h
| session_no_mail err op vp c file browser v msg h :
    Forall (λ e, open_entry e = true) op ->
    Forall (λ e, viewport_call e.1 = true) vp -> capture_call c = true ->
    session_run priority subject text filename (Throw err)
      (op ++ vp ++ [(c, Returns file); (BrowserClose browser, Returns v);
                    (LogDebug msg, Returns VUndef)]) h
| session_mail_failed err op vp c file browser v msg attachment h :
    Forall (λ e, open_entry e = true) op ->
    Forall (λ e, viewport_call e.1 = true) vp -> capture_call c = true ->
    attachment_of filename file (snap_type (act_snapshot action)) = Ret attachment ->
    session_run priority subject text filename (Throw err)
      (op ++ vp ++ [(c, Returns file); (BrowserClose browser, Returns v);
                    (LogDebug msg, Returns VUndef);
                    (EmailSend email (Mail text (act_from action) (act_to action)
                                        subject attachment), Raises err)]) h
| session_mailed r op vp c file browser v msg attachment w evs h :
    Forall (λ e, open_entry e = true) op ->
    Forall (λ e, viewport_call e.1 = true) vp -> capture_call c = true ->
    attachment_of filename file (snap_type (act_snapshot action)) = Ret attachment ->
    persist_run priority text attachment r evs h ->
    session_run priority subject text filename r
      (op ++ vp ++ (c, Returns file) :: (BrowserClose browser, Returns v)
          :: (LogDebug msg, Returns VUndef)
          :: (EmailSend email (Mail text (act_from action) (act_to action)
                                 subject attachment), Returns w) :: evs) h.

Inductive report_run : outcome val -> list entry -> gmap loc obj -> Prop :=
| report_rejected err pre h :
    Forall (λ e, prep_entry e = true) pre ->
    report_run (Throw err) pre h
| report_returned priority subject text filename v pre evs h :
    Forall (λ e, prep_entry e = true) pre ->
    session_run priority subject text filename (Ret v) evs h ->
    report_run (Ret v) (pre ++ evs) h
| report_contained priority subject text filename err pre evs h :
    Forall (λ e, prep_entry e = true) pre ->
    session_run priority subject text filename (Throw err) evs h ->
    report_run (Ret VUndef) (pre ++ evs ++ [(LogError err, Returns VUndef)]) h.

End Shapes.

(** *** Counting trace entries *)

Definition count (Q : entry -> bool) (tr : list entry) : nat :=
  length (List.filter Q tr).

Definition returned (r : reply) : bool :=
  match r with Returns _ => true | Raises _ => false end.

(** An attempt to close the browser, with whatever result. *)
Definition is_close (e : entry) : bool :=
  match e.1 with BrowserClose _ => true | _ => false end.

Definition close_failed (e : entry) : bool := is_close e && negb (returned e.2).

(** A capture that returned its artifact. *)
Definition captured (e : entry) : bool := capture_call e.1 && returned e.2.

Definition is_launch (e : entry) : bool :=
  match e.1 with PuppeteerLaunch _ _ _ => true | _ => false end.

Definition is_mail (e : entry) : bool :=
  match e.1 with EmailSend _ _ => true | _ => false end.

Definition mail_sent (e : entry) : bool := is_mail e && returned e.2.

(** Calls of [logHistory]: all of them, those with the full record, those
    with the reduced record. *)
Definition is_history (e : entry) : bool :=
  match e.1 with LogHistory _ => true | _ => false end.

Definition is_full (e : entry) : bool :=
  match e.1 with LogHistory (HistoryFull _ _ _ _ _ _ _) => true | _ => false end.

Definition is_reduced (e : entry) : bool :=
  match e.1 with LogHistory (HistoryReduced _ _ _ _) => true | _ => false end.

Definition full_failed (e : entry) : bool := is_full e && negb (returned e.2).

Definition history_stored (e : entry) : bool := is_history e && returned e.2.

(** A typing or a click that is not one of the literal selectors of
    [Reporter.authenticate] and [Authenticator.kibana]. *)
Definition stray_interaction (e : entry) : bool :=
  is_interaction e && negb (open_call e.1).

(** The run of [doReport] from a heap, with an empty trace. *)
Definition report host getConfiguration server email task action actionName payload
    (h : gmap loc obj) : outcome val * state :=
  doReport host getConfiguration server email task action actionName payload (State h []).

(** [contains needle hay]: [needle] occurs in [hay]. *)
Fixpoint contains (needle hay : string) : bool :=
  String.prefix needle hay ||
  match hay with
  | EmptyString => false
  | String _ rest => contains needle rest
  end.

Definition image_html : string := "<html><img src='cid:my-report' width='100%'></html>".
Definition pdf_html : string := "<html><p>Find PDF report in the attachment.</p></html>".

(** *** The vocabulary of the further properties *)

Definition raised_last (cause : exn) (evs : list entry) : Prop :=
  exists done c, evs = done ++ [(c, Raises cause)] /\ Forall (λ e, returned e.2 = true) done.

Definition not_host (v : val) : Prop := forall id, v <> VHost id.

Definition kibana_calls (page user pass appName timeout : val) : list call :=
  let t := default_arg timeout (VNum 5000) in
  let button :=
    if is_str (default_arg appName (VStr "xpack")) "xpack" then ".kuiButton" else ".btn-login" in
  [ PageType page (VStr "#username") user (NumDiv t 50);
    PageType page (VStr "#password") pass (NumDiv t 50);
    PageClick page (VStr button);
    Delay (NumOf t);
    PageClick page (VStr ".global-nav-link--close");
    Delay (NumDiv t 5) ].

Definition custom_calls (page user pass userSelector passSelector loginBtnSelector timeout : val)
    : list call :=
  let t := default_arg timeout (VNum 5000) in
  [ PageType page userSelector user (NumDiv t 50);
    PageType page passSelector pass (NumDiv t 50);
    PageClick page loginBtnSelector;
    Delay (NumOf t) ].

Definition flag (h : gmap loc obj) (mode : val) (k : string) : bool :=
  match getp_pure h mode k with Ret v => truthy v | Throw _ => false end.

Definition search_guard_failure (user : val) (cause : exn) : exn :=
  Error ("fail to authenticate via Search Guard, user: " +:+ to_string user
         +:+ ", " +:+ exn_to_string cause).

Definition custom_failure (user : val) (cause : exn) : exn :=
  Error ("fail to authenticate via custom auth, user: " +:+ to_string user
         +:+ ", " +:+ exn_to_string cause).

Definition launch_call (executablePath : val) : call :=
  PuppeteerLaunch executablePath ["--no-sandbox"; "--disable-setuid-sandbox"] true.

Definition screenshot_failure (url : val) (cause : exn) : exn :=
  Error ("fail to do a screenshot, url: " +:+ to_string url +:+ ", " +:+ exn_to_string cause).

Definition pdf_failure (url : val) (cause : exn) : exn :=
  Error ("fail to do a PDF doc, url: " +:+ to_string url +:+ ", " +:+ exn_to_string cause).

(** What [or_default] gives, as a function of the heap. *)
Definition defaulted (h : gmap loc obj) (v d : val) : val :=
  match (or_default v d (State h [])).1 with Ret x => x | Throw _ => d end.

Definition subject_template (h : gmap loc obj) (action : action) (actionName : val) : val :=
  defaulted h (act_subject action) (VStr ("SENTINL: " +:+ to_string actionName)).

Definition body_template (h : gmap loc obj) (action : action) : val :=
  defaulted h (act_body action) (VStr "Series Report {{payload._id}}: {{payload.hits.total}}").

(** The file name of the report, given what uuid and moment returned. *)
Definition report_name (action : action) (id stamp : val) : val :=
  let snap := act_snapshot action in
  let type := default_arg (snap_type snap) (VStr "png") in
  if truthy (snap_name snap)
  then VStr (to_string (snap_name snap) +:+ "." +:+ to_string type)
  else VStr ("report-" +:+ to_string id +:+ "-" +:+ to_string stamp +:+ "." +:+ to_string type).

(** A run of [doReport] whose preparation returned: the trace of the [try]
    block and of its handler, with the values that the preparation gave. *)
Inductive block_run (server email : val) (task : task) (action : action)
    (actionName priority subject text filename : val)
  : outcome val -> list entry -> gmap loc obj -> Prop :=
| block_returned v evs h :
    session_run server email task action actionName priority subject text filename
      (Ret v) evs h ->
    block_run server email task action actionName priority subject text filename
      (Ret v) evs h
| block_contained err evs h :
    session_run server email task action actionName priority subject text filename
      (Throw err) evs h ->
    block_run server email task action actionName priority subject text filename
      (Ret VUndef) (evs ++ [(LogError err, Returns VUndef)]) h.

(** [c] occurs in [s]. *)
Fixpoint has_char (c : ascii) (s : string) : bool :=
  match s with
  | EmptyString => false
  | String a rest => Ascii.eqb a c || has_char c rest
  end.

Definition is_raster (e : entry) : bool :=
  match e.1 with PageSetViewport _ _ _ | PageScreenshot _ _ => true | _ => false end.

Definition is_pdf (e : entry) : bool :=
  match e.1 with PagePdf _ _ _ => true | _ => false end.

(** The calls that the capture kind excludes: the raster calls for a pdf,
    the pdf call otherwise. *)
Definition wrong_capture (type : val) (e : entry) : bool :=
  if is_str type "pdf" then is_raster e else is_pdf e.

Definition right_capture (type : val) (e : entry) : bool := negb (wrong_capture type e).

(** What the capture hands to the page, read from the Reporter at [l]. *)
Definition capture_entry (h : gmap loc obj) (l : loc) (type : val) (e : entry) : Prop :=
  match e.1 with
  | PageSetViewport _ w hh =>
      exists W H,
        read h (VRef l) ["config"; "file"; "screenshot"; "width"] = Ret W /\
        read h (VRef l) ["config"; "file"; "screenshot"; "height"] = Ret H /\
        w = NumOf W /\ hh = NumOf H
  | PageScreenshot _ ty => ty = default_arg type (VStr "png")
  | _ => True
  end.

(** The same, with the width and the height given. *)
Definition session_entry (W H type : val) (e : entry) : Prop :=
  match e.1 with
  | PageSetViewport _ w hh => w = NumOf W /\ hh = NumOf H
  | PageScreenshot _ ty => ty = default_arg type (VStr "png")
  | _ => True
  end.

Definition not_raster (e : entry) : bool := negb (is_raster e).

Definition screen_keys : list string := ["config"; "file"; "screenshot"; "width"; "height"].

(** [emits P]: the trace grows by entries that satisfy [P]. *)
Definition emits (P : entry -> Prop) (s s' : state) : Prop :=
  exists evs, trace s' = trace s ++ evs /\ Forall P evs.

(** What a login does with the page and the clock, given the credentials
    and the timeout it works with: the user name goes into the user field,
    the password into the password field, at a typing delay of a fiftieth of
    the timeout; the waits are the timeout and a fifth of it. *)
Definition login_entry (user pass timeout : val) (e : entry) : Prop :=
  match e.1 with
  | PageType _ sel text d =>
      d = NumDiv timeout 50 /\
      (text = user /\ (sel = VStr "#username" \/ sel = VStr "#user") \/
       text = pass /\ (sel = VStr "#password" \/ sel = VStr "#pass"))
  | Delay d => d = NumOf timeout \/ d = NumDiv timeout 5
  | _ => True
  end.

(** The same for [openPage], given the credentials and the timeout [T] of
    the configuration: a login works with [T], or with 5000 when [T] is
    undefined; without a login, [openPage] waits [T]. *)
Definition paced_entry (U P T : val) (e : entry) : Prop :=
  match e.1 with
  | Delay d => d = NumOf T \/ login_entry U P (default_arg T (VNum 5000)) e
  | _ => login_entry U P (default_arg T (VNum 5000)) e
  end.

(** The same, with the credentials and the timeout read from the
    configuration object [config] in the heap [h]. *)
Definition typed_entry (h : gmap loc obj) (config : val) (e : entry) : Prop :=
  match e.1 with
  | PageType _ _ _ _ =>
      exists U P T,
        read h config ["authentication"; "username"] = Ret U /\
        read h config ["authentication"; "password"] = Ret P /\
        read h config ["timeout"] = Ret T /\
        paced_entry U P T e
  | Delay _ =>
      exists T, read h config ["timeout"] = Ret T /\ forall U P, paced_entry U P T e
  | _ => True
  end.

Definition not_paced (e : entry) : bool :=
  match e.1 with PageType _ _ _ _ | Delay _ => false | _ => true end.

(** The properties that [doReport] writes: on the configuration, on the
    Reporter and on the result of a stateless run. *)
Definition written_keys : list string :=
  ["username"; "password"; "width"; "height"; "timeout"; "custom";
   "username_input_selector"; "password_input_selector"; "login_btn_selector";
   "config"; "url"; "browser"; "page"; "message"].

Definition not_launch (e : entry) : bool := negb (is_launch e).

(** A launch with the options of line 67-71 and the given executable; a
    navigation to the given url. *)
Definition browser_entry (executablePath url : val) (e : entry) : Prop :=
  match e.1 with
  | PuppeteerLaunch exe args ignoreHTTPSErrors =>
      exe = executablePath /\ args = ["--no-sandbox"; "--disable-setuid-sandbox"] /\
      ignoreHTTPSErrors = true
  | PageGoto _ target waitUntil => target = url /\ waitUntil = "networkidle0"
  | _ => True
  end.

Definition not_browser (e : entry) : bool :=
  match e.1 with PuppeteerLaunch _ _ _ | PageGoto _ _ _ => false | _ => true end.

(** The trace of a computation that raised: every call returned, but for
    the last one at most. *)
Definition failing_run (evs : list entry) : Prop :=
  Forall (λ e, returned e.2 = true) evs \/
  exists before c e,
    evs = before ++ [(c, Raises e)] /\ Forall (λ e, returned e.2 = true) before.

(** A handler that makes no call and raises. *)
Definition rethrows {A} (h : exn -> M A) : Prop :=
  forall e s, exists e', h e s = (Throw e', s).

(** [tidy m]: when [m] returns, every call it made returned; when it
    raises, only its last call can have raised. *)
Definition tidy {A} (m : M A) : Prop :=
  forall s r s', m s = (r, s') ->
    exists evs, trace s' = trace s ++ evs /\
      match r with
      | Ret _ => Forall (λ e, returned e.2 = true) evs
      | Throw _ => failing_run evs
      end.

(** The calls of the [try] block: no call of [log.error], and a call of the
    logger (a debug line) only when it returned. *)
Definition block_entry (e : entry) : bool :=
  match e.1 with
  | LogError _ => false
  | c => negb (prep_call c) || returned e.2
  end.

(** ** A concrete installation *)

Definition object (l : list (string * val)) : obj := list_to_map l.

(** The configuration object of the server: [settings.report] with the
    given flags. *)
Definition config_heap (active enabled basic custom : bool) : gmap loc obj :=
  list_to_map [
    (1%positive, object [("app_name", VStr "sentinl"); ("settings", VRef 2%positive)]);
    (2%positive, object [("report", VRef 3%positive)]);
    (3%positive, object [("active", VBool active); ("timeout", VNum 5000);
                         ("executable_path", VStr "/usr/bin/chromium");
                         ("authentication", VRef 4%positive); ("file", VRef 7%positive)]);
    (4%positive, object [("enabled", VBool enabled); ("mode", VRef 5%positive);
                         ("username", VStr "kibana"); ("password", VStr "changeme");
                         ("custom", VRef 6%positive)]);
    (5%positive, object [("searchguard", VBool false); ("xpack", VBool false);
                         ("basic", VBool basic); ("custom", VBool custom)]);
    (6%positive, object [("username_input_selector", VStr "#login-user");
                         ("password_input_selector", VStr "#login-pass");
                         ("login_btn_selector", VStr "#login-go")]);
    (7%positive, object [("screenshot", VRef 8%positive); ("pdf", VRef 9%positive)]);
    (8%positive, object [("width", VNum 1280); ("height", VNum 900)]);
    (9%positive, object [("format", VStr "A4"); ("landscape", VBool true)])].

Definition the_config (server : val) : val := VRef 1%positive.

(** Collaborators that all work: mustache returns the template unchanged. *)
Definition healthy (tr : list entry) (c : call) : reply :=
  match c with
  | PuppeteerLaunch _ _ _ => Returns (VHost 1)
  | BrowserNewPage _ => Returns (VHost 2)
  | PageScreenshot _ _ | PagePdf _ _ _ => Returns (VBuf (bytes_of_string "PNG"))
  | MustacheRender template _ => Returns template
  | UuidV4 => Returns (VStr "110ec58a-a0f2-4ac4-8393-c866d813b8d1")
  | MomentFormat _ => Returns (VStr "03-11-2026-4-9-7")
  | LogHistory _ => Returns (VStr "AWx1")
  | _ => Returns VUndef
  end.

(** The same, except that the calls selected by [bad] raise. *)
Definition failing (bad : call -> bool) (tr : list entry) (c : call) : reply :=
  if bad c then Raises (HostError "Error: down" "{}") else healthy tr c.

Definition is_launch_call (c : call) : bool :=
  match c with PuppeteerLaunch _ _ _ => true | _ => false end.
Definition is_close_call (c : call) : bool :=
  match c with BrowserClose _ => true | _ => false end.
Definition is_full_call (c : call) : bool :=
  match c with LogHistory (HistoryFull _ _ _ _ _ _ _) => true | _ => false end.

Definition nightly (stateless : bool) : action :=
  Action VUndef VUndef VUndef (VStr "sentinl@example.org") (VStr "ops@example.org")
    (VBool stateless)
    (Snapshot (VStr "http://x") VUndef (VStr "png") (VStr "800x600")
       (Params (VStr "admin") (VStr "secret") VUndef VUndef VUndef (VStr "#go"))).

Definition watcher : task := Task (VStr "w1") (VStr "nightly report").

Definition nightly_run (host : list entry -> call -> reply) (stateless : bool)
    (h : gmap loc obj) : outcome val * state :=
  report host the_config (VHost 9) (VHost 7) watcher (nightly stateless)
    (VStr "report_action") VNull h.

(** A Reporter whose page is open, with the Search Guard and the X-Pack
    flags both set. *)
Definition both_heap : gmap loc obj :=
  <[10%positive := object [("config", VRef 3%positive); ("page", VHost 2)]]>
    (<[5%positive := object [("searchguard", VBool true); ("xpack", VBool true);
                             ("basic", VBool false); ("custom", VBool false)]]>
       (config_heap true true false false)).

Definition reporter_heap : gmap loc obj :=
  <[10%positive := object [("config", VRef 3%positive)]]> (config_heap true false false false).

Definition kibana_heap : gmap loc obj :=
  <[5%positive := object [("searchguard", VBool true); ("xpack", VBool false);
                          ("basic", VBool false); ("custom", VBool false)]]>
    (config_heap true true false false).

(** The nightly report with a per-action delay of two seconds. *)
Definition patient : action :=
  Action VUndef VUndef VUndef (VStr "sentinl@example.org") (VStr "ops@example.org")
    (VBool false)
    (Snapshot (VStr "http://x") VUndef (VStr "png") (VStr "800x600")
       (Params (VStr "admin") (VStr "secret") (VNum 2000) VUndef VUndef VUndef)).

(** The mail of the nightly report when everything works. *)
Definition nightly_attachment : list part :=
  [ Inline image_html true;
    File "UE5H" "image/png"
         (VStr "report-110ec58a-a0f2-4ac4-8393-c866d813b8d1-03-11-2026-4-9-7.png") true
         [("Content-ID", "<my-report>")] ].

Definition nightly_text : val :=
  VStr "Series Report {{payload._id}}: {{payload.hits.total}}".

Definition nightly_mail : mail :=
  Mail nightly_text (VStr "sentinl@example.org") (VStr "ops@example.org")
       (VStr "SENTINL: report_action") nightly_attachment.

(** The nightly report without a url. *)
Definition unaddressed : action :=
  Action VUndef VUndef VUndef (VStr "sentinl@example.org") (VStr "ops@example.org")
    (VBool false)
    (Snapshot (VStr EmptyString) VUndef (VStr "png") (VStr "800x600")
       (Params (VStr "admin") (VStr "secret") VUndef VUndef VUndef VUndef)).

(** * Theorems *)

Example split_on_res : split_on "x" "800x600" = ["800"; "600"].
Proof. reflexivity. Qed.

Example to_string_num : to_string (VNum 5000) = "5000".
Proof. reflexivity. Qed.

(** ** Base64 round trip *)

Section Base64Facts.
Import Base64.

Example encode_Man :
  encode (bytes_of_string "Man") = "TWFu" /\
  encode (bytes_of_string "Ma") = "TWE=" /\
  encode (bytes_of_string "M") = "TQ==" /\
  encode (bytes_of_string "admin:secret") = "YWRtaW46c2VjcmV0".
Proof. repeat split; reflexivity. Qed.

Example decode_Man :
  decode "TWFu" = Some (bytes_of_string "Man") /\
  decode "TQ==" = Some (bytes_of_string "M") /\ decode "TQ=" = None.
Proof. repeat split; reflexivity. Qed.

Lemma char_digit_digit_char (n : N) :
  (n < 64)%N -> char_digit (digit_char n) = Some n.
Proof.
  intros H. rewrite <- (N2Nat.id n). assert (Hk : (N.to_nat n < 64)%nat) by lia.
  generalize dependent (N.to_nat n). clear. intros k Hk.
  do 64 (destruct k as [|k]; [reflexivity|]). lia.
Qed.

Lemma digit_char_not_pad (n : N) :
  (n < 64)%N -> Ascii.eqb (digit_char n) pad = false.
Proof.
  intros H. rewrite <- (N2Nat.id n). assert (Hk : (N.to_nat n < 64)%nat) by lia.
  generalize dependent (N.to_nat n). clear. intros k Hk.
  do 64 (destruct k as [|k]; [reflexivity|]). lia.
Qed.

Lemma byte_bound (b : byte) : (Byte.to_N b < 256)%N.
Proof. pose proof (Byte.to_N_bounded b). lia. Qed.

Local Ltac divmod := Z.to_euclidean_division_equations; lia.

Lemma group3 (a b c : N) :
  (a < 256 -> b < 256 -> c < 256 ->
   let n := a * 65536 + b * 256 + c in
   n / 262144 < 64 /\ (n / 4096) mod 64 < 64 /\ (n / 64) mod 64 < 64 /\ n mod 64 < 64 /\
   (n / 262144) * 262144 + ((n / 4096) mod 64) * 4096 + ((n / 64) mod 64) * 64 + n mod 64 = n /\
   n / 65536 = a /\ (n / 256) mod 256 = b /\ n mod 256 = c)%N.
Proof. intros Ha Hb Hc n. subst n. repeat split; zify; divmod. Qed.

Lemma group2 (a b : N) :
  (a < 256 -> b < 256 ->
   let n := a * 65536 + b * 256 in
   let m := (n / 262144) * 262144 + ((n / 4096) mod 64) * 4096 + ((n / 64) mod 64) * 64 in
   n / 262144 < 64 /\ (n / 4096) mod 64 < 64 /\ (n / 64) mod 64 < 64 /\
   m / 65536 = a /\ (m / 256) mod 256 = b)%N.
Proof. intros Ha Hb n m. subst n m. repeat split; zify; divmod. Qed.

Lemma group1 (a : N) :
  (a < 256 ->
   let n := a * 65536 in
   n / 262144 < 64 /\ (n / 4096) mod 64 < 64 /\
   ((n / 262144) * 262144 + ((n / 4096) mod 64) * 4096) / 65536 = a)%N.
Proof. intros Ha n. subst n. repeat split; zify; divmod. Qed.

Lemma decode_encode_1 (a : byte) : decode (encode [a]) = Some [a].
Proof.
  destruct (group1 (Byte.to_N a) (byte_bound a)) as (H1 & H2 & H3).
  cbn [encode decode].
  rewrite (char_digit_digit_char _ H1), (char_digit_digit_char _ H2).
  cbn [mbind option_bind]. rewrite Ascii.eqb_refl, H3, Byte.of_to_N. reflexivity.
Qed.

Lemma decode_encode_2 (a b : byte) : decode (encode [a; b]) = Some [a; b].
Proof.
  destruct (group2 (Byte.to_N a) (Byte.to_N b) (byte_bound a) (byte_bound b))
    as (H1 & H2 & H3 & H4 & H5).
  cbn [encode decode].
  rewrite (char_digit_digit_char _ H1), (char_digit_digit_char _ H2).
  cbn [mbind option_bind]. rewrite Ascii.eqb_refl, (digit_char_not_pad _ H3).
  rewrite (char_digit_digit_char _ H3). cbn [mbind option_bind].
  rewrite H4, H5, !Byte.of_to_N. reflexivity.
Qed.

Lemma decode_encode_3 (a b c : byte) (rest : list byte) :
  decode (encode rest) = Some rest ->
  decode (encode (a :: b :: c :: rest)) = Some (a :: b :: c :: rest).
Proof.
  intros IH.
  destruct (group3 (Byte.to_N a) (Byte.to_N b) (Byte.to_N c)
              (byte_bound a) (byte_bound b) (byte_bound c))
    as (H1 & H2 & H3 & H4 & H5 & H6 & H7 & H8).
  cbn [encode]. cbn [decode]. fold decode.
  rewrite (char_digit_digit_char _ H1), (char_digit_digit_char _ H2).
  cbn [mbind option_bind]. rewrite (digit_char_not_pad _ H4).
  rewrite (char_digit_digit_char _ H3), (char_digit_digit_char _ H4).
  cbn [mbind option_bind]. rewrite H5. unfold bytes3.
  rewrite H6, H7, H8, !Byte.of_to_N. cbn [mbind option_bind].
  rewrite IH. reflexivity.
Qed.

Lemma decode_encode (bs : list byte) : decode (encode bs) = Some bs.
Proof.
  cut (decode (encode bs) = Some bs /\
       (forall a, decode (encode (a :: bs)) = Some (a :: bs)) /\
       (forall a b, decode (encode (a :: b :: bs)) = Some (a :: b :: bs))).
  { tauto. }
  induction bs as [|c rest (IH0 & IH1 & IH2)].
  - repeat split; intros; [apply decode_encode_1 | apply decode_encode_2].
  - repeat split; auto.
    intros a b. apply decode_encode_3, IH0.
Qed.

End Base64Facts.

(** ** Footprints of computations *)

Lemma run_bind {A B} (m : M A) (f : A -> M B) (s : state) :
  (m ≫= f) s = match m s with
               | (Ret a, s') => f a s'
               | (Throw e, s') => (Throw e, s')
               end.
Proof. reflexivity. Qed.

Section Steps.
Context (R : state -> state -> Prop) `{!PreOrder R}.

Lemma steps_ret {A} (a : A) : steps R (mret a).
Proof. split; intros s. reflexivity. Qed.

Lemma steps_throw {A} (e : exn) : steps R (@throw A e).
Proof. split; intros s. reflexivity. Qed.

Lemma steps_bind {A B} (m : M A) (f : A -> M B) :
  steps R m -> (forall a, steps R (f a)) -> steps R (m ≫= f).
Proof.
  intros [Hm] Hf. split; intros s. rewrite run_bind. specialize (Hm s).
  destruct (m s) as [[a|e] s']; simpl in *; [|done].
  etransitivity; [exact Hm | apply Hf].
Qed.

Lemma steps_try {A} (m : M A) (h : exn -> M A) :
  steps R m -> (forall e, steps R (h e)) -> steps R (try_catch m h).
Proof.
  intros [Hm] Hh. split; intros s. unfold try_catch. specialize (Hm s).
  destruct (m s) as [[a|e] s']; simpl in *; [done|].
  etransitivity; [exact Hm | apply Hh].
Qed.

Lemma steps_getp (v : val) (k : string) : steps R (getp v k).
Proof. split; intros s. destruct v; reflexivity. Qed.

Lemma steps_getps (v : val) (path : list string) : steps R (getps v path).
Proof.
  revert v. induction path as [|k path IH]; intros v; simpl.
  - apply steps_ret.
  - apply steps_bind; [apply steps_getp | auto].
Qed.

Lemma steps_or_default (v d : val) : steps R (or_default v d).
Proof.
  unfold or_default. destruct (negb (truthy v)); [apply steps_ret|].
  apply steps_bind; [apply steps_getp | intros; apply steps_ret].
Qed.

Lemma steps_split_x (v : val) : steps R (split_x v).
Proof. destruct v; first [apply steps_ret | apply steps_throw]. Qed.

Lemma steps_or_else (a : val) (e : M val) : steps R e -> steps R (or_else a e).
Proof. intros He. unfold or_else. destruct (truthy a); [apply steps_ret | done]. Qed.

Lemma steps_destructure2 (v : val) (a b : string) : steps R (destructure2 v a b).
Proof.
  unfold destructure2.
  repeat (apply steps_bind; [apply steps_getp | intros]). apply steps_ret.
Qed.

Lemma steps_toString_base64 (file : val) : steps R (toString_base64 file).
Proof. destruct file; first [apply steps_ret | apply steps_throw]. Qed.

Lemma steps_Buffer_toString bs enc : steps R (Buffer_toString bs enc).
Proof.
  unfold Buffer_toString.
  repeat (case (is_str _ _); [apply steps_ret |]). apply steps_throw.
Qed.

Lemma steps_createReportAttachment (filename file type : val) :
  steps R (createReportAttachment filename file type).
Proof.
  unfold createReportAttachment. destruct (is_str _ "pdf");
    (apply steps_bind; [apply steps_toString_base64 | intros; apply steps_ret]).
Qed.

Lemma steps_setp (v : val) (k : string) (x : val) :
  accepts_write R k -> steps R (setp v k x).
Proof. intros H. split; intros s. destruct v; simpl; first [reflexivity | apply H]. Qed.

Lemma steps_alloc (o : obj) : accepts_alloc R o -> steps R (alloc o).
Proof. intros H. split; intros s. apply H. Qed.

Lemma steps_call_total (c : call) :
  accepts_entry R (c, Returns VUndef) -> steps R (call_total c).
Proof. intros H. split; intros s. apply H. Qed.

Lemma steps_call_host (host : list entry -> call -> reply) (c : call) :
  (forall r, accepts_entry R (c, r)) -> steps R (call_host host c).
Proof.
  intros H. split; intros s. unfold call_host. specialize (H (host (trace s) c) s).
  destruct (host (trace s) c); exact H.
Qed.

Lemma steps_invoke (host : list entry -> call -> reply) (recv : val) (m : string) (c : call) :
  (forall r, accepts_entry R (c, r)) -> steps R (invoke host recv m c).
Proof.
  intros H. destruct recv; simpl; first [apply steps_throw | by apply steps_call_host].
Qed.

End Steps.

Global Instance extends_preorder P : PreOrder (extends P).
Proof.
  split.
  - intros s. exists []. by rewrite app_nil_r.
  - intros s1 s2 s3 (e1 & H1 & F1) (e2 & H2 & F2). exists (e1 ++ e2). split.
    + by rewrite H2, H1, app_assoc.
    + by apply Forall_app.
Qed.

Global Instance unchanged_preorder : PreOrder unchanged.
Proof. split; unfold unchanged; [done | congruence]. Qed.

(** ** Inversion of runs *)

Lemma getp_inv v k s r s1 :
  getp v k s = (r, s1) -> s1 = s /\ r = getp_pure (heap s) v k.
Proof. destruct v; cbn; intros [= <- <-]; done. Qed.

Lemma steps_run {A} R (m : M A) s r s1 :
  steps R m -> m s = (r, s1) -> R s s1.
Proof. intros [H] E. specialize (H s). by rewrite E in H. Qed.

Lemma getps_inv v path s r s1 : getps v path s = (r, s1) -> s1 = s.
Proof. apply (steps_run unchanged), steps_getps, _. Qed.

Lemma setp_inv v k x s r s1 :
  setp v k x s = (r, s1) ->
  (exists l, v = VRef l /\ r = Ret () /\ s1 = State (heap_set (heap s) l k x) (trace s))
  \/ (exists e, r = Throw e /\ s1 = s).
Proof. destruct v; cbn; intros [= <- <-]; eauto. Qed.

Lemma alloc_inv o s r s1 :
  alloc o s = (r, s1) ->
  r = Ret (VRef (fresh (dom (heap s)))) /\
  s1 = State (<[fresh (dom (heap s)) := o]> (heap s)) (trace s).
Proof. cbv [alloc]. intros [= <- <-]. done. Qed.

Lemma call_host_inv host c s r s1 :
  call_host host c s = (r, s1) ->
  exists rep, r = reply_outcome rep /\ s1 = State (heap s) (trace s ++ [(c, rep)]).
Proof.
  unfold call_host. intros H. exists (host (trace s) c).
  destruct (host (trace s) c); inversion H; done.
Qed.

Lemma call_total_inv c s r s1 :
  call_total c s = (r, s1) ->
  r = Ret VUndef /\ s1 = State (heap s) (trace s ++ [(c, Returns VUndef)]).
Proof. cbv [call_total]. intros [= <- <-]. done. Qed.

Lemma invoke_inv host recv m c s r s1 :
  invoke host recv m c s = (r, s1) ->
  (exists id rep, recv = VHost id /\ r = reply_outcome rep /\
                  s1 = State (heap s) (trace s ++ [(c, rep)]))
  \/ (exists e, (forall id, recv <> VHost id) /\ r = Throw e /\ s1 = s).
Proof.
  destruct recv; cbn; try (intros [= <- <-]; right; eexists; done).
  intros (rep & -> & ->)%call_host_inv. left. eauto.
Qed.

Lemma reply_outcome_Ret rep a : reply_outcome rep = Ret a -> rep = Returns a.
Proof. destruct rep; cbn; congruence. Qed.

Lemma reply_outcome_Throw rep e : reply_outcome rep = Throw e -> rep = Raises e.
Proof. destruct rep; cbn; congruence. Qed.

(** [run_prim E] turns a run [E : m s = (r, s1)] of a primitive into
    equations and substitutes them; [run_inv H] walks through sequencing,
    [try]/[catch] and conditionals and leaves one goal per path. *)
Ltac tidy_reply :=
  repeat match goal with
    | H : Ret _ = reply_outcome _ |- _ => symmetry in H
    | H : Throw _ = reply_outcome _ |- _ => symmetry in H
    | H : reply_outcome _ = Ret _ |- _ => apply reply_outcome_Ret in H; subst
    | H : reply_outcome _ = Throw _ |- _ => apply reply_outcome_Throw in H; subst
    | |- context [reply_outcome ?x] => is_var x; destruct x; cbn [reply_outcome] in *
    end.

Ltac run_prim E :=
  lazymatch type of E with
  | getp _ _ _ = _ =>
      let Hs := fresh in let Hv := fresh "Hget" in
      apply getp_inv in E as [Hs Hv]; subst; cbn [heap trace] in *
  | getps _ _ _ = _ => apply getps_inv in E; subst; cbn [heap trace] in *
  | setp _ _ _ _ = _ =>
      apply setp_inv in E as [(? & ? & ? & ?)|(? & ? & ?)];
      simplify_eq; cbn [heap trace] in *
  | alloc _ _ = _ => apply alloc_inv in E as [? ?]; simplify_eq; cbn [heap trace] in *
  | call_host _ _ _ = _ =>
      apply call_host_inv in E as (? & ? & ?); subst; tidy_reply; cbn [heap trace] in *
  | call_total _ _ = _ =>
      apply call_total_inv in E as [? ?]; simplify_eq; cbn [heap trace] in *
  | invoke _ _ _ _ _ = _ =>
      apply invoke_inv in E as [(? & ? & ? & ? & ?)|(? & ? & ? & ?)];
      simplify_eq; tidy_reply; cbn [heap trace] in *
  | _ => idtac
  end.

Ltac run_inv H :=
  lazymatch type of H with
  | mbind _ _ _ = _ =>
      rewrite run_bind in H;
      lazymatch type of H with
      | match ?mm ?ss with _ => _ end = _ =>
          let E := fresh "E" in
          destruct (mm ss) as [[?a|?e] ?s] eqn:E;
          [ run_inv E; run_inv H | run_inv E; simplify_eq ]
      end
  | try_catch ?mm _ ?ss = _ =>
      unfold try_catch in H;
      let E := fresh "E" in
      destruct (mm ss) as [[?a|?e] ?s] eqn:E;
      [ run_inv E; simplify_eq | run_inv E; run_inv H ]
  | mret _ _ = _ => cbv [mret M_ret] in H; simplify_eq
  | throw _ _ = _ => cbv [throw] in H; simplify_eq
  | (if ?b then _ else _) _ = _ => destruct b eqn:?; run_inv H
  | (let '(_, _) := ?p in _) _ = _ => destruct p; run_inv H
  | _ => cbv beta in H; run_prim H
  end.

(** Closing a goal about the trace of a path. *)
Ltac trace_done :=
  cbn [heap trace]; rewrite <- ?app_assoc;
  try (split; [done|]);
  first [ by (exists []; split; [by rewrite app_nil_r | first [done | constructor; done]])
        | eexists; split; [reflexivity|] ].

Lemma Reporter_screenshot_run host this type s r s' :
  Reporter_screenshot host this type s = (r, s') ->
  heap s' = heap s /\ exists evs, trace s' = trace s ++ evs /\ capture_run r evs.
Proof.
  unfold Reporter_screenshot, destructure2.
  intros H. run_inv H; trace_done;
    first [ by apply (capture_ok [_]); [repeat constructor | done]
          | by apply capture_failed; repeat constructor ].
Qed.

Lemma Reporter_pdf_run host this s r s' :
  Reporter_pdf host this s = (r, s') ->
  heap s' = heap s /\ exists evs, trace s' = trace s ++ evs /\ capture_run r evs.
Proof.
  unfold Reporter_pdf, destructure2.
  intros H. run_inv H; trace_done;
    first [ by apply (capture_ok []); [repeat constructor | done]
          | by apply capture_failed; repeat constructor ].
Qed.

Lemma Reporter_end_run host l id s r s' :
  heap_get (heap s) l "browser" = VHost id ->
  Reporter_end host (VRef l) s = (r, s') ->
  heap s' = heap s /\
  exists rep, trace s' = trace s ++ [(BrowserClose (VHost id), rep)] /\
    r = match rep with
        | Returns _ => Ret ()
        | Raises e => Throw (Error ("fail to close headless chrome, " +:+ exn_to_string e))
        end.
Proof.
  unfold Reporter_end. intros Hb H.
  run_inv H; unfold getp_pure in *; cbn in *; rewrite Hb in *; simplify_eq; eauto.
  match goal with Hne : forall _, VHost _ <> VHost _ |- _ => by destruct (Hne id) end.
Qed.

(** ** Footprints on the trace *)

Lemma extends_write P k : accepts_write (extends P) k.
Proof. intros s l x. exists []. cbn. by rewrite app_nil_r. Qed.

Lemma extends_alloc P o : accepts_alloc (extends P) o.
Proof. intros s. exists []. cbn. by rewrite app_nil_r. Qed.

Lemma extends_entry (P : entry -> bool) e : P e = true -> accepts_entry (extends P) e.
Proof. intros H s. exists [e]. cbn. split; [done | by constructor]. Qed.

(** [steps_tac accept] proves a footprint by following the structure of the
    computation; [accept] closes the side conditions of the primitives. *)
Ltac steps_step accept :=
  lazymatch goal with
  | |- steps _ (mret _) => refine (steps_ret _ _)
  | |- steps _ (throw _) => refine (steps_throw _ _)
  | |- steps _ (mbind _ _) => refine (steps_bind _ _ _ _ _); [|intros ?]
  | |- steps _ (try_catch _ _) => refine (steps_try _ _ _ _ _); [|intros ?]
  | |- steps _ (getp _ _) => refine (steps_getp _ _ _)
  | |- steps _ (getps _ _) => refine (steps_getps _ _ _)
  | |- steps _ (or_default _ _) => refine (steps_or_default _ _ _)
  | |- steps _ (or_else _ _) => refine (steps_or_else _ _ _ _)
  | |- steps _ (split_x _) => refine (steps_split_x _ _)
  | |- steps _ (destructure2 _ _ _) => refine (steps_destructure2 _ _ _ _)
  | |- steps _ (createReportAttachment _ _ _) => refine (steps_createReportAttachment _ _ _ _)
  | |- steps _ (Buffer_toString _ _) => refine (steps_Buffer_toString _ _ _)
  | |- steps _ (setp _ _ _) => refine (steps_setp _ _ _ _ _); accept
  | |- steps _ (alloc _) => refine (steps_alloc _ _ _); accept
  | |- steps _ (call_total _) => refine (steps_call_total _ _ _); accept
  | |- steps _ (call_host _ _) => refine (steps_call_host _ _ _ _); intros ?; accept
  | |- steps _ (invoke _ _ _ _) => refine (steps_invoke _ _ _ _ _ _); intros ?; accept
  | |- steps _ (if ?b then _ else _) => destruct b
  | |- steps _ (match ?p with (_, _) => _ end) => destruct p
  | |- steps _ _ => match goal with H : _ |- _ => apply H end
  end.

Ltac steps_tac accept := repeat (steps_step accept).

Ltac extends_accept :=
  first [ apply extends_write | apply extends_alloc | apply extends_entry; reflexivity ].

Lemma createReportFileName_extends host filename type :
  steps (extends prep_entry) (createReportFileName host filename type).
Proof. unfold createReportFileName. steps_tac extends_accept. Qed.

Lemma overlay_extends P config action : steps (extends P) (overlay config action).
Proof. unfold overlay. steps_tac extends_accept. Qed.

Lemma prepare_extends host gc server action actionName payload :
  steps (extends prep_entry) (prepare host gc server action actionName payload).
Proof.
  unfold prepare. pose proof createReportFileName_extends. pose proof overlay_extends.
  steps_tac extends_accept.
Qed.

Lemma Authenticator_kibana_extends host page user pass appName timeout :
  steps (extends open_entry) (Authenticator_kibana host page user pass appName timeout).
Proof. unfold Authenticator_kibana. steps_tac extends_accept. Qed.

Lemma Authenticator_custom_literal host page user pass timeout :
  steps (extends open_entry)
    (Authenticator_custom host page user pass (VStr "#user") (VStr "#pass") (VStr ".btn-lg") timeout).
Proof. unfold Authenticator_custom. steps_tac extends_accept. Qed.

Lemma Authenticator_basic_extends host page user pass encoding :
  steps (extends open_entry) (Authenticator_basic host page user pass encoding).
Proof. unfold Authenticator_basic. steps_tac extends_accept. Qed.

Lemma Reporter_authenticate_extends host this mode user pass timeout :
  steps (extends open_entry) (Reporter_authenticate host this mode user pass timeout).
Proof.
  unfold Reporter_authenticate.
  pose proof Authenticator_kibana_extends. pose proof Authenticator_custom_literal.
  steps_tac extends_accept.
Qed.

Lemma Reporter_openPage_extends host this url executablePath :
  steps (extends open_entry) (Reporter_openPage host this url executablePath).
Proof.
  unfold Reporter_openPage.
  pose proof Authenticator_basic_extends. pose proof Reporter_authenticate_extends.
  steps_tac extends_accept.
Qed.

(** ** Footprints on the heap *)

Lemma heap_get_set_eq h l k x : heap_get (heap_set h l k x) l k = x.
Proof.
  unfold heap_get, heap_set. rewrite lookup_insert_eq.
  change (default VUndef (<[k:=x]> (default ∅ (h !! l)) !! k) = x).
  by rewrite lookup_insert_eq.
Qed.

Lemma heap_get_set_key h l k x l' k' :
  k <> k' -> heap_get (heap_set h l k x) l' k' = heap_get h l' k'.
Proof.
  intros Hk. unfold heap_get, heap_set.
  destruct (decide (l = l')) as [->|Hl].
  - rewrite lookup_insert_eq.
    change (default VUndef (<[k:=x]> (default ∅ (h !! l')) !! k')
            = default VUndef (o ← h !! l'; (o : obj) !! k')).
    rewrite lookup_insert_ne by done.
    destruct (h !! l'); [done | cbn; by rewrite lookup_empty].
  - by rewrite lookup_insert_ne.
Qed.

Global Instance keeps_preorder l k : PreOrder (keeps l k).
Proof. split; unfold keeps; [done | intros ???; congruence]. Qed.

Lemma keeps_write l k k' : k' <> k -> accepts_write (keeps l k) k'.
Proof. intros Hk s l' x. unfold keeps. cbn. by apply heap_get_set_key. Qed.

Lemma keeps_entry l k e : accepts_entry (keeps l k) e.
Proof. intros s. done. Qed.

Lemma heap_fresh (h : gmap loc obj) : h !! fresh (dom h) = None.
Proof. apply not_elem_of_dom, is_fresh. Qed.

Lemma heap_get_alloc h (o : obj) l k :
  o !! k = None -> heap_get (<[fresh (dom h) := o]> h) l k = heap_get h l k.
Proof.
  intros Ho. unfold heap_get. destruct (decide (fresh (dom h) = l)) as [<-|Hl].
  - rewrite lookup_insert_eq, heap_fresh. cbn. by rewrite Ho.
  - by rewrite lookup_insert_ne.
Qed.

Lemma keeps_alloc l k (o : obj) : o !! k = None -> accepts_alloc (keeps l k) o.
Proof. intros Ho s. unfold keeps. cbn. by apply heap_get_alloc. Qed.

Ltac keeps_accept :=
  first [ apply keeps_write; discriminate | apply keeps_entry
        | apply keeps_alloc; reflexivity ].

Lemma bind_Ret {A B} (m : M A) (f : A -> M B) s b s' :
  (m ≫= f) s = (Ret b, s') ->
  exists a s1, m s = (Ret a, s1) /\ f a s1 = (Ret b, s').
Proof.
  rewrite run_bind. destruct (m s) as [[a|e] s1]; [eauto | discriminate].
Qed.

(** After [openPage] has returned, [this.browser] is the browser that
    puppeteer launched. *)
Lemma Reporter_openPage_browser host l url executablePath s s' :
  Reporter_openPage host (VRef l) url executablePath s = (Ret (), s') ->
  exists id, heap_get (heap s') l "browser" = VHost id.
Proof.
  unfold Reporter_openPage. intros H.
  apply bind_Ret in H as (? & s1 & E1 & H).
  apply bind_Ret in H as (? & s2 & E2 & H).
  assert (exists id, heap_get (heap s2) l "browser" = VHost id) as [id Hid].
  { run_inv E1. run_inv E2.
    unfold getp_pure in *; cbn in *.
    rewrite heap_get_set_eq in *. simplify_eq.
    eexists. rewrite heap_get_set_key by discriminate. apply heap_get_set_eq. }
  exists id. rewrite <- Hid.
  revert H. apply (steps_run (keeps l "browser")).
  steps_tac keeps_accept.
  - unfold Authenticator_basic. steps_tac keeps_accept.
  - unfold Reporter_authenticate, Authenticator_kibana, Authenticator_custom.
    steps_tac keeps_accept.
Qed.

(** ** The shapes of the runs *)

Lemma createReportAttachment_inv filename file type s r s1 :
  createReportAttachment filename file type s = (r, s1) ->
  s1 = s /\ r = attachment_of filename file type.
Proof.
  unfold attachment_of, createReportAttachment.
  destruct (is_str _ "pdf"); destruct file; cbn; intros [= <- <-]; done.
Qed.

Lemma persist_shape host server task action actionName priority text attachment s r s' :
  persist host server task action actionName priority text attachment s = (r, s') ->
  exists evs, trace s' = trace s ++ evs /\
    persist_run server task action actionName priority text attachment r evs (heap s').
Proof.
  unfold persist. intros H. run_inv H; cbn [heap trace]; rewrite <- ?app_assoc;
    (eexists; split; [reflexivity|]);
    first [ by apply persist_primary; destruct (truthy _)
          | by apply persist_fallback; destruct (truthy _)
          | by apply persist_lost; destruct (truthy _)
          | apply persist_stateless; [by destruct (truthy _) | apply lookup_insert_eq] ].
Qed.

Ltac step H E :=
  rewrite run_bind in H;
  lazymatch type of H with
  | match ?mm ?ss with _ => _ end = _ => destruct (mm ss) as [[?a|?e] ?s] eqn:E
  end.

Lemma capture_shape host this (type : val) s r s' :
  (if negb (is_str type "pdf")
   then Reporter_screenshot host this type else Reporter_pdf host this) s = (r, s') ->
  heap s' = heap s /\ exists evs, trace s' = trace s ++ evs /\ capture_run r evs.
Proof.
  destruct (negb _); [apply Reporter_screenshot_run | apply Reporter_pdf_run].
Qed.

Lemma session_shape host config server email task action actionName
    priority subject text filename s r s' :
  session host config server email task action actionName priority subject text filename s
    = (r, s') ->
  exists evs, trace s' = trace s ++ evs /\
    session_run server email task action actionName priority subject text filename
      r evs (heap s').
Proof.
  unfold session, Reporter_new. intros H.
  step H E0; run_inv E0.
  set (this := fresh (dom (heap s))) in *.
  step H E1; run_prim E1.
  2:{ simplify_eq. exists []. split; [by rewrite app_nil_r|].
      apply (session_no_capture _ _ _ _ _ _ _ _ _ _ [] []); constructor. }
  (* openPage *)
  step H E2.
  2:{ simplify_eq.
      apply (steps_run _ _ _ _ _ (Reporter_openPage_extends _ _ _ _)) in E2
        as (op & Hop & Fop).
      exists op. split; [done|]. rewrite <- (app_nil_r op).
      apply session_no_capture; [done | constructor]. }
  destruct a0.
  destruct (Reporter_openPage_browser _ _ _ _ _ _ E2) as [id Hid].
  apply (steps_run _ _ _ _ _ (Reporter_openPage_extends _ _ _ _)) in E2
    as (op & Hop & Fop).
  cbn [trace] in Hop.
  (* capture *)
  step H E3; apply capture_shape in E3 as (Hh3 & cevs & Ht3 & Hc3).
  2:{ simplify_eq. inversion Hc3; subst. exists (op ++ cevs). split.
      - by rewrite Ht3, Hop, app_assoc.
      - by apply session_no_capture. }
  inversion Hc3 as [vp c file Fvp Hc|]; subst. clear Hc3.
  (* close *)
  rewrite <- Hh3 in Hid.
  step H E4; destruct (Reporter_end_run _ _ _ _ _ _ Hid E4) as (Hh4 & rep & Ht4 & Hr4).
  2:{ destruct rep; simplify_eq. eexists. split.
      - rewrite Ht4, Ht3, Hop, <- !app_assoc. reflexivity.
      - by apply session_close_failed. }
  destruct rep as [v|]; [clear Hr4|discriminate].
  (* the mail *)
  step H E5; run_prim E5.
  step H E6; apply createReportAttachment_inv in E6 as [-> Hatt].
  2:{ simplify_eq. eexists. split.
      - cbn [trace]. rewrite Ht4, Ht3, Hop, <- !app_assoc. reflexivity.
      - by apply session_no_mail. }
  step H E7; run_prim E7.
  - (* sent *)
    apply persist_shape in H as (evs & Ht & Hp). cbn [trace] in Ht.
    eexists. split.
    + rewrite Ht, Ht4, Ht3, Hop, <- !app_assoc. reflexivity.
    + by eapply session_mailed.
  - (* the mail client raised *)
    eexists. split.
    + cbn [trace]. rewrite Ht4, Ht3, Hop, <- !app_assoc. reflexivity.
    + by eapply session_mail_failed.
  - (* [email] is not a mail client *)
    eexists. split.
    + cbn [trace]. rewrite Ht4, Ht3, Hop, <- !app_assoc. reflexivity.
    + by apply session_no_mail.
Qed.

Lemma doReport_shape host getConfiguration server email task action actionName payload s r s' :
  doReport host getConfiguration server email task action actionName payload s = (r, s') ->
  exists evs, trace s' = trace s ++ evs /\
    report_run server email task action actionName r evs (heap s').
Proof.
  unfold doReport. intros H.
  step H E0;
    apply (steps_run _ _ _ _ _ (prepare_extends _ _ _ _ _ _)) in E0 as (pre & Hpre & Fpre).
  2:{ simplify_eq. exists pre. split; [done|]. by apply report_rejected. }
  destruct a as [[[[config priority] subject] text] filename].
  unfold try_catch in H.
  destruct (session _ _ _ _ _ _ _ _ _ _ _ _) as [[v|err] s1] eqn:E1;
    apply session_shape in E1 as (evs & Hevs & Hrun).
  - simplify_eq. exists (pre ++ evs). split.
    + by rewrite Hevs, Hpre, app_assoc.
    + by eapply report_returned.
  - run_prim H. exists (pre ++ evs ++ [(LogError err, Returns VUndef)]). split.
    + cbn [trace]. by rewrite Hevs, Hpre, <- !app_assoc.
    + by eapply report_contained.
Qed.

(** ** Counting trace entries *)

Lemma count_app Q a b : count Q (a ++ b) = count Q a + count Q b.
Proof. unfold count. by rewrite List.filter_app, length_app. Qed.

Lemma count_cons Q e l : count Q (e :: l) = (if Q e then 1 else 0) + count Q l.
Proof. unfold count. cbn. by destruct (Q e). Qed.

Lemma count_nil Q : count Q [] = 0.
Proof. done. Qed.

Lemma count_none (P Q : entry -> bool) l :
  (forall e, P e = true -> Q e = false) ->
  Forall (λ e, P e = true) l -> count Q l = 0.
Proof.
  intros HPQ. induction 1 as [|e l He _ IH]; [done|].
  rewrite count_cons, IH, (HPQ _ He). done.
Qed.

(** The entry classes of the shapes contain none of the entries counted. *)
Ltac class_cases :=
  intros [[] []]; cbn; try done; try (intros; discriminate); try (intros ->; done).

(** [count_shape] computes the counts of a trace given by a shape. *)
Ltac count_shape :=
  rewrite ?count_app, ?count_cons, ?count_nil;
  repeat match goal with
    | F : Forall (λ e, ?P e = true) ?l |- context [count ?Q ?l] =>
        rewrite (count_none P Q l ltac:(class_cases) F)
    | F : Forall (λ e, viewport_call e.1 = true) ?l |- context [count ?Q ?l] =>
        rewrite (count_none (λ e, viewport_call e.1) Q l ltac:(class_cases) F)
    end.

(** All the shapes of a run of [doReport], one goal each. *)
Ltac shape_cases H :=
  inversion H; subst; clear H;
  repeat match goal with
    | Hs : session_run _ _ _ _ _ _ _ _ _ _ _ _ |- _ => inversion Hs; subst; clear Hs
    | Hp : persist_run _ _ _ _ _ _ _ _ _ _ |- _ => inversion Hp; subst; clear Hp
    end.

Ltac capture_kind :=
  repeat match goal with
    | Hc : capture_call ?c = true |- _ => destruct c; try discriminate Hc; clear Hc
    end.

(** ** What every run of doReport does *)

Lemma report_shape host getConfiguration server email task action actionName payload h :
  report_run server email task action actionName
    (report host getConfiguration server email task action actionName payload h).1
    (trace (report host getConfiguration server email task action actionName payload h).2)
    (heap (report host getConfiguration server email task action actionName payload h).2).
Proof.
  unfold report.
  destruct (doReport _ _ _ _ _ _ _ _ _) as [r s'] eqn:E.
  apply doReport_shape in E as (evs & Ht & Hrun). cbn in *. by rewrite Ht.
Qed.

(** C1 (amended). In every run of doReport the number of attempts to close
    the browser equals the number of captures that returned an artifact, and
    that number is at most one: [Reporter.end] is attempted exactly once when
    open and capture succeeded and not at all on the paths that fail before
    or during the capture. *)
Theorem close_follows_capture
    host getConfiguration server email task action actionName payload h :
  let tr := trace (report host getConfiguration server email task action
                     actionName payload h).2 in
  count is_close tr = count captured tr /\ count captured tr <= 1.
Proof.
  intros tr. subst tr.
  pose proof (report_shape host getConfiguration server email task action
                actionName payload h) as Hrun.
  shape_cases Hrun; capture_kind; count_shape; cbn; lia.
Qed.

(** X25. In every run of doReport, whatever the configuration holds, the
    selectors typed into and clicked are the literals of the source. *)
Lemma login_selectors_are_literals
    host getConfiguration server email task action actionName payload h :
  count stray_interaction
    (trace (report host getConfiguration server email task action actionName payload h).2)
  = 0.
Proof.
  pose proof (report_shape host getConfiguration server email task action
                actionName payload h) as Hrun.
  shape_cases Hrun; capture_kind; count_shape; cbn; lia.
Qed.

(** [doReport] is the preparation followed by the [try] block and its
    handler. *)
Lemma doReport_try
    host getConfiguration server email task action actionName payload s :
  match prepare host getConfiguration server action actionName payload s with
  | (Throw err, s1) =>
      doReport host getConfiguration server email task action actionName payload s
      = (Throw err, s1)
  | (Ret (config, priority, subject, text, filename), s1) =>
      match session host config server email task action actionName
                    priority subject text filename s1 with
      | (Ret v, s2) =>
          doReport host getConfiguration server email task action actionName payload s
          = (Ret v, s2)
      | (Throw err, s2) =>
          doReport host getConfiguration server email task action actionName payload s
          = (Ret VUndef, State (heap s2) (trace s2 ++ [(LogError err, Returns VUndef)]))
      end
  end.
Proof.
  unfold doReport. rewrite run_bind.
  destruct (prepare _ _ _ _ _ _ s) as [[[[[[config priority] subject] text] filename]|err] s1];
    [|done].
  unfold try_catch.
  destruct (session _ _ _ _ _ _ _ _ _ _ _ s1) as [[v|err] s2]; done.
Qed.

Lemma elem_of_class (P : entry -> bool) l e :
  Forall (λ e, P e = true) l -> e ∈ l -> P e = true.
Proof. intros F Hin. rewrite List.Forall_forall in F. by apply F, list_elem_of_In. Qed.

(** Membership of an entry in a trace given by a shape. *)
Ltac member_cases H :=
  repeat (rewrite ?elem_of_app, ?elem_of_cons, ?elem_of_nil in H;
          match type of H with
          | _ \/ _ => destruct H as [H|H]
          | False => destruct H
          | _ ∈ ?l =>
              match goal with
              | F : Forall _ l |- _ =>
                  apply (elem_of_class _ _ _ F) in H; cbn in H; discriminate H
              end
          end).

(** C5 (amended). In a run of doReport whose action is not stateless, the
    full history record is written exactly when the mail was sent, at most
    once; the reduced record is written exactly when that write raised, and
    it carries the serialised error with the title and the action type of
    the full record; there is no third write and at most one write returns.
    A run that fails before the mail is sent writes no history. *)
Theorem history_writes
    host getConfiguration server email task action actionName payload h :
  truthy (act_stateless action) = false ->
  let tr := trace (report host getConfiguration server email task action
                     actionName payload h).2 in
  count is_full tr = count mail_sent tr /\ count mail_sent tr <= 1 /\
  count is_reduced tr = count full_failed tr /\
  count full_failed tr <= count is_full tr /\
  count is_history tr = count is_full tr + count is_reduced tr /\
  count history_stored tr <= 1 /\
  forall record r, (LogHistory record, r) ∈ tr -> is_reduced (LogHistory record, r) = true ->
    exists err priority text attachment,
      record = reduced_record server task actionName err /\
      (LogHistory (full_record server task actionName priority text attachment), Raises err) ∈ tr.
Proof.
  intros Hs tr. subst tr.
  pose proof (report_shape host getConfiguration server email task action
                actionName payload h) as Hrun.
  shape_cases Hrun; try congruence; capture_kind.
  all: repeat split; [count_shape; cbn; lia .. |].
  all: intros record r Hin Hred; member_cases Hin; simplify_eq; try discriminate Hred.
  all: eexists _, _, _, _; split; [reflexivity|].
  all: rewrite !elem_of_app, !elem_of_cons; eauto 20.
Qed.

(** C6 (amended). When closing the browser fails after a successful capture,
    the run is abandoned: the error of [Reporter.end] goes to [log.error],
    no mail is sent, no history is written, and the call resolves with
    [undefined]. The captured artifact is not used. *)
Theorem close_failure_abandons_run
    host getConfiguration server email task action actionName payload h :
  let run := report host getConfiguration server email task action actionName payload h in
  count close_failed (trace run.2) <> 0 ->
  count captured (trace run.2) = 1 /\
  count is_mail (trace run.2) = 0 /\
  count is_history (trace run.2) = 0 /\
  run.1 = Ret VUndef /\
  exists tr err,
    trace run.2 =
    tr ++ [(LogError (Error ("fail to close headless chrome, " +:+ exn_to_string err)),
            Returns VUndef)].
Proof.
  intros run. subst run.
  pose proof (report_shape host getConfiguration server email task action
                actionName payload h) as Hrun.
  shape_cases Hrun; capture_kind; count_shape; cbn; intros Hc; try lia.
  all: split_and!; try lia; try done.
  all: eexists _, _; rewrite ?app_assoc; reflexivity.
Qed.

(** C7 (amended). In a run of doReport with a stateless action in which the
    mail was sent, no history is written and the call resolves with a fresh
    object whose only property is [message], the string
    ["stateless report does not save data to Elasticsearch"]. *)
Theorem stateless_result
    host getConfiguration server email task action actionName payload h :
  let run := report host getConfiguration server email task action actionName payload h in
  truthy (act_stateless action) = true ->
  count mail_sent (trace run.2) <> 0 ->
  count is_history (trace run.2) = 0 /\
  exists l, run.1 = Ret (VRef l) /\
    heap run.2 !! l
    = Some (<["message" := VStr "stateless report does not save data to Elasticsearch"]> ∅).
Proof.
  intros run. subst run.
  pose proof (report_shape host getConfiguration server email task action
                actionName payload h) as Hrun.
  intros Hs.
  shape_cases Hrun; try congruence; capture_kind; count_shape; cbn;
    intros Hm; try lia.
  all: split; [lia | eauto].
Qed.

(** ** The packaging helpers *)

(** C8 (amended). For every snapshot type and every captured Buffer,
    createReportAttachment returns two parts in this order: the inline
    alternative, which for pdf is the paragraph "Find PDF report in the
    attachment." (without a reference to the content id) and otherwise the
    image tag whose source is cid:my-report; and the binary part, named with
    the file name, with header Content-ID <my-report>, of type
    application/pdf for pdf and image/<type> otherwise, whose base64 data
    decodes to the captured bytes. *)
Theorem createReportAttachment_parts (filename type : val) (bs : list byte) (s : state) :
  let t := default_arg type (VStr "png") in
  createReportAttachment filename (VBuf bs) type s
  = (Ret [ Inline (if is_str t "pdf" then pdf_html else image_html) true;
           File (Base64.encode bs)
                (if is_str t "pdf" then "application/pdf" else "image/" +:+ to_string t)
                filename true [("Content-ID", "<my-report>")%string] ], s)
  /\ Base64.decode (Base64.encode bs) = Some bs
  /\ contains "cid:my-report" image_html = true
  /\ contains "cid:my-report" pdf_html = false
  /\ contains "Find the document in the attachment" pdf_html = false.
Proof.
  intros t. subst t. split_and!; [|apply decode_encode|done..].
  unfold createReportAttachment. by destruct (is_str _ "pdf").
Qed.

(** C8, as stated, fails for pdf: the inline part neither refers to
    cid:my-report nor reads "Find the document in the attachment". *)
Lemma createReportAttachment_pdf_inline :
  (createReportAttachment (VStr "nightly.pdf") (VBuf []) (VStr "pdf") (State ∅ [])).1
  = Ret [ Inline "<html><p>Find PDF report in the attachment.</p></html>" true;
          File EmptyString "application/pdf" (VStr "nightly.pdf") true
               [("Content-ID", "<my-report>")%string] ] /\
  contains "cid:my-report" "<html><p>Find PDF report in the attachment.</p></html>" = false /\
  contains "Find the document in the attachment"
           "<html><p>Find PDF report in the attachment.</p></html>" = false.
Proof. split; [reflexivity|]. split; reflexivity. Qed.

(** C9. A requested name that is not empty gives exactly the name, a dot and
    the snapshot type; a missing or empty name gives "report-", the value of
    uuid(), "-", the value of moment().format('DD-MM-YYYY-h-m-s'), a dot and
    the type. *)
Theorem createReportFileName_names host (name ty id stamp : string) (missing : val) (s : state) :
  name <> EmptyString ->
  missing = VUndef \/ missing = VNull \/ missing = VStr EmptyString ->
  host (trace s) UuidV4 = Returns (VStr id) ->
  host (trace s ++ [(UuidV4, Returns (VStr id))]) (MomentFormat "DD-MM-YYYY-h-m-s")
  = Returns (VStr stamp) ->
  createReportFileName host (VStr name) (VStr ty) s
  = (Ret (VStr (name +:+ "." +:+ ty)), s) /\
  (createReportFileName host missing (VStr ty) s).1
  = Ret (VStr ("report-" +:+ id +:+ "-" +:+ stamp +:+ "." +:+ ty)).
Proof.
  intros Hname Hmissing Hid Hstamp. split.
  - unfold createReportFileName. cbn.
    destruct (String.eqb_spec name EmptyString); [done|]. done.
  - assert (truthy missing = false) as Hf by (by destruct Hmissing as [->|[->| ->]]).
    unfold createReportFileName. rewrite Hf. cbn.
    rewrite run_bind. unfold call_host at 1. rewrite Hid. cbn.
    rewrite run_bind. unfold call_host. cbn. rewrite Hstamp. done.
Qed.

Lemma createReportFileName_names_witness :
  createReportFileName healthy (VStr "nightly") (VStr "pdf") (State ∅ [])
  = (Ret (VStr "nightly.pdf"), State ∅ []) /\
  (createReportFileName healthy VUndef (VStr "png") (State ∅ [])).1
  = Ret (VStr "report-110ec58a-a0f2-4ac4-8393-c866d813b8d1-03-11-2026-4-9-7.png").
Proof.
  destruct (createReportFileName_names healthy "nightly" "pdf"
              "110ec58a-a0f2-4ac4-8393-c866d813b8d1" "03-11-2026-4-9-7"
              VUndef (State ∅ [])) as [H1 _];
    [discriminate | by left | reflexivity | reflexivity |].
  destruct (createReportFileName_names healthy "nightly" "png"
              "110ec58a-a0f2-4ac4-8393-c866d813b8d1" "03-11-2026-4-9-7"
              VUndef (State ∅ [])) as [_ H2];
    [discriminate | by left | reflexivity | reflexivity |].
  split; [exact H1 | exact H2].
Defined.

(** ** Runs of the concrete installation *)

(** C1, as stated, fails: when the capture raises, the browser that was
    launched is never closed. *)
Lemma close_skipped_when_capture_fails :
  let tr := trace (nightly_run (failing capture_call) false
                     (config_heap true false false false)).2 in
  count is_launch tr = 1 /\ count is_close tr = 0 /\ count is_close tr <> 1.
Proof. vm_compute. split_and!; [done | done | discriminate]. Qed.


(** C5, as stated, fails: a run that is not stateless and whose browser does
    not start writes no history at all. *)
Lemma no_history_when_launch_fails :
  let run := nightly_run (failing is_launch_call) false
               (config_heap true false false false) in
  truthy (act_stateless (nightly false)) = false /\
  run.1 = Ret VUndef /\ count is_history (trace run.2) = 0.
Proof. vm_compute. done. Qed.

(** C6, as stated, fails: the capture returned its bytes, closing the browser
    failed, and no mail was sent. *)
Lemma no_mail_when_close_fails :
  let run := nightly_run (failing is_close_call) false
               (config_heap true false false false) in
  count captured (trace run.2) = 1 /\ count close_failed (trace run.2) = 1 /\
  count is_mail (trace run.2) = 0.
Proof. vm_compute. done. Qed.

(** C7, as stated, fails: the message of the result is longer than the
    literal of the claim. *)
Lemma stateless_message_literal :
  let run := nightly_run healthy true (config_heap true false false false) in
  exists l, run.1 = Ret (VRef l) /\
    heap_get (heap run.2) l "message"
    = VStr "stateless report does not save data to Elasticsearch" /\
    heap_get (heap run.2) l "message" <> VStr "stateless report does not save data".
Proof. exists 11%positive. vm_compute. split_and!; [done | done | discriminate]. Qed.

Lemma history_writes_witness :
  let tr := trace (nightly_run (failing is_full_call) false
                     (config_heap true false false false)).2 in
  truthy (act_stateless (nightly false)) = false /\
  count is_full tr = count mail_sent tr /\ count mail_sent tr <= 1 /\
  count is_reduced tr = count full_failed tr /\ count is_reduced tr = 1.
Proof.
  intros tr.
  destruct (history_writes (failing is_full_call) the_config (VHost 9) (VHost 7) watcher
              (nightly false) (VStr "report_action") VNull
              (config_heap true false false false) eq_refl)
    as (H1 & H2 & H3 & _).
  split_and!; [reflexivity | exact H1 | exact H2 | exact H3 | vm_compute; reflexivity].
Defined.

Lemma close_failure_abandons_run_witness :
  let run := nightly_run (failing is_close_call) false
               (config_heap true false false false) in
  count close_failed (trace run.2) <> 0 /\
  count is_mail (trace run.2) = 0 /\ count is_history (trace run.2) = 0 /\
  run.1 = Ret VUndef.
Proof.
  intros run.
  assert (count close_failed (trace run.2) <> 0) as Hc by (vm_compute; discriminate).
  destruct (close_failure_abandons_run (failing is_close_call) the_config (VHost 9)
              (VHost 7) watcher (nightly false) (VStr "report_action") VNull
              (config_heap true false false false) Hc)
    as (_ & H2 & H3 & H4 & _).
  split_and!; [exact Hc | exact H2 | exact H3 | exact H4].
Defined.

Lemma stateless_result_witness :
  let run := nightly_run healthy true (config_heap true false false false) in
  truthy (act_stateless (nightly true)) = true /\
  count mail_sent (trace run.2) <> 0 /\
  count is_history (trace run.2) = 0.
Proof.
  intros run.
  assert (count mail_sent (trace run.2) <> 0) as Hm by (vm_compute; discriminate).
  destruct (stateless_result healthy the_config (VHost 9) (VHost 7) watcher
              (nightly true) (VStr "report_action") VNull
              (config_heap true false false false) eq_refl Hm)
    as (H1 & _).
  split_and!; [reflexivity | exact Hm | exact H1].
Defined.

(** C3 (the defect). The configuration is in custom mode with the selectors
    #login-user, #login-pass and #login-go, and the action overrides the
    button with #go. The overlay merges them as the claim says, but the login
    types into #user and #pass and clicks .btn-lg, the literals of
    [Reporter.authenticate]. *)
Theorem custom_login_uses_literal_selectors :
  let run := nightly_run healthy false (config_heap true true false true) in
  let custom := ["settings"; "report"; "authentication"; "custom"]%string in
  read (heap run.2) (the_config (VHost 9)) (custom ++ ["username_input_selector"%string])
  = Ret (VStr "#login-user") /\
  read (heap run.2) (the_config (VHost 9)) (custom ++ ["password_input_selector"%string])
  = Ret (VStr "#login-pass") /\
  read (heap run.2) (the_config (VHost 9)) (custom ++ ["login_btn_selector"%string])
  = Ret (VStr "#go") /\
  List.filter is_interaction (trace run.2)
  = [ (PageType (VHost 2) (VStr "#user") (VStr "admin") (NumDiv (VNum 5000) 50),
       Returns VUndef);
      (PageType (VHost 2) (VStr "#pass") (VStr "secret") (NumDiv (VNum 5000) 50),
       Returns VUndef);
      (PageClick (VHost 2) (VStr ".btn-lg"), Returns VUndef) ].
Proof. vm_compute. done. Qed.

(** C4 (the defect). With authentication enabled in basic mode, openPage
    reads [this.authentication.username], and [this.authentication] is
    undefined: after the browser and the page are there, the run ends in a
    TypeError; no header is set and the page is not visited. *)
Theorem basic_mode_raises_before_header :
  let run := nightly_run healthy false (config_heap true true true false) in
  run.1 = Ret VUndef /\
  List.filter (λ e, negb (prep_entry e)) (trace run.2)
  = [ (PuppeteerLaunch (VStr "/usr/bin/chromium")
         ["--no-sandbox"; "--disable-setuid-sandbox"]%string true, Returns (VHost 1));
      (BrowserNewPage (VHost 1), Returns (VHost 2));
      (LogError (TypeError "Cannot read property 'username' of undefined"),
       Returns VUndef) ].
Proof. vm_compute. done. Qed.

(** ** The overlay writes into the shared configuration *)

Lemma getp_run v k s : getp v k s = (getp_pure (heap s) v k, s).
Proof. by destruct v. Qed.

Lemma read_nil h v : read h v [] = Ret v.
Proof. done. Qed.

Lemma read_cons h v k path :
  read h v (k :: path)
  = match getp_pure h v k with
    | Ret x => read h x path
    | Throw e => Throw e
    end.
Proof.
  unfold read. cbn [getps]. rewrite run_bind, getp_run. cbn [heap].
  by destruct (getp_pure h v k).
Qed.

Lemma getps_run v path s : getps v path s = (read (heap s) v path, s).
Proof.
  revert v. induction path as [|k path IH]; intros v; [done|].
  rewrite read_cons. cbn [getps]. rewrite run_bind, getp_run.
  destruct (getp_pure (heap s) v k); [apply IH | done].
Qed.

Lemma getp_pure_ext h h' v k :
  (forall l, heap_get h' l k = heap_get h l k) -> getp_pure h' v k = getp_pure h v k.
Proof. intros H. destruct v; cbn; by rewrite ?H. Qed.

(** A read sees only the properties named on its path. *)
Lemma read_ext h h' v path :
  (forall l k, k ∈ path -> heap_get h' l k = heap_get h l k) ->
  read h' v path = read h v path.
Proof.
  revert v. induction path as [|k path IH]; intros v H; [done|].
  rewrite !read_cons, (getp_pure_ext h h') by (intros; apply H; left).
  destruct (getp_pure h v k); [|done]. apply IH. intros; apply H. by right.
Qed.

Lemma split_x_inv v s r s1 :
  split_x v s = (r, s1) ->
  s1 = s /\ ((exists res, v = VStr res /\ r = Ret (split_on "x" res)) \/ exists e, r = Throw e).
Proof. destruct v; cbn; intros [= <- <-]; eauto. Qed.

Lemma getp_pure_set_key h l k x v k' :
  k <> k' -> getp_pure (heap_set h l k x) v k' = getp_pure h v k'.
Proof. intros Hk. apply getp_pure_ext. intros l'. by apply heap_get_set_key. Qed.

Lemma getp_pure_set_eq h l k x : getp_pure (heap_set h l k x) (VRef l) k = Ret x.
Proof. unfold getp_pure. cbn. by rewrite heap_get_set_eq. Qed.

Lemma getp_pure_alloc h (o : obj) l v k :
  h !! l = None -> o !! k = None -> getp_pure (<[l := o]> h) v k = getp_pure h v k.
Proof.
  intros Hl Ho. apply getp_pure_ext. intros l'. unfold heap_get.
  destruct (decide (l = l')) as [<-|Hne].
  - rewrite lookup_insert_eq, Hl. cbn. by rewrite Ho.
  - by rewrite lookup_insert_ne.
Qed.

Lemma getp_pure_new h (o : obj) l k :
  getp_pure (<[l := o]> h) (VRef l) k = Ret (default VUndef (o !! k)).
Proof.
  unfold getp_pure. cbn [getp fst heap]. unfold heap_get. by rewrite lookup_insert_eq.
Qed.

Ltac heap_norm :=
  repeat first
    [ rewrite getp_pure_set_key in * by discriminate
    | rewrite getp_pure_alloc in * by (first [assumption | by vm_compute]) ].

(** Two reads of the same property give the same value. *)
Ltac same_reads :=
  repeat match goal with
    | H1 : Ret ?a = ?e, H2 : Ret ?b = ?e |- _ =>
        let Hab := fresh in
        assert (a = b) as Hab by congruence; simplify_eq; clear H2
    | H1 : ?v = VStr ?a, H2 : ?v = VStr ?b |- _ =>
        let Hab := fresh in
        assert (a = b) as Hab by congruence; simplify_eq; clear H2
    end.

(** The location of a fresh object, with the fact that it was free. *)
Ltac name_fresh :=
  repeat match goal with
    | |- context [fresh (dom ?h)] =>
        let Hf := fresh "Hfresh" in
        pose proof (heap_fresh h) as Hf;
        generalize dependent (fresh (dom h)); intros ? Hf
    end.

Ltac resolve_get :=
  first [ rewrite getp_pure_set_eq
        | rewrite getp_pure_new
        | match goal with
          | H : Ret _ = getp_pure ?h ?v ?k |- context [getp_pure ?h ?v ?k] => rewrite <- H
          end ].

Ltac read_goal :=
  repeat (rewrite ?read_nil; rewrite ?read_cons; heap_norm; resolve_get; cbv beta iota);
  rewrite ?read_nil;
  rewrite ?lookup_insert_eq; rewrite ?lookup_insert_ne by discriminate;
  rewrite ?lookup_insert_eq; rewrite ?lookup_insert_ne by discriminate;
  rewrite ?lookup_insert_eq; cbn [default].

Lemma overlay_overlaid config action s s1 :
  overlay config action s = (Ret (), s1) ->
  overlaid (heap s) (heap s1) config action.
Proof.
  unfold overlay, or_else. cbn [getps]. intros H.
  run_inv H.
  all: repeat match goal with
         | E : split_x _ _ = _ |- _ =>
             apply split_x_inv in E as [? [(? & ? & ?)|(? & ?)]]; simplify_eq;
             cbn [heap trace] in *
         end.
  all: heap_norm; same_reads; name_fresh.
  all: unfold overlaid, or_read; cbv zeta; split_and!.
  all: try (eexists; split; [eassumption|]; split).
  all: try (intros mode Hmode Htruthy).
  all: repeat match goal with H : truthy _ = _ |- _ => rewrite H end.
  all: try (split_and?; read_goal; done).
  all: try (exfalso; revert Hmode; read_goal; intros [= <-]; congruence).
Qed.

Global Instance same_heap_preorder : PreOrder same_heap.
Proof. split; unfold same_heap; [done | intros ???; congruence]. Qed.

Lemma same_heap_entry e : accepts_entry same_heap e.
Proof. intros s. done. Qed.

Lemma throw_not_Ret {A} (e : exn) s (a : A) s' : throw e s = (Ret a, s') -> False.
Proof. discriminate. Qed.

Ltac skip_step H Hh :=
  let E := fresh "E" in
  apply bind_Ret in H as (? & ? & E & H);
  lazymatch type of E with
  | overlay _ _ _ = _ => fail
  | _ =>
      apply (steps_run same_heap) in E;
      [ unfold same_heap in E; rewrite Hh in E; clear Hh; rename E into Hh
      | unfold createReportFileName; steps_tac ltac:(apply same_heap_entry) ]
  end.

(** A run of [prepare] that returns ends with a run of [overlay] on the
    object that the server's configuration holds under [settings.report]. *)
Lemma prepare_overlay host getConfiguration server action actionName payload
    (h : gmap loc obj) st config priority subject text filename s1 :
  heap st = h ->
  prepare host getConfiguration server action actionName payload st
  = (Ret (config, priority, subject, text, filename), s1) ->
  exists s0, heap s0 = h /\
    read h (getConfiguration server) ["settings"; "report"] = Ret config /\
    overlay config action s0 = (Ret (), s1).
Proof.
  unfold prepare. intros Hh H.
  skip_step H Hh. skip_step H Hh.
  apply bind_Ret in H as (cfg & ? & E & H). rewrite getps_run in E.
  injection E as Hcfg <-. rewrite Hh in Hcfg.
  skip_step H Hh.
  destruct (negb (truthy _)); [by apply throw_not_Ret in H|].
  repeat skip_step H Hh.
  apply bind_Ret in H as ([] & ? & E & H).
  cbv [mret M_ret] in H. simplify_eq. eauto.
Qed.

Lemma read_agree keys h h' v path :
  agree_on keys h h' -> path ⊆ keys -> read h' v path = read h v path.
Proof. intros Ha Hsub. apply read_ext. intros l k Hk. apply Ha, Hsub, Hk. Qed.

Lemma overlaid_agree h0 h1 h2 config action :
  agree_on config_keys h1 h2 -> overlaid h0 h1 config action -> overlaid h0 h2 config action.
Proof.
  intros Ha. unfold overlaid. cbv zeta.
  rewrite !(read_agree config_keys h1 h2)
    by (done || (intros ?; unfold config_keys; rewrite !elem_of_cons; tauto)).
  done.
Qed.

(** The overlay leaves the path from the server's configuration to the
    report settings alone. *)
Lemma overlay_keeps_path config action l k :
  k ∈ ["settings"; "report"]%string -> steps (keeps l k) (overlay config action).
Proof.
  rewrite !elem_of_cons, elem_of_nil. intros [->|[->|[]]];
    unfold overlay; steps_tac keeps_accept.
Qed.

(** The [try] block and its handler write only to the Reporter and to the
    result object. *)
Lemma session_keeps host config server email task action actionName
    priority subject text filename l k :
  k ∈ config_keys ->
  steps (keeps l k)
    (try_catch
       (session host config server email task action actionName priority subject text filename)
       (λ err, call_total (LogError err))).
Proof.
  unfold config_keys. rewrite !elem_of_cons, elem_of_nil. intros Hk.
  repeat (destruct Hk as [->|Hk]); [..|done].
  all: unfold session, Reporter_new, Reporter_openPage, Reporter_authenticate,
         Authenticator_kibana, Authenticator_custom, Authenticator_basic,
         Reporter_screenshot, Reporter_pdf, Reporter_end, persist.
  all: steps_tac keeps_accept.
Qed.



(** ** The Authorization header is never set *)

Global Instance without_authentication_preorder l : PreOrder (without_authentication l).
Proof.
  split.
  - intros s Hs. split; [done | reflexivity].
  - intros s1 s2 s3 H12 H23 Hs. destruct (H12 Hs) as [Hs2 E12].
    destruct (H23 Hs2) as [Hs3 E23]. split; [done | by etransitivity].
Qed.

Lemma without_authentication_write l k :
  k <> "authentication"%string -> accepts_write (without_authentication l) k.
Proof.
  intros Hk s l' x Hs. cbn. split.
  - by rewrite heap_get_set_key.
  - apply extends_write.
Qed.

Lemma without_authentication_entry l e :
  no_header e = true -> accepts_entry (without_authentication l) e.
Proof. intros He s Hs. split; [done | by apply extends_entry]. Qed.

(** Line 79: the arguments of [Authenticator.basic] cannot be evaluated. *)
Lemma basic_arguments_raise {A} l (f : val -> M A) :
  steps (without_authentication l)
    (getps (VRef l) ["authentication"; "username"] ≫= f).
Proof.
  split. intros s Hs. rewrite run_bind, getps_run.
  assert (read (heap s) (VRef l) ["authentication"; "username"]
          = Throw (TypeError "Cannot read property 'username' of undefined")) as ->.
  { rewrite read_cons. unfold getp_pure at 1. cbn [getp fst heap]. rewrite Hs.
    by rewrite read_cons. }
  split; [done | reflexivity].
Qed.

Ltac header_accept :=
  first [ apply without_authentication_write; discriminate
        | apply without_authentication_entry; reflexivity ].

Lemma Reporter_openPage_no_header host l url executablePath :
  steps (without_authentication l) (Reporter_openPage host (VRef l) url executablePath).
Proof.
  unfold Reporter_openPage, Reporter_authenticate, Authenticator_kibana, Authenticator_custom.
  repeat first [ apply basic_arguments_raise | steps_step header_accept ].
Qed.

Lemma session_no_header host config server email task action actionName
    priority subject text filename :
  steps (extends no_header)
    (session host config server email task action actionName priority subject text filename).
Proof.
  split. intros s. unfold session.
  rewrite run_bind. unfold Reporter_new. rewrite run_bind. cbn [alloc].
  rewrite run_bind. cbn [setp mret M_ret heap trace].
  set (l := fresh (dom (heap s))).
  set (s1 := State _ _).
  assert (heap_get (heap s1) l "authentication" = VUndef) as Hnew.
  { subst s1. cbn [heap]. rewrite heap_get_set_key by discriminate.
    unfold heap_get. by rewrite lookup_insert_eq. }
  assert (extends no_header s s1) as Hs1 by (exists []; by rewrite app_nil_r).
  etransitivity; [exact Hs1|]. clearbody s1. clear Hs1.
  rewrite run_bind, getp_run. destruct (getp_pure (heap s1) config "executable_path"); [|reflexivity].
  rewrite run_bind.
  pose proof (steps_at _ _ (Reporter_openPage_no_header host l (snap_url (act_snapshot action)) a) s1 Hnew)
    as [_ Hopen].
  destruct (Reporter_openPage _ _ _ _ s1) as [[[]|e] s2]; cbn [snd] in *; [|done].
  etransitivity; [exact Hopen|].
  match goal with |- extends _ _ (?m s2).2 => assert (steps (extends no_header) m) as [Hrest] end.
  { unfold Reporter_screenshot, Reporter_pdf, Reporter_end, persist.
    steps_tac extends_accept. }
  apply Hrest.
Qed.

Lemma doReport_no_header host getConfiguration server email task action actionName payload :
  steps (extends no_header)
    (doReport host getConfiguration server email task action actionName payload).
Proof.
  unfold doReport. apply steps_bind; [apply _ | |].
  - unfold prepare, createReportFileName, overlay. steps_tac extends_accept.
  - intros [[[[config priority] subject] text] filename].
    apply steps_try; [apply _ | apply session_no_header |].
    intros err. steps_tac extends_accept.
Qed.

(** X24. In no run of doReport is the Authorization header set, whatever the
    configuration and the collaborators: the one call of
    [Authenticator.basic] has arguments that cannot be evaluated. *)
Lemma header_never_set
    host getConfiguration server email task action actionName payload h :
  count sets_header
    (trace (report host getConfiguration server email task action actionName payload h).2)
  = 0.
Proof.
  destruct (steps_at _ _ (doReport_no_header host getConfiguration server email task action
                            actionName payload) (State h [])) as (evs & Hevs & Hall).
  unfold report. rewrite Hevs. cbn [trace app].
  apply (count_none no_header); [|done].
  intros e He. unfold sets_header. by rewrite He.
Qed.

(** * Further properties of the code *)

(** ** The Authenticator strategies (lines 15-56) and Reporter.authenticate *)

Ltac raised_done :=
  first [ left; split; [reflexivity | assumption]
        | right; unfold raised_last;
          first [ by exists []; eexists
                | by eexists [_]; eexists; split; [reflexivity | repeat constructor]
                | by eexists [_; _]; eexists; split; [reflexivity | repeat constructor]
                | by eexists [_; _; _]; eexists; split; [reflexivity | repeat constructor]
                | by eexists [_; _; _; _]; eexists; split; [reflexivity | repeat constructor]
                | by eexists [_; _; _; _; _]; eexists; split; [reflexivity | repeat constructor] ] ].

Ltac host_absurd :=
  match goal with Hn : forall _, VHost _ <> VHost _ |- _ => by destruct (Hn _ eq_refl) end.

Ltac login_paths :=
  cbn [fst snd heap trace]; (split; [done|]); rewrite <- ?app_assoc;
  first
    [ eexists; split; [reflexivity|]; cbn [app map fst]; split; [reflexivity | by repeat constructor]
    | exists []; split; [by rewrite app_nil_r|]; split; [by eexists|];
      eexists; split; [reflexivity|]; left; done
    | eexists; split; [reflexivity|]; cbn [app map fst]; split; [by eexists|];
      eexists; split; [reflexivity|]; raised_done
    | host_absurd ].

(** X1. Authenticator.kibana makes, in this order, the calls type #username, type
    #password (each with the delay timeout / 50), a click on the login button
    (.kuiButton when appName is 'xpack', which is the default, .btn-login
    otherwise), a wait of timeout, a click on .global-nav-link--close and a
    wait of timeout / 5; timeout defaults to 5000. It returns exactly when
    all of them returned. Otherwise the calls made are a prefix of this list,
    ending at the call that raised (or empty when page has no methods), and
    the error is 'fail to authenticate via Search Guard, user: <user>,
    <cause>', for xpack too. The heap is not touched. *)
Theorem Authenticator_kibana_calls host page user pass appName timeout s :
  let run := Authenticator_kibana host page user pass appName timeout s in
  heap run.2 = heap s /\
  exists evs, trace run.2 = trace s ++ evs /\
    match run.1 with
    | Ret _ =>
        map fst evs = kibana_calls page user pass appName timeout /\
        Forall (λ e, returned e.2 = true) evs
    | Throw err =>
        map fst evs `prefix_of` kibana_calls page user pass appName timeout /\
        exists cause,
          err = Error ("fail to authenticate via Search Guard, user: " +:+ to_string user
                       +:+ ", " +:+ exn_to_string cause) /\
          (evs = [] /\ not_host page \/ raised_last cause evs)
    end.
Proof.
  intros run. subst run. unfold kibana_calls.
  destruct (Authenticator_kibana _ _ _ _ _ _ s) as [r s'] eqn:H.
  unfold Authenticator_kibana in H.
  run_inv H; login_paths.
Qed.

(** X2. Authenticator.custom types the user into userSelector and the password
    into passSelector (delay timeout / 50), clicks loginBtnSelector and waits
    timeout (5000 by default): it uses the selectors it is given. It returns
    exactly when all four calls returned; otherwise it stops at the call that
    raised and throws 'fail to authenticate via custom auth, user: <user>,
    <cause>'. *)
Theorem Authenticator_custom_calls
    host page user pass userSelector passSelector loginBtnSelector timeout s :
  let run := Authenticator_custom host page user pass userSelector passSelector
               loginBtnSelector timeout s in
  let calls := custom_calls page user pass userSelector passSelector loginBtnSelector timeout in
  heap run.2 = heap s /\
  exists evs, trace run.2 = trace s ++ evs /\
    match run.1 with
    | Ret _ => map fst evs = calls /\ Forall (λ e, returned e.2 = true) evs
    | Throw err =>
        map fst evs `prefix_of` calls /\
        exists cause,
          err = Error ("fail to authenticate via custom auth, user: " +:+ to_string user
                       +:+ ", " +:+ exn_to_string cause) /\
          (evs = [] /\ not_host page \/ raised_last cause evs)
    end.
Proof.
  intros run calls. subst run calls. unfold custom_calls.
  destruct (Authenticator_custom _ _ _ _ _ _ _ _ s) as [r s'] eqn:H.
  unfold Authenticator_custom in H.
  run_inv H; login_paths.
Qed.

(** X3. With the default encoding, Authenticator.basic makes one call,
    page.setExtraHTTPHeaders, with the single header Authorization: Basic
    <token>, where the token decodes (base64) to the bytes of <user>:<pass>;
    it returns the page it was given. A failure is rethrown as 'fail to set
    basic auth headers, user: <user>, <cause>'. *)
Theorem Authenticator_basic_header host page user pass encoding s :
  is_str (default_arg encoding (VStr "base64")) "base64" = true ->
  let run := Authenticator_basic host page user pass encoding s in
  let credentials := to_string user +:+ ":" +:+ to_string pass in
  heap run.2 = heap s /\
  exists token,
    Base64.decode token = Some (bytes_of_string credentials) /\
    let header := PageSetExtraHTTPHeaders page [("Authorization", "Basic " +:+ token)] in
    match run.1 with
    | Ret p =>
        p = page /\ exists v, trace run.2 = trace s ++ [(header, Returns v)]
    | Throw err =>
        exists cause,
          err = Error ("fail to set basic auth headers, user: " +:+ to_string user
                       +:+ ", " +:+ exn_to_string cause) /\
          (trace run.2 = trace s /\ not_host page \/
           trace run.2 = trace s ++ [(header, Raises cause)])
    end.
Proof.
  intros Henc run credentials. subst run credentials.
  destruct (Authenticator_basic _ _ _ _ _ s) as [r s'] eqn:H.
  unfold Authenticator_basic, Buffer_toString in H. rewrite Henc in H.
  run_inv H; cbn [fst snd heap trace]; (split; [done|]);
    (eexists; split; [apply decode_encode|]); cbv zeta; eauto 10.
Qed.

Lemma Authenticator_basic_header_witness :
  let run := Authenticator_basic healthy (VHost 2) (VStr "admin") (VStr "secret") VUndef
               (State ∅ []) in
  is_str (default_arg VUndef (VStr "base64")) "base64" = true /\
  run.1 = Ret (VHost 2) /\
  exists token, Base64.decode token = Some (bytes_of_string "admin:secret") /\
    trace run.2 = [(PageSetExtraHTTPHeaders (VHost 2) [("Authorization", "Basic " +:+ token)],
                    Returns VUndef)].
Proof.
  intros run.
  destruct (Authenticator_basic_header healthy (VHost 2) (VStr "admin") (VStr "secret") VUndef
              (State ∅ []) eq_refl) as (_ & token & Hdec & Hrun).
  split_and!; [reflexivity | reflexivity |].
  exists token. split; [exact Hdec|].
  vm_compute in Hrun. destruct Hrun as (_ & v & [= <-]). vm_compute. reflexivity.
Defined.

Lemma app_self_nil {A} (l x : list A) : l = l ++ x -> x = [].
Proof.
  intros H. rewrite <- (app_nil_r l) in H at 1. apply app_inv_head in H. done.
Qed.

Lemma raised_last_one cause c : raised_last cause [(c, Raises cause)].
Proof. exists [], c. split; [done | constructor]. Qed.

Lemma raised_last_cons cause e evs :
  returned e.2 = true -> raised_last cause evs -> raised_last cause (e :: evs).
Proof.
  intros He (done & c & -> & F). exists (e :: done), c. split; [done | by constructor].
Qed.

(** Whatever has a property that can be read is neither undefined nor null. *)
Lemma getp_pure_defined h v k k' a e :
  Ret a = getp_pure h v k -> Throw e = getp_pure h v k' -> False.
Proof. destruct v; cbn; congruence. Qed.

(** X4. Reporter.authenticate does not treat the modes as exclusive: it runs
    the Search Guard login when mode.searchguard is truthy, then the X-Pack
    login when mode.xpack is truthy, then the custom login (with the selectors
    #user, #pass, .btn-lg) when mode.custom is truthy, all on this.page and
    with the same credentials and timeout. When it returns, the calls made
    are exactly the concatenation of the calls of the logins selected, and
    all of them returned; with no flag set it makes no call at all and does
    not wait. It raises only in three cases: mode cannot be read (no call is
    made and the error is the TypeError of the read); a login is selected
    and this.page has no methods (no call is made); a call raised, after
    calls that all returned. In each case the calls made are a prefix of
    that list, and in the last two the error is the one of a login: 'fail
    to authenticate via Search Guard, user: <user>, <cause>' or 'fail to
    authenticate via custom auth, user: <user>, <cause>'. The heap is not
    touched. *)
Theorem Reporter_authenticate_modes host l mode user pass timeout s :
  let run := Reporter_authenticate host (VRef l) mode user pass timeout s in
  let page := heap_get (heap s) l "page" in
  let calls :=
    (if flag (heap s) mode "searchguard"
     then kibana_calls page user pass (VStr "searchguard") timeout else []) ++
    (if flag (heap s) mode "xpack"
     then kibana_calls page user pass (VStr "xpack") timeout else []) ++
    (if flag (heap s) mode "custom"
     then custom_calls page user pass (VStr "#user") (VStr "#pass") (VStr ".btn-lg") timeout
     else []) in
  heap run.2 = heap s /\
  exists evs, trace run.2 = trace s ++ evs /\
    match run.1 with
    | Ret _ => map fst evs = calls /\ Forall (λ e, returned e.2 = true) evs
    | Throw err =>
        map fst evs `prefix_of` calls /\
        (evs = [] /\ getp_pure (heap s) mode "searchguard" = Throw err \/
         exists cause,
           (err = search_guard_failure user cause \/ err = custom_failure user cause) /\
           (evs = [] /\ not_host page /\ calls <> [] \/ raised_last cause evs))
    end.
Proof.
  intros run page calls. subst run page calls.
  destruct (Reporter_authenticate _ _ _ _ _ _ s) as [r s'] eqn:H. cbn [fst snd].
  assert (heap s' = heap s) as Hh.
  { revert H. apply (steps_run same_heap).
    unfold Reporter_authenticate, Authenticator_kibana, Authenticator_custom.
    steps_tac ltac:(apply same_heap_entry). }
  split; [done|].
  destruct (steps_run _ _ _ _ _ (Reporter_authenticate_extends _ _ _ _ _ _) H) as (evs & Hevs & _).
  exists evs. split; [done|].
  unfold Reporter_authenticate, Authenticator_kibana, Authenticator_custom in H.
  unfold flag, kibana_calls, custom_calls, search_guard_failure, custom_failure.
  run_inv H; cbn [heap trace] in *; rewrite <- ?app_assoc in Hevs;
    first [apply app_inv_head in Hevs | apply app_self_nil in Hevs]; subst evs.
  all: try (exfalso;
            match goal with
            | H1 : Ret _ = getp_pure ?h ?v _, H2 : Throw _ = getp_pure ?h ?v _ |- _ =>
                exact (getp_pure_defined _ _ _ _ _ _ H1 H2)
            end).
  all: repeat match goal with
         | Hg : Ret _ = getp_pure _ (VRef _) _ |- _ => cbn in Hg
         end.
  all: try match goal with
         | |- context [heap_get ?h ?ll "page"] =>
             generalize dependent (heap_get h ll "page"); intros; simplify_eq
         end.
  all: try host_absurd.
  all: repeat match goal with
         | Hg : _ = getp_pure _ _ _ |- _ => rewrite <- Hg; clear Hg
         end.
  all: repeat match goal with Ht : truthy _ = _ |- _ => rewrite Ht; clear Ht end.
  all: cbn [app map fst]; rewrite ?app_nil_r.
  all: first
    [ split; [reflexivity | by repeat constructor]
    | split; [by eexists|];
      first
        [ left; split; reflexivity
        | right; eexists; split; [first [left; reflexivity | right; reflexivity]|];
          first
            [ left; split_and!; [reflexivity | assumption | discriminate]
            | right; repeat (apply raised_last_cons; [reflexivity|]); apply raised_last_one ] ] ].
Qed.

Lemma Reporter_authenticate_modes_witness :
  let run := Reporter_authenticate healthy (VRef 10%positive) (VRef 5%positive)
               (VStr "admin") (VStr "secret") (VNum 5000) (State both_heap []) in
  run.1 = Ret () /\
  map fst (trace run.2)
  = kibana_calls (VHost 2) (VStr "admin") (VStr "secret") (VStr "searchguard") (VNum 5000)
    ++ kibana_calls (VHost 2) (VStr "admin") (VStr "secret") (VStr "xpack") (VNum 5000).
Proof.
  intros run.
  assert (run.1 = Ret ()) as Hret by (vm_compute; reflexivity).
  split; [exact Hret|].
  destruct (Reporter_authenticate_modes healthy 10%positive (VRef 5%positive)
              (VStr "admin") (VStr "secret") (VNum 5000) (State both_heap []))
    as (_ & evs & Htr & Hm).
  fold run in Htr, Hm. rewrite Hret in Hm. destruct Hm as [Hcalls _].
  cbn [trace app] in Htr. rewrite Htr, Hcalls. vm_compute. reflexivity.
Defined.

(** ** The captures and the launch of the browser *)

(** Resolving a read of the goal or of a hypothesis with the reads of a path. *)
Ltac read_from_gets :=
  repeat (rewrite ?read_nil; rewrite ?read_cons; heap_norm;
          match goal with
          | H : Ret _ = getp_pure ?h ?v ?k |- context [getp_pure ?h ?v ?k] => rewrite <- H
          end; cbv beta iota);
  rewrite ?read_nil.

(** Resolving the reads of the goal with the reads of a path, whatever
    their outcome. *)
Ltac reads_of_path :=
  cbn [app];
  repeat (rewrite ?read_nil; rewrite ?read_cons; heap_norm;
          match goal with
          | H : _ = getp_pure ?h ?v ?k |- context [getp_pure ?h ?v ?k] => rewrite <- H
          end; cbv beta iota);
  rewrite ?read_nil.

Ltac page_and_url :=
  repeat match goal with
    | Hg : _ = getp_pure _ (VRef _) "page" |- _ => cbn in Hg; injection Hg as Hg
    | Hg : _ = getp_pure _ (VRef _) "url" |- _ => cbn in Hg; injection Hg as Hg
    end;
  repeat match goal with
    | Hg : VHost _ = heap_get _ _ _ |- _ => rewrite <- ?Hg in *; clear Hg
    end;
  simplify_eq.

(** X7. Reporter.screenshot reads config.file.screenshot.width and height of
    this; when one of the reads raises, it raises that error and makes no
    call. Otherwise, when it returns, it has made exactly two calls, which
    both returned: setViewport on this.page with the numeric conversions of
    the width and the height, then screenshot with the type given (png by
    default), and its result is what the screenshot call returned. It raises
    only with 'fail to do a screenshot, url: <this.url>, <cause>', and only
    when this.page has no methods (no call made), when the viewport call
    raised with the cause (no screenshot is attempted), or when the
    screenshot call raised with the cause after the viewport call returned.
    The heap is not touched. *)
Theorem Reporter_screenshot_viewport host l type s :
  let run := Reporter_screenshot host (VRef l) type s in
  let page := heap_get (heap s) l "page" in
  let url := heap_get (heap s) l "url" in
  let shot := ["config"; "file"; "screenshot"]%string in
  let kind := default_arg type (VStr "png") in
  heap run.2 = heap s /\
  exists evs, trace run.2 = trace s ++ evs /\
    match read (heap s) (VRef l) (shot ++ ["width"%string]) with
    | Throw e => run.1 = Throw e /\ evs = []
    | Ret width =>
        match read (heap s) (VRef l) (shot ++ ["height"%string]) with
        | Throw e => run.1 = Throw e /\ evs = []
        | Ret height =>
            let viewport := PageSetViewport page (NumOf width) (NumOf height) in
            match run.1 with
            | Ret file =>
                exists v, evs = [ (viewport, Returns v);
                                  (PageScreenshot page kind, Returns file) ]
            | Throw err =>
                exists cause, err = screenshot_failure url cause /\
                  (evs = [] /\ not_host page \/
                   evs = [ (viewport, Raises cause) ] \/
                   exists v, evs = [ (viewport, Returns v);
                                     (PageScreenshot page kind, Raises cause) ])
            end
        end
    end.
Proof.
  intros run page url shot kind. subst run page url shot kind.
  destruct (Reporter_screenshot _ _ _ s) as [r s'] eqn:H.
  unfold Reporter_screenshot, destructure2 in H. cbn [getps] in H.
  unfold screenshot_failure.
  run_inv H; cbn [fst snd heap trace app]; (split; [done|]); rewrite <- ?app_assoc.
  all: first [ exists []; split; [by rewrite app_nil_r|]
             | eexists; split; [reflexivity|] ].
  all: try (exfalso;
            match goal with
            | H1 : Ret _ = getp_pure ?h ?v _, H2 : Throw _ = getp_pure ?h ?v _ |- _ =>
                exact (getp_pure_defined _ _ _ _ _ _ H1 H2)
            | H2 : Throw _ = getp_pure _ (VRef _) _ |- _ => discriminate H2
            end).
  all: reads_of_path; page_and_url; try host_absurd.
  all: eauto 8.
Qed.

(** X8. Reporter.pdf reads config.file.pdf.format and landscape of this; when
    one of the reads raises, it raises that error and makes no call.
    Otherwise, when it returns, it has made exactly one call, page.pdf with
    that format and that landscape flag, which returned, and its result is
    what the call returned; it does not set a viewport. It raises only with
    'fail to do a PDF doc, url: <this.url>, <cause>', and only when
    this.page has no methods (no call made) or when the page.pdf call raised
    with the cause. The heap is not touched. *)
Theorem Reporter_pdf_options host l s :
  let run := Reporter_pdf host (VRef l) s in
  let page := heap_get (heap s) l "page" in
  let url := heap_get (heap s) l "url" in
  let pdf := ["config"; "file"; "pdf"]%string in
  heap run.2 = heap s /\
  exists evs, trace run.2 = trace s ++ evs /\
    match read (heap s) (VRef l) (pdf ++ ["format"%string]) with
    | Throw e => run.1 = Throw e /\ evs = []
    | Ret format =>
        match read (heap s) (VRef l) (pdf ++ ["landscape"%string]) with
        | Throw e => run.1 = Throw e /\ evs = []
        | Ret landscape =>
            match run.1 with
            | Ret file => evs = [ (PagePdf page format landscape, Returns file) ]
            | Throw err =>
                exists cause, err = pdf_failure url cause /\
                  (evs = [] /\ not_host page \/
                   evs = [ (PagePdf page format landscape, Raises cause) ])
            end
        end
    end.
Proof.
  intros run page url pdf. subst run page url pdf.
  destruct (Reporter_pdf _ _ s) as [r s'] eqn:H.
  unfold Reporter_pdf, destructure2 in H. cbn [getps] in H.
  unfold pdf_failure.
  run_inv H; cbn [fst snd heap trace app]; (split; [done|]); rewrite <- ?app_assoc.
  all: first [ exists []; split; [by rewrite app_nil_r|]
             | eexists; split; [reflexivity|] ].
  all: try (exfalso;
            match goal with
            | H1 : Ret _ = getp_pure ?h ?v _, H2 : Throw _ = getp_pure ?h ?v _ |- _ =>
                exact (getp_pure_defined _ _ _ _ _ _ H1 H2)
            | H2 : Throw _ = getp_pure _ (VRef _) _ |- _ => discriminate H2
            end).
  all: reads_of_path; page_and_url; try host_absurd.
  all: eauto 8.
Qed.

Lemma Reporter_screenshot_viewport_witness :
  let run := Reporter_screenshot healthy (VRef 10%positive) VUndef (State both_heap []) in
  run.1 = Ret (VBuf (bytes_of_string "PNG")) /\
  exists v,
    trace run.2
    = [ (PageSetViewport (VHost 2) (NumOf (VNum 1280)) (NumOf (VNum 900)), Returns v);
        (PageScreenshot (VHost 2) (VStr "png"), Returns (VBuf (bytes_of_string "PNG"))) ].
Proof.
  intros run.
  destruct (Reporter_screenshot_viewport healthy 10%positive VUndef (State both_heap []))
    as (_ & evs & Htr & Hm).
  fold run in Htr, Hm. cbn [trace app] in Htr.
  assert (run.1 = Ret (VBuf (bytes_of_string "PNG"))) as Hret by (vm_compute; reflexivity).
  split; [exact Hret|]. rewrite Hret in Hm. rewrite Htr.
  vm_compute in Hm. vm_compute. exact Hm.
Defined.

Lemma Reporter_pdf_options_witness :
  let run := Reporter_pdf healthy (VRef 10%positive) (State both_heap []) in
  run.1 = Ret (VBuf (bytes_of_string "PNG")) /\
  trace run.2
  = [ (PagePdf (VHost 2) (VStr "A4") (VBool true), Returns (VBuf (bytes_of_string "PNG"))) ].
Proof.
  intros run.
  destruct (Reporter_pdf_options healthy 10%positive (State both_heap []))
    as (_ & evs & Htr & Hm).
  fold run in Htr, Hm. cbn [trace app] in Htr.
  assert (run.1 = Ret (VBuf (bytes_of_string "PNG"))) as Hret by (vm_compute; reflexivity).
  split; [exact Hret|]. rewrite Hret in Hm. rewrite Htr.
  vm_compute in Hm. vm_compute. exact Hm.
Defined.

(** X5. When puppeteer.launch raises, or the browser it returned raises in
    newPage, openPage throws 'fail to open headless chrome, <cause>' and
    makes no further call: this.url is already set, this.page is not. *)
Theorem Reporter_openPage_launch_failure host l url executablePath s cause :
  let launch := launch_call executablePath in
  (host (trace s) launch = Raises cause \/
   exists b,
     host (trace s) launch = Returns (VHost b) /\
     host (trace s ++ [(launch, Returns (VHost b))]) (BrowserNewPage (VHost b)) = Raises cause) ->
  let run := Reporter_openPage host (VRef l) url executablePath s in
  run.1 = Throw (Error ("fail to open headless chrome, " +:+ exn_to_string cause)) /\
  heap_get (heap run.2) l "url" = url /\
  heap_get (heap run.2) l "page" = heap_get (heap s) l "page" /\
  (trace run.2 = trace s ++ [(launch, Raises cause)] \/
   exists b, trace run.2 = trace s ++ [(launch, Returns (VHost b));
                                       (BrowserNewPage (VHost b), Raises cause)]).
Proof.
  intros launch Hfail run. subst run launch. unfold launch_call in *.
  unfold Reporter_openPage.
  rewrite run_bind. cbn [setp heap trace]. rewrite run_bind.
  match goal with
  | |- context [try_catch ?m ?h ?st] => destruct (try_catch m h st) as [r s1] eqn:Hblock
  end.
  unfold try_catch in Hblock. rewrite run_bind in Hblock.
  unfold call_host at 1 in Hblock. cbn [heap trace] in Hblock.
  destruct Hfail as [Hl|(b & Hl & Hp)]; rewrite Hl in Hblock.
  - cbn [throw] in Hblock. injection Hblock as <- <-. cbn [fst snd heap trace].
    split_and!; [done | apply heap_get_set_eq | | by left].
    by rewrite heap_get_set_key.
  - rewrite run_bind in Hblock. cbn [setp heap trace] in Hblock.
    rewrite run_bind, getp_run in Hblock. cbn [heap trace] in Hblock.
    rewrite getp_pure_set_eq in Hblock.
    rewrite run_bind in Hblock. cbn [invoke] in Hblock.
    unfold call_host in Hblock. cbn [heap trace] in Hblock. rewrite Hp in Hblock.
    cbn [throw] in Hblock. injection Hblock as <- <-. cbn [fst snd heap trace].
    split_and!; [done | | | right; exists b; by rewrite <- app_assoc].
    + rewrite heap_get_set_key by discriminate. apply heap_get_set_eq.
    + by rewrite !heap_get_set_key.
Qed.

Lemma Reporter_openPage_launch_failure_witness :
  let s := State (config_heap true false false false) [] in
  let run := Reporter_openPage (failing is_launch_call) (VRef 3%positive) (VStr "http://x")
               (VStr "/usr/bin/chromium") s in
  failing is_launch_call (trace s) (launch_call (VStr "/usr/bin/chromium"))
  = Raises (HostError "Error: down" "{}") /\
  run.1 = Throw (Error "fail to open headless chrome, Error: down") /\
  heap_get (heap run.2) 3%positive "url" = VStr "http://x".
Proof.
  intros s run.
  destruct (Reporter_openPage_launch_failure (failing is_launch_call) 3%positive (VStr "http://x")
              (VStr "/usr/bin/chromium") s (HostError "Error: down" "{}"))
    as (H1 & H2 & _); [by left|].
  split_and!; [reflexivity | exact H1 | exact H2].
Defined.

(** ** openPage without authentication *)

(** Resolving a read in a hypothesis with the reads of a path. *)
Ltac read_in H :=
  repeat (rewrite ?read_nil in H; rewrite ?read_cons in H;
          match type of H with
          | context [getp_pure ?h ?v ?k] =>
              match goal with
              | Hg : _ = getp_pure h v k |- _ => rewrite <- Hg in H
              end
          end; cbv beta iota in H);
  rewrite ?read_nil in H.

(** Reading through [undefined] or [null] raises whatever the property. *)
Lemma read_throw h v k e k' path x :
  Throw e = getp_pure h v k -> read h v (k' :: path) = Ret x -> False.
Proof. rewrite read_cons. destruct v; cbn; congruence. Qed.

(** A read that returned contradicts the reads of a path. *)
Ltac read_absurd H :=
  exfalso;
  repeat first
    [ match goal with
      | Hg : Throw _ = getp_pure _ _ _ |- _ => exact (read_throw _ _ _ _ _ _ _ Hg H)
      end
    | progress (rewrite read_cons in H;
                match type of H with
                | context [getp_pure ?h ?v ?k] =>
                    match goal with
                    | Hg : _ = getp_pure h v k |- _ => rewrite <- Hg in H
                    end
                end; cbv beta iota in H) ];
  rewrite ?read_nil in H; congruence.

(** From here on a write to a reference is run, not inverted. *)
Ltac run_prim E ::=
  lazymatch type of E with
  | getp _ _ _ = _ =>
      let Hs := fresh in let Hv := fresh "Hget" in
      apply getp_inv in E as [Hs Hv]; subst; cbn [heap trace] in *
  | getps _ _ _ = _ => apply getps_inv in E; subst; cbn [heap trace] in *
  | setp (VRef _) _ _ _ = _ => cbn [setp] in E; simplify_eq; cbn [heap trace] in *
  | setp _ _ _ _ = _ =>
      apply setp_inv in E as [(? & ? & ? & ?)|(? & ? & ?)];
      simplify_eq; cbn [heap trace] in *
  | alloc _ _ = _ => apply alloc_inv in E as [? ?]; simplify_eq; cbn [heap trace] in *
  | call_host _ _ _ = _ =>
      apply call_host_inv in E as (? & ? & ?); subst; tidy_reply; cbn [heap trace] in *
  | call_total _ _ = _ =>
      apply call_total_inv in E as [? ?]; simplify_eq; cbn [heap trace] in *
  | invoke _ _ _ _ _ = _ =>
      apply invoke_inv in E as [(? & ? & ? & ? & ?)|(? & ? & ? & ?)];
      simplify_eq; tidy_reply; cbn [heap trace] in *
  | _ => idtac
  end.

(** X6. With config.authentication.enabled falsy, openPage never types,
    clicks or sets a header. When it returns, it has made exactly four calls:
    the launch, newPage, goto(url, networkidle0) and a wait of
    config.timeout. When it raises, the error is 'fail to open headless
    chrome, <cause>' or 'fail to go to url: <url>', the latter without the
    cause. *)
Theorem Reporter_openPage_authentication_disabled host l url executablePath s enabled :
  read (heap s) (VRef l) ["config"; "authentication"; "enabled"] = Ret enabled ->
  truthy enabled = false ->
  let run := Reporter_openPage host (VRef l) url executablePath s in
  exists evs, trace run.2 = trace s ++ evs /\
    count is_interaction evs = 0 /\ count sets_header evs = 0 /\
    match run.1 with
    | Ret _ =>
        exists browser page v timeout,
          read (heap s) (VRef l) ["config"; "timeout"] = Ret timeout /\
          evs = [ (launch_call executablePath, Returns browser);
                  (BrowserNewPage browser, Returns page);
                  (PageGoto page url "networkidle0", Returns v);
                  (Delay (NumOf timeout), Returns VUndef) ]
    | Throw err =>
        (exists cause, err = Error ("fail to open headless chrome, " +:+ exn_to_string cause)) \/
        err = Error ("fail to go to url: " +:+ to_string url)
    end.
Proof.
  intros Hen Hoff run. subst run.
  destruct (Reporter_openPage _ _ _ _ s) as [r s'] eqn:H.
  unfold Reporter_openPage in H. cbn [getps] in H.
  run_inv H; cbn [fst snd heap trace app] in *; rewrite <- ?app_assoc; heap_norm; same_reads.
  all: try (read_absurd Hen).
  all: try (exists []; split; [by rewrite app_nil_r|]; split_and!; [done | done | eauto]; fail).
  all: try (eexists; split; [reflexivity|]; split_and!; [done | done | eauto]; fail).
  all: eexists; (split; [reflexivity|]); split_and!; [done | done |].
  all: repeat match goal with
         | Hg : Ret _ = getp_pure _ (VRef _) "page" |- _ =>
             cbn in Hg; rewrite ?heap_get_set_eq, ?heap_get_set_key in Hg by discriminate;
             rewrite ?heap_get_set_eq in Hg; simplify_eq
         | Hg : Ret _ = getp_pure _ (VRef _) "browser" |- _ =>
             cbn in Hg; rewrite ?heap_get_set_eq, ?heap_get_set_key in Hg by discriminate;
             rewrite ?heap_get_set_eq in Hg; simplify_eq
         end.
  all: eexists _, _, _, _; split; [read_from_gets; reflexivity | reflexivity].
Qed.

Lemma Reporter_openPage_authentication_disabled_witness :
  let s := State reporter_heap [] in
  let run := Reporter_openPage healthy (VRef 10%positive) (VStr "http://x")
               (VStr "/usr/bin/chromium") s in
  read (heap s) (VRef 10%positive) ["config"; "authentication"; "enabled"] = Ret (VBool false) /\
  truthy (VBool false) = false /\
  exists evs, trace run.2 = trace s ++ evs /\ count is_interaction evs = 0.
Proof.
  intros s run.
  assert (read (heap s) (VRef 10%positive) ["config"; "authentication"; "enabled"]
          = Ret (VBool false)) as Hen by (vm_compute; reflexivity).
  destruct (Reporter_openPage_authentication_disabled healthy 10%positive (VStr "http://x")
              (VStr "/usr/bin/chromium") s (VBool false) Hen eq_refl)
    as (evs & Htr & Hi & _).
  split_and!; [exact Hen | reflexivity | exists evs; split; [exact Htr | exact Hi]].
Defined.

(** ** What the preparation returns *)

Lemma or_default_inv v d s r s1 :
  or_default v d s = (r, s1) -> s1 = s /\ r = Ret (defaulted (heap s) v d).
Proof.
  unfold defaulted, or_default. destruct v as [| |[]|n|t|l|bs|id]; cbn;
    try (intros [= <- <-]; done).
  - destruct (negb (negb (n =? 0)%Z)); cbn; intros [= <- <-]; done.
  - destruct (negb (negb (String.eqb t EmptyString))); cbn; intros [= <- <-]; done.
Qed.

Lemma extends_none s s' : extends (λ _, false) s s' -> trace s' = trace s.
Proof.
  intros (evs & -> & F). destruct F as [|e evs He _]; [by rewrite app_nil_r | discriminate].
Qed.

Lemma prepare_result host getConfiguration server action actionName payload s
    config priority subject text filename s1 :
  prepare host getConfiguration server action actionName payload s
  = (Ret (config, priority, subject, text, filename), s1) ->
  priority = defaulted (heap s) (act_priority action) (VStr "INFO") /\
  exists pre id stamp,
    trace s1 = trace s ++ pre /\ Forall (λ e, prep_entry e = true) pre /\
    (MustacheRender (subject_template (heap s) action actionName) payload, Returns subject) ∈ pre /\
    (MustacheRender (body_template (heap s) action) payload, Returns text) ∈ pre /\
    filename = report_name action id stamp /\
    (truthy (snap_name (act_snapshot action)) = false ->
     (UuidV4, Returns id) ∈ pre /\ (MomentFormat "DD-MM-YYYY-h-m-s", Returns stamp) ∈ pre).
Proof.
  unfold prepare, createReportFileName. intros H.
  run_inv H.
  all: repeat match goal with
         | E : or_default _ _ _ = _ |- _ => apply or_default_inv in E as [? ?]; simplify_eq
         | E : overlay _ _ _ = _ |- _ =>
             apply (steps_run _ _ _ _ _ (overlay_extends (λ _, false) _ _)) in E;
             apply extends_none in E; cbn [heap trace] in E
         end.
  all: split; [done|].
  all: unfold subject_template, body_template, report_name.
  all: repeat match goal with Hb : negb (truthy _) = _ |- _ => apply (f_equal negb) in Hb; rewrite negb_involutive in Hb; cbn [negb] in Hb; rewrite ?Hb end.
  all: match goal with E : trace _ = _ |- _ => rewrite E; clear E end.
  all: rewrite <- ?app_assoc; cbn [app].
  all: eexists _, _, _; split_and!; [reflexivity | by repeat constructor | ..].
  all: try (rewrite !elem_of_cons; eauto 20; fail).
  all: try reflexivity.
  all: try (intros _; rewrite !elem_of_cons; eauto 20; fail).
  all: try (intros; discriminate).
  Unshelve. all: exact VUndef.
Qed.

(** ** The mail, the history record and the result *)

Lemma doReport_block host getConfiguration server email task action actionName payload
    s config priority subject text filename s1 r s' :
  prepare host getConfiguration server action actionName payload s
  = (Ret (config, priority, subject, text, filename), s1) ->
  doReport host getConfiguration server email task action actionName payload s = (r, s') ->
  exists evs, trace s' = trace s1 ++ evs /\
    block_run server email task action actionName priority subject text filename
      r evs (heap s').
Proof.
  intros Hp H. unfold doReport in H. rewrite run_bind, Hp in H.
  unfold try_catch in H.
  destruct (session _ _ _ _ _ _ _ _ _ _ _ _) as [[v|err] s2] eqn:E1;
    apply session_shape in E1 as (evs & Hevs & Hrun).
  - simplify_eq. exists evs. split; [done | by constructor].
  - run_prim H. exists (evs ++ [(LogError err, Returns VUndef)]). split.
    + cbn [trace]. by rewrite Hevs, <- app_assoc.
    + by constructor.
Qed.

Lemma doReport_rejected host getConfiguration server email task action actionName payload
    s err s1 :
  prepare host getConfiguration server action actionName payload s = (Throw err, s1) ->
  doReport host getConfiguration server email task action actionName payload s = (Throw err, s1).
Proof. intros Hp. unfold doReport. by rewrite run_bind, Hp. Qed.

(** The cases of a run of [report]: the preparation raised, or it returned
    and the block ran. *)
Lemma report_cases host getConfiguration server email task action actionName payload h :
  let run := report host getConfiguration server email task action actionName payload h in
  (exists err, run.1 = Throw err /\ Forall (λ e, prep_entry e = true) (trace run.2)) \/
  exists config priority subject text filename s1 evs,
    prepare host getConfiguration server action actionName payload (State h [])
    = (Ret (config, priority, subject, text, filename), s1) /\
    trace run.2 = trace s1 ++ evs /\
    block_run server email task action actionName priority subject text filename
      run.1 evs (heap run.2).
Proof.
  intros run. subst run. unfold report.
  destruct (prepare host getConfiguration server action actionName payload (State h []))
    as [[[[[[config priority] subject] text] filename]|err] s1] eqn:Hp.
  - right. destruct (doReport _ _ _ _ _ _ _ _ _) as [r s'] eqn:H.
    destruct (doReport_block _ _ _ _ _ _ _ _ _ _ _ _ _ _ _ _ _ Hp H) as (evs & Ht & Hb).
    eexists _, _, _, _, _, _, _. eauto.
  - left. rewrite (doReport_rejected _ _ _ _ _ _ _ _ _ _ _ Hp). exists err. split; [done|].
    apply (steps_run _ _ _ _ _ (prepare_extends _ _ _ _ _ _)) in Hp as (pre & Hpre & Fpre).
    cbn [fst snd trace app] in *. by rewrite Hpre.
Qed.

(** All the cases of a run, with the results of the preparation. *)
Ltac report_paths host getConfiguration server email task action actionName payload h :=
  let Hp := fresh "Hprep" in
  let Ht := fresh "Htrace" in
  let Hb := fresh "Hblock" in
  destruct (report_cases host getConfiguration server email task action actionName payload h)
    as [(? & ? & ?)|(? & ? & ? & ? & ? & ? & ? & Hp & Ht & Hb)];
  [| apply prepare_result in Hp as (? & ? & ? & ? & Hp & ? & ? & ? & ? & ?);
     cbn [heap trace app] in *; rewrite Hp in Ht; rewrite Ht; clear Ht Hp;
     inversion Hb; subst; clear Hb;
     repeat match goal with
       | Hs : session_run _ _ _ _ _ _ _ _ _ _ _ _ |- _ => inversion Hs; subst; clear Hs
       | Hp : persist_run _ _ _ _ _ _ _ _ _ _ |- _ => inversion Hp; subst; clear Hp
       end ].

(** X15. Every mail that doReport hands to email.send goes to the mail client
    it was given, with the from and to of the action; its subject and its
    text are what mustache returned for the subject template and the body
    template, rendered with the payload. The templates are action.subject and
    action.body, or the defaults 'SENTINL: <actionName>' and 'Series Report
    {{payload._id}}: {{payload.hits.total}}'. *)
Theorem mail_content host getConfiguration server email task action actionName payload h :
  let tr := trace (report host getConfiguration server email task action actionName payload h).2 in
  forall to m r, (EmailSend to m, r) ∈ tr ->
    to = email /\
    mail_from m = act_from action /\ mail_to m = act_to action /\
    (MustacheRender (subject_template h action actionName) payload, Returns (mail_subject m)) ∈ tr /\
    (MustacheRender (body_template h action) payload, Returns (mail_text m)) ∈ tr.
Proof.
  intros tr. subst tr. intros to m r.
  report_paths host getConfiguration server email task action actionName payload h.
  all: intros Hin; member_cases Hin; simplify_eq.
  all: cbn [mail_from mail_to mail_subject mail_text]; split_and!; try done.
  all: rewrite !elem_of_app; eauto.
Qed.

(** X16. A mail is handed to email.send only directly after a capture that
    returned, a close of the browser that returned and the debug log, in this
    order. Its attachment has the inline part for the snapshot type and a
    binary part whose name is the report file name (the snapshot name, or
    report-<uuid>-<stamp>, with the type as extension, png by default), whose
    mime type follows the type, and whose data, for a Buffer, decodes to the
    bytes the capture returned. *)
Theorem mail_attachment_is_capture
    host getConfiguration server email task action actionName payload h :
  let tr := trace (report host getConfiguration server email task action actionName payload h).2 in
  let snap := act_snapshot action in
  let type := default_arg (snap_type snap) (VStr "png") in
  forall to m r, (EmailSend to m, r) ∈ tr ->
    exists before after c file browser v msg id stamp data,
      tr = before ++ [ (c, Returns file); (BrowserClose browser, Returns v);
                       (LogDebug msg, Returns VUndef); (EmailSend to m, r) ] ++ after /\
      capture_call c = true /\
      mail_attachment m
      = [ Inline (if is_str type "pdf" then pdf_html else image_html) true;
          File data (if is_str type "pdf" then "application/pdf" else "image/" +:+ to_string type)
               (report_name action id stamp) true [("Content-ID", "<my-report>")] ] /\
      (forall bs, file = VBuf bs -> Base64.decode data = Some bs) /\
      (truthy (snap_name snap) = false ->
       (UuidV4, Returns id) ∈ before /\ (MomentFormat "DD-MM-YYYY-h-m-s", Returns stamp) ∈ before).
Proof.
  intros tr snap type. subst tr snap type. intros to m r.
  report_paths host getConfiguration server email task action actionName payload h.
  all: intros Hin; member_cases Hin; simplify_eq.
  all: match goal with
       | Ha : attachment_of _ ?file _ = Ret ?att |- _ =>
           unfold attachment_of, createReportAttachment in Ha;
           assert (exists data, toString_base64 file (State ∅ []) = (Ret data, State ∅ []) /\
                     (forall bs, file = VBuf bs -> Base64.decode data = Some bs)) as (data & Hd & Hdec)
             by (destruct file; try (destruct (is_str _ "pdf"); discriminate Ha);
                 eexists; (split; [reflexivity|]); intros ? [= <-]; try apply decode_encode)
       end.
  all: rewrite <- ?app_assoc; cbn [app].
  all: match goal with
       | |- context [?pre ++ ?op ++ ?vp ++ _ :: _ :: _ :: _ :: ?rest] =>
           exists (pre ++ op ++ vp), rest
       end.
  all: eexists _, _, _, _, _, _, _, data.
  all: split_and!; [by rewrite <- !app_assoc | done | | done | ].
  all: try match goal with
       | Hn : truthy _ = false -> _ |- truthy _ = false -> _ =>
           intros Hf; destruct (Hn Hf); rewrite !elem_of_app; eauto
       end.
  all: cbn [mail_attachment].
  all: match goal with
       | Ha : fst _ = Ret _ |- _ =>
           destruct (is_str _ "pdf"); rewrite run_bind, Hd in Ha; cbn in Ha;
           injection Ha as <-; reflexivity
       end.
Qed.

(** X17. Every full history record that doReport writes carries the server,
    the title of the watcher, the action name, report = true, the level
    action.priority (INFO when it is missing or empty), and the text and the
    attachment of a mail that was sent in the same run. *)
Theorem history_record_mirrors_mail
    host getConfiguration server email task action actionName payload h :
  let tr := trace (report host getConfiguration server email task action actionName payload h).2 in
  forall srv title actionType level rep message object r,
    (LogHistory (HistoryFull srv title actionType level rep message object), r) ∈ tr ->
    srv = server /\ title = task_source_title task /\ actionType = actionName /\
    level = defaulted h (act_priority action) (VStr "INFO") /\ rep = true /\
    exists m w, (EmailSend email m, Returns w) ∈ tr /\
      message = mail_text m /\ object = mail_attachment m.
Proof.
  intros tr. subst tr. intros srv title actionType level rep message object r.
  report_paths host getConfiguration server email task action actionName payload h.
  all: intros Hin; member_cases Hin; simplify_eq.
  all: split_and!; try done.
  all: eexists _, _; split; [rewrite !elem_of_app, !elem_of_cons; eauto 20 | done].
Qed.

(** X18. What doReport resolves with: for an action that is not stateless,
    the value returned by the last call of logHistory (the full record or
    the fallback); for a stateless action, a new object, after the debug log;
    or undefined, after log.error. When it rejects, only the calls of the
    preparation were made. *)
Theorem doReport_result host getConfiguration server email task action actionName payload h :
  let run := report host getConfiguration server email task action actionName payload h in
  match run.1 with
  | Ret v =>
      (truthy (act_stateless action) = false /\
       exists record, last (trace run.2) = Some (LogHistory record, Returns v)) \/
      (truthy (act_stateless action) = true /\
       exists l, v = VRef l /\
         last (trace run.2) = Some (LogDebug stateless_message, Returns VUndef)) \/
      (exists err, v = VUndef /\ last (trace run.2) = Some (LogError err, Returns VUndef))
  | Throw err => Forall (λ e, prep_entry e = true) (trace run.2)
  end.
Proof.
  intros run. subst run.
  pose proof (report_shape host getConfiguration server email task action
                actionName payload h) as Hrun.
  destruct (report _ _ _ _ _ _ _ _ _) as [r s']. cbn [fst snd] in *.
  shape_cases Hrun; try done.
  all: rewrite ?last_app; cbn [last].
  all: first [ left; split; [assumption|]; eexists; reflexivity
             | right; left; split; [assumption|]; eexists; split; reflexivity
             | right; right; eexists; split; reflexivity ].
Qed.

(** ** The guards and the defaults of doReport *)

(** X10. The idiom 'x = v; if (!x || !x.length) x = d' of lines 193-206 never
    raises. It keeps a non-empty string, a non-empty Buffer and an object
    with a truthy length property; every other value (undefined, null, the
    empty string, booleans, numbers, objects without a length) is replaced
    by the default. *)
Theorem or_default_cases (v d : val) (s : state) :
  or_default v d s
  = (Ret (match v with
          | VStr t => if String.eqb t EmptyString then d else v
          | VBuf bs => match bs with [] => d | _ :: _ => v end
          | VRef l => if truthy (heap_get (heap s) l "length") then v else d
          | VUndef | VNull | VBool _ | VNum _ | VHost _ => d
          end), s).
Proof.
  unfold or_default. destruct v as [| |[]|n|t|l|bs|id]; try reflexivity.
  - cbn [truthy]. destruct (n =? 0)%Z; reflexivity.
  - destruct t; reflexivity.
  - cbn [truthy negb]. rewrite run_bind. cbn [getp]. destruct (truthy _); reflexivity.
  - destruct bs; reflexivity.
Qed.

(** X11. When settings.report.active is falsy, doReport rejects with 'Reports
    Disabled: Action requires Email Settings!'; the only call made is the
    creation of the logger, and the heap, the configuration included, is as
    it was. *)
Theorem doReport_disabled host getConfiguration server email task action actionName payload
    h active :
  read h (getConfiguration server) ["settings"; "report"; "active"] = Ret active ->
  truthy active = false ->
  exists app_name,
    read h (getConfiguration server) ["app_name"] = Ret app_name /\
    report host getConfiguration server email task action actionName payload h
    = (Throw (Error "Reports Disabled: Action requires Email Settings!"),
       State h [(LogNew app_name server "report_action", Returns VUndef)]).
Proof.
  intros Hact Hoff. unfold report.
  destruct (doReport _ _ _ _ _ _ _ _ _) as [r s'] eqn:H.
  unfold doReport in H. step H E0.
  all: unfold prepare, createReportFileName in E0; cbn [getps] in E0.
  all: run_inv E0; cbn [heap trace app] in *; same_reads.
  all: try (read_absurd Hact).
  all: try match goal with
         | Hb : negb (truthy ?a) = false |- _ =>
             exfalso; read_in Hact; injection Hact as ->; rewrite Hoff in Hb; discriminate Hb
         end.
  all: simplify_eq.
  all: eexists; split; [read_from_gets; reflexivity | reflexivity].
Qed.

(** X12. An empty snapshot url does not stop the run: with reports active,
    doReport logs 'Report Disabled: No URL Settings!' with log.info and goes
    on to render the subject. *)
Theorem empty_url_only_logs host getConfiguration server email task action actionName payload
    h active :
  read h (getConfiguration server) ["settings"; "report"; "active"] = Ret active ->
  truthy active = true ->
  snap_url (act_snapshot action) = VStr EmptyString ->
  exists app_name rep rest,
    trace (report host getConfiguration server email task action actionName payload h).2
    = (LogNew app_name server "report_action", Returns VUndef)
      :: (LogInfo "Report Disabled: No URL Settings!", Returns VUndef)
      :: (MustacheRender (subject_template h action actionName) payload, rep)
      :: rest.
Proof.
  intros Hact Hon Hurl. unfold report.
  destruct (doReport _ _ _ _ _ _ _ _ _) as [r s'] eqn:H. cbn [snd].
  destruct (prepare host getConfiguration server action actionName payload (State h []))
    as [[[[[[config priority] subject] text] filename]|err] s1] eqn:Hp.
  - destruct (doReport_block _ _ _ _ _ _ _ _ _ _ _ _ _ _ _ _ _ Hp H) as (evs & -> & _).
    clear H. unfold prepare in Hp. rewrite Hurl in Hp. cbn [getps] in Hp.
    run_inv Hp; cbn [heap trace app] in *.
    all: repeat match goal with
           | E : or_default _ _ _ = _ |- _ => apply or_default_inv in E as [? ?]; simplify_eq
           | E : overlay _ _ _ = _ |- _ =>
               apply (steps_run _ _ _ _ _ (overlay_extends (λ _, false) _ _)) in E;
               apply extends_none in E; cbn [heap trace] in E
           | E : createReportFileName _ _ _ _ = _ |- _ =>
               apply (steps_run _ _ _ _ _ (createReportFileName_extends _ _ _)) in E
                 as (? & E & _); cbn [heap trace] in E
           end.
    all: try match goal with
           | Hg : Ret _ = getp_pure _ (VStr _) "length" |- _ => cbn in Hg; simplify_eq
           end.
    all: match goal with
         | E1 : trace _ = _, E2 : trace _ = _ |- _ => rewrite E1, E2
         end.
    all: rewrite <- ?app_assoc; cbn [app]. all: eexists _, _, _; reflexivity.
  - rewrite (doReport_rejected _ _ _ _ _ _ _ _ _ _ _ Hp) in H. injection H as <- <-.
    unfold prepare in Hp. rewrite Hurl in Hp. cbn [getps] in Hp.
    run_inv Hp; cbn [heap trace app] in *; same_reads.
    all: repeat match goal with
           | E : or_default _ _ _ = _ |- _ => apply or_default_inv in E as [? ?]; simplify_eq
           | E : overlay _ _ _ = _ |- _ =>
               apply (steps_run _ _ _ _ _ (overlay_extends (λ _, false) _ _)) in E;
               apply extends_none in E; cbn [heap trace] in E
           | E : createReportFileName _ _ _ _ = _ |- _ =>
               apply (steps_run _ _ _ _ _ (createReportFileName_extends _ _ _)) in E
                 as (? & E & _); cbn [heap trace] in E
           end.
    all: try (read_absurd Hact).
    all: try match goal with
           | Hb : negb (truthy ?a) = true |- _ =>
               exfalso; read_in Hact; injection Hact as ->; rewrite Hon in Hb; discriminate Hb
           end.
    all: try match goal with
           | Hg : Ret _ = getp_pure _ (VStr _) "length" |- _ => cbn in Hg; simplify_eq
           end.
    all: try match goal with
           | E1 : trace _ = _, E2 : trace _ = _ |- _ => rewrite E1, E2
           end.
    all: try match goal with
           | E1 : trace _ = _ |- _ => rewrite E1
           end.
    all: rewrite <- ?app_assoc; cbn [app]. all: eexists _, _, _; reflexivity.
Qed.

(** ** The overlay: failure and the parsing of the resolution *)

Lemma split_x_throws v s r s1 :
  (forall res, v <> VStr res) -> split_x v s = (r, s1) ->
  s1 = s /\ exists msg, r = Throw (TypeError msg).
Proof. intros Hv. destruct v; cbn; intros [= <- <-]; eauto. by destruct (Hv s0). Qed.

(** X13. The overlay is not atomic. When action.snapshot.res is not a string,
    the overlay raises a TypeError at line 216, after lines 214-215 have
    written the per-action username and password into the shared
    configuration: the credentials stay changed although doReport rejects. *)
Theorem overlay_not_atomic config action s la shot :
  let par := snap_params (act_snapshot action) in
  getp_pure (heap s) config "authentication" = Ret (VRef la) ->
  read (heap s) config ["file"; "screenshot"] = Ret shot ->
  (forall res, snap_res (act_snapshot action) <> VStr res) ->
  let run := overlay config action s in
  (exists msg, run.1 = Throw (TypeError msg)) /\
  trace run.2 = trace s /\
  read (heap run.2) config ["authentication"; "username"] = Ret (par_username par) /\
  read (heap run.2) config ["authentication"; "password"] = Ret (par_password par).
Proof.
  intros par Hauth Hshot Hres run. subst run par.
  destruct (overlay config action s) as [r s'] eqn:H. cbn [fst snd].
  unfold overlay in H. cbn [getps] in H.
  destruct (snap_res (act_snapshot action)) as [| | | |res| | |] eqn:Hr;
    try (by destruct (Hres res)); cbn [split_x] in H.
  all: rewrite run_bind, getp_run, Hauth in H; cbv beta iota in H.
  all: rewrite run_bind in H; cbn [setp heap trace] in H.
  all: rewrite run_bind, getp_run in H; cbn [heap] in H.
  all: rewrite getp_pure_set_key, Hauth in H by discriminate; cbv beta iota in H.
  all: rewrite run_bind in H; cbn [setp heap trace] in H.
  all: run_inv H; cbn [heap trace] in *; heap_norm; same_reads.
  all: try (read_absurd Hshot).
  all: split_and!; [eauto | done | ..].
  all: rewrite !read_cons; heap_norm; rewrite Hauth.
  all: rewrite read_cons; unfold getp_pure; cbn [getp fst heap].
  all: rewrite ?(heap_get_set_key _ _ "password" _ _ "username") by discriminate.
  all: by rewrite heap_get_set_eq.
Qed.

Lemma overlay_not_atomic_witness :
  let action := Action VUndef VUndef VUndef (VStr "sentinl@example.org") (VStr "ops@example.org")
                  (VBool false)
                  (Snapshot (VStr "http://x") VUndef (VStr "png") VUndef
                     (Params (VStr "admin") (VStr "secret") VUndef VUndef VUndef VUndef)) in
  let s := State (config_heap true false false false) [] in
  let run := overlay (VRef 3%positive) action s in
  read (heap s) (VRef 3%positive) ["authentication"; "username"] = Ret (VStr "kibana") /\
  (exists msg, run.1 = Throw (TypeError msg)) /\
  read (heap run.2) (VRef 3%positive) ["authentication"; "username"] = Ret (VStr "admin").
Proof.
  intros action s run.
  destruct (overlay_not_atomic (VRef 3%positive) action s 4%positive (VRef 8%positive))
    as (H1 & _ & H2 & _); [by vm_compute | by vm_compute | discriminate |].
  split_and!; [by vm_compute | exact H1 | exact H2].
Defined.

Lemma append_empty (s : string) : s +:+ EmptyString = s.
Proof. induction s as [|a s IH]; [done|]. change (String a (s +:+ EmptyString) = String a s). by rewrite IH. Qed.

Lemma split_on_whole c s : has_char c s = false -> split_on c s = [s].
Proof.
  induction s as [|a s IH]; [done|]. cbn. destruct (Ascii.eqb a c); [done|].
  cbn. intros Hs. by rewrite (IH Hs).
Qed.

Lemma split_on_first c w rest :
  has_char c w = false -> split_on c (w +:+ String c rest) = w :: split_on c rest.
Proof.
  induction w as [|a w IH]; simpl.
  - by rewrite Ascii.eqb_refl.
  - destruct (Ascii.eqb a c); [done|]. simpl. intros Hw. by rewrite (IH Hw).
Qed.

(** X14. How the resolution is parsed. For res = W x H, where W and H contain
    no x, the overlay stores the strings W and H as width and height; what
    follows a second x is dropped. For a res without x, the width is the
    whole string and the height is undefined. *)
Theorem overlay_resolution config action s s1 (W : string) :
  let width := read (heap s1) config ["file"; "screenshot"; "width"] in
  let height := read (heap s1) config ["file"; "screenshot"; "height"] in
  overlay config action s = (Ret (), s1) ->
  has_char "x" W = false ->
  (snap_res (act_snapshot action) = VStr W ->
   width = Ret (VStr W) /\ height = Ret VUndef) /\
  (forall H tail : string,
     has_char "x" H = false ->
     tail = EmptyString \/ (exists more, tail = String "x" more) ->
     snap_res (act_snapshot action) = VStr (W +:+ "x" +:+ H +:+ tail) ->
     width = Ret (VStr W) /\ height = Ret (VStr H)).
Proof.
  intros width height Hov HW. subst width height.
  destruct (overlay_overlaid _ _ _ _ Hov) as (_ & _ & (res & Hres & Hw & Hh) & _).
  rewrite Hw, Hh. split.
  - intros Hr. rewrite Hr in Hres. injection Hres as <-.
    by rewrite (split_on_whole _ _ HW).
  - intros H tail HH Htail Hr. rewrite Hr in Hres. injection Hres as <-.
    change (W +:+ "x" +:+ H +:+ tail) with (W +:+ String "x" (H +:+ tail)).
    rewrite (split_on_first _ _ _ HW).
    destruct Htail as [->|[more ->]].
    + by rewrite append_empty, (split_on_whole _ _ HH).
    + by rewrite (split_on_first _ _ _ HH).
Qed.

Lemma overlay_resolution_witness :
  let s := State (config_heap true false false false) [] in
  let run := overlay (VRef 3%positive) (nightly false) s in
  run.1 = Ret () /\
  read (heap run.2) (VRef 3%positive) ["file"; "screenshot"; "width"] = Ret (VStr "800") /\
  read (heap run.2) (VRef 3%positive) ["file"; "screenshot"; "height"] = Ret (VStr "600").
Proof.
  intros s run.
  assert (overlay (VRef 3%positive) (nightly false) s = (Ret (), run.2)) as Hrun
    by (vm_compute; reflexivity).
  destruct (overlay_resolution (VRef 3%positive) (nightly false) s run.2 "800" Hrun eq_refl)
    as [_ Hparts].
  destruct (Hparts "600" EmptyString eq_refl (or_introl eq_refl) eq_refl) as [Hw Hh].
  split_and!; [vm_compute; reflexivity | exact Hw | exact Hh].
Defined.

(** ** The capture follows the action *)

Lemma doReport_right_capture host getConfiguration server email task action actionName payload :
  steps (extends (right_capture (snap_type (act_snapshot action))))
    (doReport host getConfiguration server email task action actionName payload).
Proof.
  unfold right_capture, wrong_capture.
  unfold doReport, prepare, createReportFileName, overlay, session, Reporter_new,
    Reporter_openPage, Reporter_authenticate, Authenticator_kibana, Authenticator_custom,
    Authenticator_basic, Reporter_screenshot, Reporter_pdf, Reporter_end, persist.
  destruct (is_str (snap_type (act_snapshot action)) "pdf"); cbn [negb];
    steps_tac extends_accept.
Qed.

(** X19. The capture of doReport follows action.snapshot.type: when the type
    is the string pdf, no run sets a viewport or takes a screenshot; for
    every other type, undefined included, no run calls page.pdf. *)
Theorem capture_follows_type
    host getConfiguration server email task action actionName payload h :
  let tr := trace (report host getConfiguration server email task action actionName payload h).2 in
  count (if is_str (snap_type (act_snapshot action)) "pdf" then is_raster else is_pdf) tr = 0.
Proof.
  intros tr. subst tr.
  destruct (steps_at _ _ (doReport_right_capture host getConfiguration server email task action
                            actionName payload) (State h [])) as (evs & Hevs & Hall).
  unfold report. rewrite Hevs. cbn [trace app].
  apply (count_none (right_capture (snap_type (act_snapshot action)))); [|done].
  intros e. unfold right_capture, wrong_capture.
  destruct (is_str _ "pdf"); by destruct (_ e).
Qed.

Lemma capture_entries host l type s r s' :
  (if negb (is_str type "pdf")
   then Reporter_screenshot host (VRef l) type else Reporter_pdf host (VRef l)) s = (r, s') ->
  exists evs, trace s' = trace s ++ evs /\ Forall (capture_entry (heap s) l type) evs.
Proof.
  destruct (negb _); unfold Reporter_screenshot, Reporter_pdf, destructure2; cbn [getps];
    intros H; run_inv H; cbn [heap trace]; rewrite <- ?app_assoc.
  all: first [ by (exists []; split; [by rewrite app_nil_r | constructor])
             | eexists; split; [reflexivity|] ].
  all: repeat (constructor; [first [ done | idtac ]|]); try done.
  all: cbn; eexists _, _; split_and!; [read_from_gets; reflexivity.. | done | done].
Qed.

Lemma session_entry_not_raster W H type evs :
  Forall (λ e, not_raster e = true) evs -> Forall (session_entry W H type) evs.
Proof.
  intros HF. eapply Forall_impl; [exact HF|].
  intros [c r]. unfold not_raster, is_raster, session_entry. by destruct c.
Qed.

Lemma Reporter_openPage_keeps host this url executablePath l k :
  k ∈ screen_keys -> steps (keeps l k) (Reporter_openPage host this url executablePath).
Proof.
  unfold screen_keys. rewrite !elem_of_cons, elem_of_nil. intros Hk.
  repeat (destruct Hk as [->|Hk]); [..|done].
  all: unfold Reporter_openPage, Reporter_authenticate,
         Authenticator_kibana, Authenticator_custom, Authenticator_basic.
  all: steps_tac keeps_accept.
Qed.

Lemma Reporter_openPage_not_raster host this url executablePath :
  steps (extends not_raster) (Reporter_openPage host this url executablePath).
Proof.
  unfold Reporter_openPage, Reporter_authenticate,
    Authenticator_kibana, Authenticator_custom, Authenticator_basic.
  steps_tac extends_accept.
Qed.

(** What a new Reporter reads through [this.config] is what the
    configuration holds, as long as the properties on the path are kept. *)
Lemma new_reporter_read (h h2 : gmap loc obj) config path :
  let this := fresh (dom h) in
  (forall l k, k ∈ screen_keys ->
     heap_get h2 l k = heap_get (heap_set (<[this := ∅]> h) this "config" config) l k) ->
  path ⊆ ["file"; "screenshot"; "width"; "height"]%string ->
  read h2 (VRef this) ("config"%string :: path) = read h config path.
Proof.
  intros this Hkeep Hsub. rewrite read_cons.
  assert (getp_pure h2 (VRef this) "config" = Ret config) as ->.
  { unfold getp_pure. cbn [getp fst heap].
    rewrite Hkeep by (by left). by rewrite heap_get_set_eq. }
  apply read_ext. intros l k Hk. apply Hsub in Hk.
  rewrite Hkeep by (by right).
  assert (k <> "config"%string) as Hne.
  { intros ->. revert Hk. rewrite !elem_of_cons, elem_of_nil. intros [?|[?|[?|[?|[]]]]]; done. }
  rewrite heap_get_set_key by done.
  apply heap_get_alloc. apply lookup_empty.
Qed.

Lemma session_entries host config server email task action actionName
    priority subject text filename s r s' W H :
  read (heap s) config ["file"; "screenshot"; "width"] = Ret W ->
  read (heap s) config ["file"; "screenshot"; "height"] = Ret H ->
  session host config server email task action actionName priority subject text filename s
  = (r, s') ->
  exists evs, trace s' = trace s ++ evs /\
    Forall (session_entry W H (snap_type (act_snapshot action))) evs.
Proof.
  intros HW HH. unfold session, Reporter_new. intros Hrun.
  step Hrun E0; run_inv E0.
  step Hrun E1; run_prim E1.
  2:{ simplify_eq. exists []. split; [by rewrite app_nil_r | constructor]. }
  (* openPage *)
  step Hrun E2.
  all: pose proof (steps_run _ _ _ _ _ (Reporter_openPage_not_raster _ _ _ _) E2)
         as (op & Hop & Fop); cbn [trace] in Hop.
  2:{ simplify_eq. exists op. split; [done | by apply session_entry_not_raster]. }
  assert (forall path, path ⊆ ["file"; "screenshot"; "width"; "height"]%string ->
            read (heap s0) (VRef (fresh (dom (heap s)))) ("config"%string :: path)
            = read (heap s) config path) as Hread.
  { intros path Hsub. apply new_reporter_read; [|done]. intros l k Hk.
    apply (steps_run _ _ _ _ _ (Reporter_openPage_keeps _ _ _ _ l k Hk) E2). }
  (* capture *)
  step Hrun E3; apply capture_entries in E3 as (cevs & Hc & Fc).
  all: assert (Forall (session_entry W H (snap_type (act_snapshot action))) cevs) as Fc'
         by (eapply Forall_impl; [exact Fc|];
             intros [[] ?]; cbn; try done;
             rewrite !Hread by (intros ?; rewrite !elem_of_cons; tauto);
             rewrite HW, HH; intros (? & ? & ? & ? & ? & ?); by simplify_eq).
  2:{ simplify_eq. exists (op ++ cevs). split.
      - by rewrite Hc, Hop, app_assoc.
      - apply Forall_app. split; [by apply session_entry_not_raster | done]. }
  (* after the capture *)
  match type of Hrun with
  | ?m _ = _ => assert (steps (extends not_raster) m) as Hrest
  end.
  { unfold Reporter_end, persist. steps_tac extends_accept. }
  apply (steps_run _ _ _ _ _ Hrest) in Hrun as (rest & Hr & Fr).
  exists (op ++ cevs ++ rest). split.
  - by rewrite Hr, Hc, Hop, <- !app_assoc.
  - rewrite !Forall_app. split_and!; [by apply session_entry_not_raster | done |
                                      by apply session_entry_not_raster].
Qed.

(** X20. In every run of doReport, the viewport is set to the numeric
    conversions of the two parts of action.snapshot.res split at x (the
    resolution of the action, not the one that was configured), and the
    screenshot is taken with action.snapshot.type, png when it is undefined. *)
Theorem capture_uses_action_settings
    host getConfiguration server email task action actionName payload h :
  let tr := trace (report host getConfiguration server email task action actionName payload h).2 in
  (forall page w hh r, (PageSetViewport page w hh, r) ∈ tr ->
     exists res, snap_res (act_snapshot action) = VStr res /\
       w = NumOf (str_index (split_on "x" res) 0) /\
       hh = NumOf (str_index (split_on "x" res) 1)) /\
  (forall page ty r, (PageScreenshot page ty, r) ∈ tr ->
     ty = default_arg (snap_type (act_snapshot action)) (VStr "png")).
Proof.
  intros tr. subst tr. unfold report.
  destruct (doReport _ _ _ _ _ _ _ _ _) as [r s'] eqn:Hrun. cbn [snd].
  unfold doReport in Hrun. step Hrun Hp.
  all: pose proof (steps_run _ _ _ _ _ (prepare_extends _ _ _ _ _ _) Hp) as (pre & Hpre & Fpre);
       cbn [trace app] in Hpre; subst pre.
  2:{ simplify_eq.
      split; intros; match goal with Hin : _ ∈ _ |- _ =>
        apply (elem_of_class _ _ _ Fpre) in Hin; discriminate Hin end. }
  destruct a as [[[[config priority] subject] text] filename].
  destruct (prepare_overlay _ _ _ _ _ _ h (State h []) _ _ _ _ _ _ eq_refl Hp)
    as (s0 & Hh & _ & Hov).
  destruct (overlay_overlaid _ _ _ _ Hov) as (_ & _ & (res & Hres & HW & HH) & _).
  unfold try_catch in Hrun.
  destruct (session _ _ _ _ _ _ _ _ _ _ _ _) as [[v|err] s2] eqn:Hs;
    destruct (session_entries _ _ _ _ _ _ _ _ _ _ _ _ _ _ _ _ HW HH Hs) as (evs & Hevs & Fevs).
  all: try run_prim Hrun; simplify_eq; cbn [trace]; rewrite Hevs.
  all: rewrite List.Forall_forall in Fevs.
  all: split; intros; repeat match goal with
         | Hin : _ ∈ _ ++ _ |- _ => apply elem_of_app in Hin as [Hin|Hin]
         | Hin : _ ∈ [_] |- _ => apply list_elem_of_singleton in Hin; discriminate Hin
         | Hin : _ ∈ ?l, Fe : forall x, In x ?l -> _ |- _ =>
             apply list_elem_of_In, Fe in Hin; cbn in Hin
         | Hin : _ ∈ ?l, Fp : Forall _ ?l |- _ =>
             apply (elem_of_class _ _ _ Fp) in Hin; discriminate Hin
         end.
  all: first [ done | exists res; tauto ].
Qed.

(** ** The login types the credentials of the action *)

Global Instance emits_preorder P : PreOrder (emits P).
Proof.
  split.
  - intros s. exists []. by rewrite app_nil_r.
  - intros s1 s2 s3 (e1 & H1 & F1) (e2 & H2 & F2). exists (e1 ++ e2). split.
    + by rewrite H2, H1, app_assoc.
    + by apply Forall_app.
Qed.

Lemma emits_write P k : accepts_write (emits P) k.
Proof. intros s l x. exists []. cbn. by rewrite app_nil_r. Qed.

Lemma emits_alloc P o : accepts_alloc (emits P) o.
Proof. intros s. exists []. cbn. by rewrite app_nil_r. Qed.

Lemma emits_entry (P : entry -> Prop) e : P e -> accepts_entry (emits P) e.
Proof. intros H s. exists [e]. cbn. split; [done | by constructor]. Qed.

Ltac emits_accept :=
  first [ apply emits_write | apply emits_alloc
        | apply emits_entry; cbn; first [ exact I | tauto ] ].

Lemma Reporter_authenticate_login host this mode user pass timeout :
  steps (emits (login_entry user pass (default_arg timeout (VNum 5000))))
    (Reporter_authenticate host this mode user pass timeout).
Proof.
  unfold Reporter_authenticate, Authenticator_kibana, Authenticator_custom.
  steps_tac emits_accept.
Qed.

Lemma paced_entry_not_paced U P T evs :
  Forall (λ e, not_paced e = true) evs -> Forall (paced_entry U P T) evs.
Proof. intros HF. eapply Forall_impl; [exact HF|]. by intros [[] ?]. Qed.

Lemma Reporter_openPage_login host l url executablePath s r s' :
  Reporter_openPage host (VRef l) url executablePath s = (r, s') ->
  emits (typed_entry (heap s) (heap_get (heap s) l "config")) s s'.
Proof.
  unfold Reporter_openPage, Authenticator_basic, Buffer_toString. cbn [getps].
  intros H. unfold emits.
  run_inv H; cbn [heap trace] in *; rewrite <- ?app_assoc; heap_norm; same_reads.
  all: try match type of H with
         | Reporter_authenticate _ _ _ _ _ _ _ = _ =>
             apply (steps_run _ _ _ _ _ (Reporter_authenticate_login _ _ _ _ _ _)) in H
               as (evs & Hevs & Fevs); cbn [trace] in Hevs; rewrite Hevs
         end.
  all: rewrite <- ?app_assoc.
  all: first [ by (exists []; split; [by rewrite app_nil_r | constructor])
             | eexists; split; [reflexivity|] ].
  all: repeat match goal with
         | Hg : Ret _ = getp_pure _ (VRef _) "config" |- _ =>
             cbn in Hg; injection Hg as Hg; rewrite <- ?Hg; clear Hg
         end.
  all: rewrite ?Forall_app; repeat split; try exact I.
  all: repeat (apply List.Forall_cons;
               [first [ exact I
                      | cbn; eexists; split;
                        [read_from_gets; reflexivity | intros; left; reflexivity] ]|]).
  all: try apply List.Forall_nil.
  all: eapply Forall_impl; [exact Fevs|]; intros [[] ?]; cbn; try done.
  all: intros HL;
       first [ eexists _, _, _; split; [|split; [|split; [|exact HL]]];
               read_from_gets; reflexivity
             | eexists; split; [read_from_gets; reflexivity | intros; right; exact HL] ].
Qed.

(** A new Reporter does not change what the configuration holds. *)
Lemma new_reporter_reads (h : gmap loc obj) config path :
  "config"%string ∉ path ->
  read (heap_set (<[fresh (dom h) := ∅]> h) (fresh (dom h)) "config" config) config path
  = read h config path.
Proof.
  intros Hpath. apply read_ext. intros l k Hk.
  rewrite heap_get_set_key by (intros <-; done).
  apply heap_get_alloc. apply lookup_empty.
Qed.

Ltac not_config :=
  rewrite !not_elem_of_cons; split_and!; try discriminate; apply not_elem_of_nil.

Lemma session_login host config server email task action actionName
    priority subject text filename s r s' U P T :
  read (heap s) config ["authentication"; "username"] = Ret U ->
  read (heap s) config ["authentication"; "password"] = Ret P ->
  read (heap s) config ["timeout"] = Ret T ->
  session host config server email task action actionName priority subject text filename s
  = (r, s') ->
  emits (paced_entry U P T) s s'.
Proof.
  intros HU HP HT. unfold session, Reporter_new. intros Hrun.
  step Hrun E0; run_inv E0.
  step Hrun E1; run_prim E1.
  2:{ simplify_eq. exists []. split; [by rewrite app_nil_r | constructor]. }
  (* openPage *)
  step Hrun E2.
  all: apply Reporter_openPage_login in E2 as (op & Hop & Fop); cbn [heap trace] in Hop, Fop.
  all: rewrite heap_get_set_eq in Fop.
  all: assert (Forall (paced_entry U P T) op) as Fop'
         by (eapply Forall_impl; [exact Fop|];
             intros [[] ?]; cbn; try done;
             rewrite !new_reporter_reads by not_config;
             rewrite ?HU, ?HP, HT;
             [ intros (? & ? & Hd); simplify_eq; apply (Hd U P)
             | intros (? & ? & ? & ? & ? & ? & ?); by simplify_eq ]).
  2:{ simplify_eq. by exists op. }
  match type of Hrun with
  | ?m _ = _ => assert (steps (extends not_paced) m) as Hrest
  end.
  { unfold Reporter_screenshot, Reporter_pdf, Reporter_end, persist.
    steps_tac extends_accept. }
  apply (steps_run _ _ _ _ _ Hrest) in Hrun as (rest & Hr & Fr).
  exists (op ++ rest). split.
  - by rewrite Hr, Hop, <- !app_assoc.
  - rewrite Forall_app. split; [done | by apply paced_entry_not_paced].
Qed.

(** Whatever has one property that can be read has them all. *)
Lemma read_defined h v k path x h' k' :
  read h v (k :: path) = Ret x -> exists y, read h' v [k'] = Ret y.
Proof.
  rewrite read_cons. destruct v; try discriminate; intros _; eexists; reflexivity.
Qed.

(** In a run of [doReport] that enters the [try] block, every entry is paced
    by the credentials and the delay of the action. *)
Lemma doReport_paced host getConfiguration server email task action actionName payload h :
  let tr := trace (report host getConfiguration server email task action actionName payload h).2 in
  let par := snap_params (act_snapshot action) in
  Forall (λ e, not_paced e = true) tr \/
  exists config T,
    read h (getConfiguration server) ["settings"; "report"] = Ret config /\
    or_read (par_delay par) (read h config ["timeout"]) = Ret T /\
    Forall (paced_entry (par_username par) (par_password par) T) tr.
Proof.
  intros tr par. subst tr par. unfold report.
  destruct (doReport _ _ _ _ _ _ _ _ _) as [r s'] eqn:Hrun. cbn [snd].
  unfold doReport in Hrun. step Hrun Hp.
  all: pose proof (steps_run _ _ _ _ _ (prepare_extends _ _ _ _ _ _) Hp) as (pre & Hpre & Fpre);
       cbn [trace app] in Hpre; subst pre.
  all: assert (Forall (λ e, not_paced e = true) (trace s)) as Fpre'
         by (eapply Forall_impl; [exact Fpre|]; by intros [[] ?]).
  2:{ simplify_eq. by left. }
  right. destruct a as [[[[config priority] subject] text] filename].
  destruct (prepare_overlay _ _ _ _ _ _ h (State h []) _ _ _ _ _ _ eq_refl Hp)
    as (s0 & Hh & Hcfg & Hov).
  destruct (overlay_overlaid _ _ _ _ Hov) as (HU & HP & _ & HT & _).
  destruct (read_defined _ _ _ _ _ (heap s) "timeout" HU) as [T HT'].
  rewrite HT', Hh in HT.
  exists config, T. split_and!; [done | done |].
  unfold try_catch in Hrun.
  destruct (session _ _ _ _ _ _ _ _ _ _ _ _) as [[v|err] s2] eqn:Hs;
    destruct (session_login _ _ _ _ _ _ _ _ _ _ _ _ _ _ _ _ _ HU HP HT' Hs)
      as (evs & Hevs & Fevs).
  all: try run_prim Hrun; simplify_eq; cbn [trace]; rewrite Hevs.
  all: rewrite ?Forall_app; split_and!; try done; try (by apply paced_entry_not_paced).
  all: by repeat constructor.
Qed.

(** X21. In every run of doReport, whatever is typed into a page is the
    username of the action (into #username or #user) or the password of the
    action (into #password or #pass), never the configured credentials; the
    typing delay is a fiftieth of the per-action delay when that is truthy,
    of the configured timeout otherwise (of 5000 when that is undefined). *)
Theorem login_uses_action_credentials
    host getConfiguration server email task action actionName payload h :
  let tr := trace (report host getConfiguration server email task action actionName payload h).2 in
  let par := snap_params (act_snapshot action) in
  forall page sel text d r, (PageType page sel text d, r) ∈ tr ->
    (text = par_username par /\ (sel = VStr "#username" \/ sel = VStr "#user") \/
     text = par_password par /\ (sel = VStr "#password" \/ sel = VStr "#pass")) /\
    exists config T,
      read h (getConfiguration server) ["settings"; "report"] = Ret config /\
      or_read (par_delay par) (read h config ["timeout"]) = Ret T /\
      d = NumDiv (default_arg T (VNum 5000)) 50.
Proof.
  intros tr par page sel text d r Hin.
  destruct (doReport_paced host getConfiguration server email task action actionName payload h)
    as [F|(config & T & Hcfg & HT & F)]; fold tr in F; fold par in HT || idtac.
  - apply (elem_of_class _ _ _ F) in Hin. discriminate Hin.
  - rewrite List.Forall_forall in F. apply list_elem_of_In, F in Hin.
    destruct Hin as [-> Hin]. split; [exact Hin|]. exists config, T. done.
Qed.

(** X27. In every run of doReport every wait is paced by the per-action
    delay when that is truthy, by the configured timeout otherwise: the wait
    of openPage without authentication is that value; the waits of a login
    are that value (5000 when it is undefined) and a fifth of it. *)
Theorem waits_use_action_delay
    host getConfiguration server email task action actionName payload h :
  let tr := trace (report host getConfiguration server email task action actionName payload h).2 in
  let par := snap_params (act_snapshot action) in
  forall d r, (Delay d, r) ∈ tr ->
    exists config T,
      read h (getConfiguration server) ["settings"; "report"] = Ret config /\
      or_read (par_delay par) (read h config ["timeout"]) = Ret T /\
      (d = NumOf T \/
       d = NumOf (default_arg T (VNum 5000)) \/ d = NumDiv (default_arg T (VNum 5000)) 5).
Proof.
  intros tr par d r Hin.
  destruct (doReport_paced host getConfiguration server email task action actionName payload h)
    as [F|(config & T & Hcfg & HT & F)]; fold tr in F; fold par in HT || idtac.
  - apply (elem_of_class _ _ _ F) in Hin. discriminate Hin.
  - rewrite List.Forall_forall in F. apply list_elem_of_In, F in Hin.
    exists config, T. done.
Qed.

Lemma login_uses_action_credentials_witness :
  let tr := trace (nightly_run healthy false kibana_heap).2 in
  let typing := (PageType (VHost 2) (VStr "#username") (VStr "admin") (NumDiv (VNum 5000) 50),
                 Returns VUndef) in
  typing ∈ tr /\
  (VStr "admin" = par_username (snap_params (act_snapshot (nightly false))) /\
   (VStr "#username" = VStr "#username" \/ VStr "#username" = VStr "#user") \/
   VStr "admin" = par_password (snap_params (act_snapshot (nightly false))) /\
   (VStr "#username" = VStr "#password" \/ VStr "#username" = VStr "#pass")).
Proof.
  intros tr typing.
  assert (typing ∈ tr) as Hin by (vm_compute; repeat constructor).
  destruct (login_uses_action_credentials healthy the_config (VHost 9) (VHost 7) watcher
              (nightly false) (VStr "report_action") VNull kibana_heap _ _ _ _ _ Hin)
    as [Hcred _].
  split; [exact Hin | exact Hcred].
Defined.

Lemma waits_use_action_delay_witness :
  let h := config_heap true false false false in
  let tr := trace (report healthy the_config (VHost 9) (VHost 7) watcher patient
                     (VStr "report_action") VNull h).2 in
  (Delay (NumOf (VNum 2000)), Returns VUndef) ∈ tr /\
  exists config T,
    read h (the_config (VHost 9)) ["settings"; "report"] = Ret config /\
    or_read (VNum 2000) (read h config ["timeout"]) = Ret T /\
    (NumOf (VNum 2000) = NumOf T \/
     NumOf (VNum 2000) = NumOf (default_arg T (VNum 5000)) \/
     NumOf (VNum 2000) = NumDiv (default_arg T (VNum 5000)) 5).
Proof.
  intros h tr.
  assert ((Delay (NumOf (VNum 2000)), Returns VUndef) ∈ tr) as Hin
    by (vm_compute; repeat constructor).
  split; [exact Hin|].
  exact (waits_use_action_delay healthy the_config (VHost 9) (VHost 7) watcher patient
           (VStr "report_action") VNull h _ _ Hin).
Defined.

(** ** Runs of the nightly report *)

Lemma mail_content_witness :
  let tr := trace (nightly_run healthy false (config_heap true false false false)).2 in
  (EmailSend (VHost 7) nightly_mail, Returns VUndef) ∈ tr /\
  mail_from nightly_mail = VStr "sentinl@example.org" /\
  (MustacheRender (VStr "SENTINL: report_action") VNull, Returns (VStr "SENTINL: report_action"))
  ∈ tr.
Proof.
  intros tr.
  assert ((EmailSend (VHost 7) nightly_mail, Returns VUndef) ∈ tr) as Hin
    by (vm_compute; repeat constructor).
  destruct (mail_content healthy the_config (VHost 9) (VHost 7) watcher (nightly false)
              (VStr "report_action") VNull (config_heap true false false false) _ _ _ Hin)
    as (_ & Hfrom & _ & Hsubject & _).
  split_and!; [exact Hin | exact Hfrom | exact Hsubject].
Defined.

Lemma mail_attachment_is_capture_witness :
  let tr := trace (nightly_run healthy false (config_heap true false false false)).2 in
  (EmailSend (VHost 7) nightly_mail, Returns VUndef) ∈ tr /\
  exists c file data,
    (c, Returns file) ∈ tr /\ capture_call c = true /\
    (forall bs, file = VBuf bs -> Base64.decode data = Some bs) /\
    nth_error (mail_attachment nightly_mail) 1
    = Some (File data "image/png"
              (VStr "report-110ec58a-a0f2-4ac4-8393-c866d813b8d1-03-11-2026-4-9-7.png") true
              [("Content-ID", "<my-report>")]).
Proof.
  intros tr.
  assert ((EmailSend (VHost 7) nightly_mail, Returns VUndef) ∈ tr) as Hin
    by (vm_compute; repeat constructor).
  destruct (mail_attachment_is_capture healthy the_config (VHost 9) (VHost 7) watcher
              (nightly false) (VStr "report_action") VNull
              (config_heap true false false false) _ _ _ Hin)
    as (before & after & c & file & browser & v & msg & id & stamp & data
        & Htr & Hc & Hatt & Hdec & _).
  split; [exact Hin|]. exists c, file, data. split_and!; [| exact Hc | exact Hdec |].
  - subst tr. unfold nightly_run. rewrite Htr, !elem_of_app, elem_of_cons. right. left. by left.
  - injection Hatt as <- _. reflexivity.
Defined.

Lemma history_record_mirrors_mail_witness :
  let tr := trace (nightly_run healthy false (config_heap true false false false)).2 in
  (LogHistory (HistoryFull (VHost 9) (VStr "nightly report") (VStr "report_action")
                 (VStr "INFO") true nightly_text nightly_attachment),
   Returns (VStr "AWx1")) ∈ tr /\
  exists m w, (EmailSend (VHost 7) m, Returns w) ∈ tr /\
    nightly_text = mail_text m /\ nightly_attachment = mail_attachment m.
Proof.
  intros tr.
  assert ((LogHistory (HistoryFull (VHost 9) (VStr "nightly report") (VStr "report_action")
                         (VStr "INFO") true nightly_text nightly_attachment),
           Returns (VStr "AWx1")) ∈ tr) as Hin
    by (vm_compute; repeat constructor).
  destruct (history_record_mirrors_mail healthy the_config (VHost 9) (VHost 7) watcher
              (nightly false) (VStr "report_action") VNull
              (config_heap true false false false) _ _ _ _ _ _ _ _ Hin)
    as (_ & _ & _ & _ & _ & Hmail).
  split; [exact Hin | exact Hmail].
Defined.

Lemma capture_uses_action_settings_witness :
  let tr := trace (nightly_run healthy false (config_heap true false false false)).2 in
  (PageSetViewport (VHost 2) (NumOf (VStr "800")) (NumOf (VStr "600")), Returns VUndef) ∈ tr /\
  exists res, snap_res (act_snapshot (nightly false)) = VStr res /\
    NumOf (VStr "800") = NumOf (str_index (split_on "x" res) 0) /\
    NumOf (VStr "600") = NumOf (str_index (split_on "x" res) 1).
Proof.
  intros tr.
  assert ((PageSetViewport (VHost 2) (NumOf (VStr "800")) (NumOf (VStr "600")),
           Returns VUndef) ∈ tr) as Hin
    by (vm_compute; repeat constructor).
  destruct (capture_uses_action_settings healthy the_config (VHost 9) (VHost 7) watcher
              (nightly false) (VStr "report_action") VNull
              (config_heap true false false false)) as [Hview _].
  split; [exact Hin | exact (Hview _ _ _ _ Hin)].
Defined.

Lemma doReport_disabled_witness :
  let h := config_heap false false false false in
  read h (the_config (VHost 9)) ["settings"; "report"; "active"] = Ret (VBool false) /\
  truthy (VBool false) = false /\
  exists app_name,
    nightly_run healthy false h
    = (Throw (Error "Reports Disabled: Action requires Email Settings!"),
       State h [(LogNew app_name (VHost 9) "report_action", Returns VUndef)]).
Proof.
  intros h.
  assert (read h (the_config (VHost 9)) ["settings"; "report"; "active"] = Ret (VBool false))
    as Hact by (vm_compute; reflexivity).
  destruct (doReport_disabled healthy the_config (VHost 9) (VHost 7) watcher (nightly false)
              (VStr "report_action") VNull h (VBool false) Hact eq_refl)
    as (app_name & _ & Hrun).
  split_and!; [exact Hact | reflexivity | exists app_name; exact Hrun].
Defined.

Lemma empty_url_only_logs_witness :
  let h := config_heap true false false false in
  read h (the_config (VHost 9)) ["settings"; "report"; "active"] = Ret (VBool true) /\
  snap_url (act_snapshot unaddressed) = VStr EmptyString /\
  exists app_name rep rest,
    trace (report healthy the_config (VHost 9) (VHost 7) watcher unaddressed
             (VStr "report_action") VNull h).2
    = (LogNew app_name (VHost 9) "report_action", Returns VUndef)
      :: (LogInfo "Report Disabled: No URL Settings!", Returns VUndef)
      :: (MustacheRender (subject_template h unaddressed (VStr "report_action")) VNull, rep)
      :: rest.
Proof.
  intros h.
  assert (read h (the_config (VHost 9)) ["settings"; "report"; "active"] = Ret (VBool true))
    as Hact by (vm_compute; reflexivity).
  split_and!; [exact Hact | reflexivity |].
  exact (empty_url_only_logs healthy the_config (VHost 9) (VHost 7) watcher unaddressed
           (VStr "report_action") VNull h (VBool true) Hact eq_refl eq_refl).
Defined.

(** ** Closing the browser, the history fallback, and what doReport leaves alone *)

(** X9. Reporter.end makes one call, close, on this.browser. A failure is
    rethrown as 'fail to close headless chrome, <cause>'. The heap is not
    touched. *)
Theorem Reporter_end_closes host l s :
  let run := Reporter_end host (VRef l) s in
  let browser := heap_get (heap s) l "browser" in
  heap run.2 = heap s /\
  match run.1 with
  | Ret _ => exists v, trace run.2 = trace s ++ [(BrowserClose browser, Returns v)]
  | Throw err =>
      exists cause,
        err = Error ("fail to close headless chrome, " +:+ exn_to_string cause) /\
        (trace run.2 = trace s /\ not_host browser \/
         trace run.2 = trace s ++ [(BrowserClose browser, Raises cause)])
  end.
Proof.
  intros run browser. subst run browser.
  destruct (Reporter_end _ _ s) as [r s'] eqn:H.
  unfold Reporter_end in H.
  run_inv H; cbn [fst snd heap trace]; (split; [done|]).
  all: match goal with Hg : Ret _ = getp_pure _ _ _ |- _ => cbn in Hg; injection Hg as <- end.
  all: eauto 10.
Qed.

(** X22. The history step (lines 251-278) raises only when the action is not
    stateless and both writes raised, and then with the error of the fallback
    write as it is: the error 'fail to save report in Elasticsearch' of line
    273 is never built. When it returns for an action that is not stateless,
    its value is the reply of the last write. *)
Theorem persist_throws_fallback_error
    host server task action actionName priority text attachment s :
  let run := persist host server task action actionName priority text attachment s in
  let title := task_source_title task in
  match run.1 with
  | Ret v =>
      if truthy (act_stateless action)
      then exists l, v = VRef l /\
             trace run.2 = trace s ++ [(LogDebug stateless_message, Returns VUndef)]
      else exists record, last (trace run.2) = Some (LogHistory record, Returns v)
  | Throw err =>
      truthy (act_stateless action) = false /\
      exists cause,
        trace run.2
        = trace s ++
          [ (LogHistory (HistoryFull server title actionName priority true text attachment),
             Raises cause);
            (LogHistory (HistoryReduced server title actionName (serialized cause)),
             Raises err) ]
  end.
Proof.
  intros run title. subst run title.
  destruct (persist _ _ _ _ _ _ _ _ s) as [r s'] eqn:H. cbn [fst snd].
  apply persist_shape in H as (evs & -> & Hrun).
  inversion Hrun; subst; clear Hrun;
    repeat match goal with Ht : truthy _ = _ |- _ => rewrite Ht end.
  - eauto.
  - eexists. by rewrite last_app.
  - eexists. by rewrite last_app.
  - split; [done|]. by eexists.
Qed.

Ltac written_accept :=
  first [ apply keeps_write; intros <-; match goal with Hk : _ ∉ _ |- _ =>
            apply Hk; unfold written_keys; rewrite !elem_of_cons; tauto end
        | apply keeps_entry
        | apply keeps_alloc;
          repeat (rewrite lookup_insert_ne;
                  [| intros <-; match goal with Hk : _ ∉ _ |- _ =>
                       apply Hk; unfold written_keys; rewrite !elem_of_cons; tauto end ]);
          apply lookup_empty ].

(** X23. doReport changes no property but username, password, width, height,
    timeout, custom and the three selectors (the overlay), config, url,
    browser and page (the Reporter) and message (the stateless result): every
    other property of every object, such as active, enabled, mode and its
    flags, executable_path and the pdf settings, is as it was before. *)
Theorem doReport_leaves_settings
    host getConfiguration server email task action actionName payload h l k :
  k ∉ written_keys ->
  heap_get (heap (report host getConfiguration server email task action actionName payload h).2)
           l k
  = heap_get h l k.
Proof.
  intros Hk. unfold report.
  apply (steps_at (keeps l k)
           (doReport host getConfiguration server email task action actionName payload)).
  unfold doReport, prepare, createReportFileName, overlay, session, Reporter_new,
    Reporter_openPage, Reporter_authenticate, Authenticator_kibana, Authenticator_custom,
    Authenticator_basic, Reporter_screenshot, Reporter_pdf, Reporter_end, persist.
  steps_tac written_accept.
Qed.

Lemma doReport_leaves_settings_witness :
  let run := nightly_run healthy false (config_heap true true false true) in
  ("active" ∉ written_keys) /\
  heap_get (heap run.2) 3%positive "active" = VBool true.
Proof.
  intros run.
  assert (Hk : "active" ∉ written_keys).
  { unfold written_keys. rewrite !not_elem_of_cons. split_and!;
      try discriminate. apply not_elem_of_nil. }
  split; [exact Hk|].
  subst run. unfold nightly_run.
  rewrite (doReport_leaves_settings healthy the_config (VHost 9) (VHost 7) watcher
             (nightly false) (VStr "report_action") VNull (config_heap true true false true)
             3%positive "active" Hk).
  vm_compute. reflexivity.
Defined.

(** ** The launch of the browser and the navigation *)

Lemma browser_entry_not_browser exe url evs :
  Forall (λ e, not_browser e = true) evs -> Forall (browser_entry exe url) evs.
Proof. intros HF. eapply Forall_impl; [exact HF|]. by intros [[] ?]. Qed.

Lemma Reporter_openPage_browser_entries host this url executablePath :
  steps (emits (browser_entry executablePath url))
    (Reporter_openPage host this url executablePath).
Proof.
  unfold Reporter_openPage, Reporter_authenticate, Authenticator_kibana, Authenticator_custom,
    Authenticator_basic.
  steps_tac emits_accept.
Qed.

Lemma count_not_launch evs : Forall (λ e, not_launch e = true) evs -> count is_launch evs = 0.
Proof.
  apply (count_none not_launch). intros e. unfold not_launch. by destruct (is_launch e).
Qed.

Lemma Reporter_openPage_launches_once host l url executablePath s r s' :
  Reporter_openPage host (VRef l) url executablePath s = (r, s') ->
  exists evs, trace s' = trace s ++ evs /\ count is_launch evs <= 1.
Proof.
  unfold Reporter_openPage. intros H.
  step H E1; run_prim E1.
  step H E2.
  - match type of H with
    | ?m _ = _ => assert (steps (extends not_launch) m) as Hrest
    end.
    { unfold Reporter_authenticate, Authenticator_kibana, Authenticator_custom,
        Authenticator_basic.
      steps_tac extends_accept. }
    apply (steps_run _ _ _ _ _ Hrest) in H as (rest & Hr & Fr).
    run_inv E2; cbn [heap trace] in *; rewrite <- ?app_assoc in Hr.
    all: eexists; split; [exact Hr|].
    all: rewrite ?count_app, ?count_cons, ?count_nil, (count_not_launch _ Fr); cbn; lia.
  - simplify_eq.
    run_inv E2; cbn [heap trace] in *; rewrite <- ?app_assoc.
    all: first [ by (exists []; split; [by rewrite app_nil_r | cbn; lia])
               | eexists; split; [reflexivity|] ].
    all: rewrite ?count_app, ?count_cons, ?count_nil; cbn; lia.
Qed.

Lemma session_browser host config server email task action actionName
    priority subject text filename s r s' :
  session host config server email task action actionName priority subject text filename s
  = (r, s') ->
  exists evs, trace s' = trace s ++ evs /\ count is_launch evs <= 1 /\
    forall exe, getp_pure (heap s) config "executable_path" = Ret exe ->
      Forall (browser_entry exe (snap_url (act_snapshot action))) evs.
Proof.
  unfold session, Reporter_new. intros Hrun.
  step Hrun E0; run_inv E0.
  step Hrun E1; run_prim E1.
  2:{ simplify_eq. exists []. split; [by rewrite app_nil_r|]. split; [cbn; lia | constructor]. }
  rewrite getp_pure_set_key in Hget by discriminate.
  rewrite getp_pure_alloc in Hget by (first [apply heap_fresh | apply lookup_empty]).
  step Hrun E2.
  all: destruct (Reporter_openPage_launches_once _ _ _ _ _ _ _ E2) as (op & Hop & Cop);
       destruct (steps_run _ _ _ _ _ (Reporter_openPage_browser_entries _ _ _ _) E2)
         as (op' & Hop' & Fop); cbn [trace] in Hop, Hop';
       rewrite Hop in Hop'; apply app_inv_head in Hop'; subst op'.
  2:{ simplify_eq. exists op. split_and!; [done | done |].
      intros exe Hexe. rewrite Hexe in Hget. by simplify_eq. }
  match type of Hrun with
  | ?m _ = _ => assert (steps (extends (λ e, not_launch e && not_browser e)) m) as Hrest
  end.
  { unfold Reporter_screenshot, Reporter_pdf, Reporter_end, persist.
    destruct (negb _); steps_tac extends_accept. }
  apply (steps_run _ _ _ _ _ Hrest) in Hrun as (rest & Hr & Fr).
  assert (Forall (λ e, not_launch e = true) rest /\ Forall (λ e, not_browser e = true) rest)
    as [Fl Fb].
  { split; (eapply Forall_impl; [exact Fr|]); intros e He; apply andb_prop in He; tauto. }
  exists (op ++ rest). split_and!.
  - by rewrite Hr, Hop, <- app_assoc.
  - rewrite count_app, (count_not_launch _ Fl). lia.
  - intros exe Hexe. rewrite Hexe in Hget. simplify_eq.
    apply Forall_app. split; [done | by apply browser_entry_not_browser].
Qed.

Lemma prepare_keeps_path host getConfiguration server action actionName payload l :
  steps (keeps l "executable_path")
    (prepare host getConfiguration server action actionName payload).
Proof.
  unfold prepare, createReportFileName, overlay. steps_tac keeps_accept.
Qed.

Lemma getp_defined h v k path x h' k' :
  read h v (k :: path) = Ret x -> exists y, getp_pure h' v k' = Ret y.
Proof.
  rewrite read_cons. destruct v; try discriminate; intros _; eexists; reflexivity.
Qed.

(** X26. In every run of doReport the browser is launched at most once, always
    with the arguments --no-sandbox and --disable-setuid-sandbox and with
    ignoreHTTPSErrors = true, from the executable_path of the report
    settings; and every navigation goes to action.snapshot.url and waits for
    networkidle0. *)
Theorem browser_launch_and_navigation
    host getConfiguration server email task action actionName payload h :
  let tr := trace (report host getConfiguration server email task action actionName payload h).2 in
  count is_launch tr <= 1 /\
  (forall exe args ignoreHTTPSErrors r,
     (PuppeteerLaunch exe args ignoreHTTPSErrors, r) ∈ tr ->
     args = ["--no-sandbox"; "--disable-setuid-sandbox"] /\ ignoreHTTPSErrors = true /\
     exists config,
       read h (getConfiguration server) ["settings"; "report"] = Ret config /\
       read h config ["executable_path"] = Ret exe) /\
  (forall page url waitUntil r,
     (PageGoto page url waitUntil, r) ∈ tr ->
     url = snap_url (act_snapshot action) /\ waitUntil = "networkidle0").
Proof.
  intros tr. subst tr. unfold report.
  destruct (doReport _ _ _ _ _ _ _ _ _) as [r s'] eqn:Hrun. cbn [snd].
  unfold doReport in Hrun. step Hrun Hp.
  all: pose proof (steps_run _ _ _ _ _ (prepare_extends _ _ _ _ _ _) Hp) as (pre & Hpre & Fpre);
       cbn [trace app] in Hpre; subst pre.
  2:{ simplify_eq. split_and!.
      - rewrite (count_none prep_entry is_launch _ ltac:(class_cases) Fpre). lia.
      - intros ???? Hin. apply (elem_of_class _ _ _ Fpre) in Hin. discriminate Hin.
      - intros ???? Hin. apply (elem_of_class _ _ _ Fpre) in Hin. discriminate Hin. }
  destruct a as [[[[config priority] subject] text] filename].
  destruct (prepare_overlay _ _ _ _ _ _ h (State h []) _ _ _ _ _ _ eq_refl Hp)
    as (s0 & Hh & Hcfg & Hov).
  assert (forall exe, getp_pure (heap s) config "executable_path" = Ret exe ->
                      read h config ["executable_path"] = Ret exe) as Hexe.
  { intros exe <-. rewrite read_cons.
    rewrite <- (getp_pure_ext h (heap s) config "executable_path").
    - by destruct (getp_pure _ _ _).
    - intros l. apply (steps_run _ _ _ _ _ (prepare_keeps_path _ _ _ _ _ _ l) Hp). }
  destruct (overlay_overlaid _ _ _ _ Hov) as (HU & _).
  destruct (getp_defined _ _ _ _ _ (heap s) "executable_path" HU) as [exe0 He0].
  apply Hexe in He0 as Hread.
  unfold try_catch in Hrun.
  destruct (session _ _ _ _ _ _ _ _ _ _ _ _) as [[v|err] s2] eqn:Hs;
    destruct (session_browser _ _ _ _ _ _ _ _ _ _ _ _ _ _ Hs) as (evs & Hevs & Cevs & Fevs);
    specialize (Fevs exe0 He0); rewrite List.Forall_forall in Fevs.
  all: try run_prim Hrun; simplify_eq; cbn [trace]; rewrite Hevs.
  all: split_and!;
    [ rewrite ?count_app, ?count_cons, ?count_nil,
        (count_none prep_entry is_launch _ ltac:(class_cases) Fpre); cbn; lia | | ].
  all: intros ? ? ? ? Hin;
       repeat match goal with
         | Hin : _ ∈ _ ++ _ |- _ => apply elem_of_app in Hin as [Hin|Hin]
         | Hin : _ ∈ [_] |- _ => apply list_elem_of_singleton in Hin; discriminate Hin
         | Hin : _ ∈ ?l, Fp : Forall (λ e, prep_entry e = true) ?l |- _ =>
             apply (elem_of_class _ _ _ Fp) in Hin; discriminate Hin
         end.
  all: apply list_elem_of_In, Fevs in Hin; cbn in Hin.
  all: first [ exact Hin | destruct Hin as (-> & -> & ->); eauto ].
Qed.

Lemma browser_launch_and_navigation_witness :
  let tr := trace (nightly_run healthy false (config_heap true false false false)).2 in
  (PuppeteerLaunch (VStr "/usr/bin/chromium") ["--no-sandbox"; "--disable-setuid-sandbox"] true,
   Returns (VHost 1)) ∈ tr /\
  count is_launch tr <= 1 /\
  exists config,
    read (config_heap true false false false) (the_config (VHost 9)) ["settings"; "report"]
    = Ret config /\
    read (config_heap true false false false) config ["executable_path"]
    = Ret (VStr "/usr/bin/chromium").
Proof.
  intros tr.
  assert ((PuppeteerLaunch (VStr "/usr/bin/chromium")
             ["--no-sandbox"; "--disable-setuid-sandbox"] true, Returns (VHost 1)) ∈ tr) as Hin
    by (vm_compute; repeat constructor).
  destruct (browser_launch_and_navigation healthy the_config (VHost 9) (VHost 7) watcher
              (nightly false) (VStr "report_action") VNull
              (config_heap true false false false)) as (Hcount & Hlaunch & _).
  destruct (Hlaunch _ _ _ _ Hin) as (_ & _ & Hexe).
  split_and!; [exact Hin | exact Hcount | exact Hexe].
Defined.

(** ** What crosses the boundary of doReport *)

Lemma failing_app (a b : list entry) :
  Forall (λ e, returned e.2 = true) a -> failing_run b -> failing_run (a ++ b).
Proof.
  intros Fa [Fb|(before & c & e & -> & Fb)].
  - left. by apply Forall_app.
  - right. exists (a ++ before), c, e. split; [by rewrite app_assoc | by apply Forall_app].
Qed.

Lemma tidy_silent {A} (m : M A) : steps (extends (λ _, false)) m -> tidy m.
Proof.
  intros H s r s' E. apply (steps_run _ _ _ _ _ H) in E. apply extends_none in E.
  exists []. rewrite app_nil_r. split; [done|].
  destruct r; [constructor | left; constructor].
Qed.

Lemma tidy_bind {A B} (m : M A) (f : A -> M B) :
  tidy m -> (forall a, tidy (f a)) -> tidy (m ≫= f).
Proof.
  intros Hm Hf s r s' E. rewrite run_bind in E.
  destruct (m s) as [[a|e] s1] eqn:Em; apply Hm in Em as (evs1 & H1 & F1).
  - apply Hf in E as (evs2 & H2 & F2). exists (evs1 ++ evs2). split.
    + by rewrite H2, H1, app_assoc.
    + destruct r; [by apply Forall_app | by apply failing_app].
  - simplify_eq. by exists evs1.
Qed.

Lemma tidy_try {A} (m : M A) (h : exn -> M A) :
  tidy m -> rethrows h -> tidy (try_catch m h).
Proof.
  intros Hm Hh s r s' E. unfold try_catch in E.
  destruct (m s) as [[a|e] s1] eqn:Em; apply Hm in Em as (evs1 & H1 & F1).
  - simplify_eq. by exists evs1.
  - destruct (Hh e s1) as [e' He']. rewrite He' in E. simplify_eq. by exists evs1.
Qed.

Lemma tidy_call_total c : tidy (call_total c).
Proof.
  intros s r s' E. unfold call_total in E. simplify_eq.
  exists [(c, Returns VUndef)]. split; [done | by repeat constructor].
Qed.

Lemma tidy_call_host host c : tidy (call_host host c).
Proof.
  intros s r s' E. unfold call_host in E.
  destruct (host (trace s) c) as [v|e]; simplify_eq.
  - exists [(c, Returns v)]. split; [done | by repeat constructor].
  - exists [(c, Raises e)]. split; [done|]. right. exists [], c, e. split; [done | constructor].
Qed.

Lemma tidy_invoke host recv m c : tidy (invoke host recv m c).
Proof.
  destruct recv; simpl;
    first [ apply tidy_call_host | apply tidy_silent, steps_throw, extends_preorder ].
Qed.

Lemma rethrows_throw {A} (f : exn -> exn) : rethrows (λ err, @throw A (f err)).
Proof. intros e s. by eexists. Qed.

Lemma rethrows_url {A} (this : val) (f : val -> exn -> exn) :
  rethrows (λ err, url ← getp this "url"; @throw A (f url err)).
Proof.
  intros e s. rewrite run_bind.
  destruct (getp this "url" s) as [r s1] eqn:E. apply getp_inv in E as [-> ->].
  destruct (getp_pure _ _ _); by eexists.
Qed.

Ltac tidy_step :=
  lazymatch goal with
  | |- tidy (mbind _ _) => refine (tidy_bind _ _ _ _); [|intros ?]
  | |- tidy (try_catch _ _) =>
      refine (tidy_try _ _ _ _);
      [| first [ refine (rethrows_throw _) | refine (rethrows_url _ _) ] ]
  | |- tidy (call_total _) => refine (tidy_call_total _)
  | |- tidy (call_host _ _) => refine (tidy_call_host _ _)
  | |- tidy (invoke _ _ _ _) => refine (tidy_invoke _ _ _ _)
  | |- tidy (if ?b then _ else _) => destruct b
  | |- tidy (match ?p with (_, _) => _ end) => destruct p
  | |- tidy _ =>
      first [ match goal with H : _ |- _ => apply H end
            | apply tidy_silent; solve [steps_tac extends_accept] ]
  end.

Ltac tidy_tac := repeat tidy_step.

Lemma createReportFileName_tidy host filename type :
  tidy (createReportFileName host filename type).
Proof. unfold createReportFileName. tidy_tac. Qed.

Lemma prepare_tidy host getConfiguration server action actionName payload :
  tidy (prepare host getConfiguration server action actionName payload).
Proof.
  unfold prepare. pose proof createReportFileName_tidy.
  pose proof (λ config action, tidy_silent _ (overlay_extends (λ _, false) config action)).
  tidy_tac.
Qed.

Lemma Authenticator_kibana_tidy host page user pass appName timeout :
  tidy (Authenticator_kibana host page user pass appName timeout).
Proof. unfold Authenticator_kibana. tidy_tac. Qed.

Lemma Authenticator_custom_tidy host page user pass us ps ls timeout :
  tidy (Authenticator_custom host page user pass us ps ls timeout).
Proof. unfold Authenticator_custom. tidy_tac. Qed.

Lemma Authenticator_basic_tidy host page user pass encoding :
  tidy (Authenticator_basic host page user pass encoding).
Proof. unfold Authenticator_basic. tidy_tac. Qed.

Lemma Reporter_authenticate_tidy host this mode user pass timeout :
  tidy (Reporter_authenticate host this mode user pass timeout).
Proof.
  unfold Reporter_authenticate.
  pose proof Authenticator_kibana_tidy. pose proof Authenticator_custom_tidy.
  tidy_tac.
Qed.

Lemma Reporter_openPage_tidy host this url executablePath :
  tidy (Reporter_openPage host this url executablePath).
Proof.
  unfold Reporter_openPage.
  pose proof Authenticator_basic_tidy. pose proof Reporter_authenticate_tidy.
  tidy_tac.
Qed.

Lemma Reporter_screenshot_tidy host this type : tidy (Reporter_screenshot host this type).
Proof. unfold Reporter_screenshot. tidy_tac. Qed.

Lemma Reporter_pdf_tidy host this : tidy (Reporter_pdf host this).
Proof. unfold Reporter_pdf. tidy_tac. Qed.

Lemma Reporter_end_tidy host this : tidy (Reporter_end host this).
Proof. unfold Reporter_end. tidy_tac. Qed.

Lemma Reporter_new_tidy config : tidy (Reporter_new config).
Proof. unfold Reporter_new. tidy_tac. Qed.

(** A run of a sequence either stops at the first part or goes on. *)
Lemma bind_inv {A B} (m : M A) (f : A -> M B) s r s' :
  (m ≫= f) s = (r, s') ->
  (exists e, r = Throw e /\ m s = (Throw e, s')) \/
  exists a s1, m s = (Ret a, s1) /\ f a s1 = (r, s').
Proof.
  rewrite run_bind. destruct (m s) as [[a|e] s1]; [eauto|].
  intros [= <- <-]. eauto.
Qed.

Lemma tidy_returned {A} (m : M A) s a s1 s0 :
  tidy m -> extends (λ e, returned e.2) s0 s -> m s = (Ret a, s1) ->
  extends (λ e, returned e.2) s0 s1.
Proof.
  intros Hm Hacc E. apply Hm in E as (evs & H & F).
  etransitivity; [exact Hacc | by exists evs].
Qed.

Lemma tidy_raised {A} (m : M A) s e s1 s0 :
  tidy m -> extends (λ e, returned e.2) s0 s -> m s = (Throw e, s1) ->
  exists evs, trace s1 = trace s0 ++ evs /\ failing_run evs.
Proof.
  intros Hm (acc & Hacc & Facc) E. apply Hm in E as (evs & H & F).
  exists (acc ++ evs). split; [by rewrite H, Hacc, app_assoc | by apply failing_app].
Qed.

(** The [try] block is the browser session and the mail, which raise at
    their last call at most, followed by the history step. *)
Lemma session_split host config server email task action actionName
    priority subject text filename s r s' :
  session host config server email task action actionName priority subject text filename s
    = (r, s') ->
  (exists err evs, r = Throw err /\ trace s' = trace s ++ evs /\ failing_run evs) \/
  (exists evs pevs attachment,
     trace s' = trace s ++ evs ++ pevs /\
     Forall (λ e, returned e.2 = true) evs /\
     persist_run server task action actionName priority text attachment r pevs (heap s')).
Proof.
  unfold session. intros H.
  assert (Hacc : extends (λ e, returned e.2) s s) by reflexivity.
  pose proof Reporter_new_tidy. pose proof Reporter_openPage_tidy.
  pose proof Reporter_screenshot_tidy. pose proof Reporter_pdf_tidy.
  pose proof Reporter_end_tidy.
  repeat match type of H with
    | (?m ≫= _) _ = _ =>
        let Hm := fresh "Hm" in
        assert (Hm : tidy m) by tidy_tac;
        apply bind_inv in H as [(err & -> & E)|(? & ? & E & H)];
        [ left; destruct (tidy_raised _ _ _ _ _ Hm Hacc E) as (evs & ? & ?);
          by exists err, evs
        | apply (tidy_returned _ _ _ _ _ Hm Hacc) in E; clear Hacc Hm; rename E into Hacc ]
    end.
  right. apply persist_shape in H as (pevs & Hp & Hrun).
  destruct Hacc as (evs & Hevs & Fevs).
  exists evs, pevs. eexists. split_and!; [by rewrite Hp, Hevs, app_assoc | done | exact Hrun].
Qed.

Lemma persist_block host server task action actionName priority text attachment :
  steps (extends block_entry)
        (persist host server task action actionName priority text attachment).
Proof. unfold persist. steps_tac extends_accept. Qed.

Lemma session_block host config server email task action actionName
    priority subject text filename :
  steps (extends block_entry)
        (session host config server email task action actionName
                 priority subject text filename).
Proof.
  unfold session, Reporter_new, Reporter_openPage, Reporter_authenticate,
    Authenticator_kibana, Authenticator_custom, Authenticator_basic,
    Reporter_screenshot, Reporter_pdf, Reporter_end.
  pose proof persist_block.
  steps_tac extends_accept.
Qed.

(** The preparation raises at its last call, with the error of that call,
    or without a call that raised. *)
Lemma prepare_raises host getConfiguration server action actionName payload s err s1 :
  prepare host getConfiguration server action actionName payload s = (Throw err, s1) ->
  exists evs, trace s1 = trace s ++ evs /\
    forall c e, (c, Raises e) ∈ evs -> e = err /\ exists before, evs = before ++ [(c, Raises e)].
Proof.
  unfold prepare, createReportFileName. intros H.
  run_inv H.
  all: repeat match goal with
         | E : or_default _ _ _ = _ |- _ => apply or_default_inv in E as [? ?]; simplify_eq
         | E : overlay _ _ _ = _ |- _ =>
             apply (steps_run _ _ _ _ _ (overlay_extends (λ _, false) _ _)) in E;
             apply extends_none in E; cbn [heap trace] in E
         end.
  all: try match goal with E : trace _ = _ |- _ => rewrite E; clear E end.
  all: cbn [heap trace]; rewrite <- ?app_assoc; cbn [app].
  all: first [ exists []; split; [by rewrite app_nil_r|] | eexists; split; [reflexivity|] ].
  all: intros c e Hin; rewrite ?elem_of_cons, ?elem_of_nil in Hin.
  all: repeat match goal with
         | Hin : _ \/ _ |- _ => destruct Hin as [Hin|Hin]
         | Hin : False |- _ => destruct Hin
         end; simplify_eq.
  all: split; [reflexivity|].
  all: match goal with
       | |- exists before, ?l = _ => exists (removelast l); reflexivity
       end.
Qed.

Lemma elem_of_last {A} (x y : A) (before : list A) :
  x ∈ before ++ [y] -> x ∈ before \/ x = y.
Proof. rewrite elem_of_app, list_elem_of_singleton. tauto. Qed.

Lemma raised_not_returned c e (l : list entry) :
  Forall (λ e, returned e.2 = true) l -> (c, Raises e) ∈ l -> False.
Proof. intros F Hin. by apply (elem_of_class (λ e, returned e.2) _ _ F) in Hin. Qed.

Lemma failing_last c e (evs : list entry) :
  failing_run evs -> (c, Raises e) ∈ evs ->
  exists before, evs = before ++ [(c, Raises e)].
Proof.
  intros [F|(before & c' & e' & -> & F)] Hin.
  - by destruct (raised_not_returned _ _ _ F Hin).
  - apply elem_of_last in Hin as [Hin|Hin].
    + by destruct (raised_not_returned _ _ _ F Hin).
    + simplify_eq. by exists before.
Qed.

Ltac same_trace := rewrite <- ?app_assoc; cbn [app]; rewrite ?app_nil_r; reflexivity.

